(** * Zoho Desk bulk ticket relay: the job registry, the batch worker,
      the interruptible delay, delivery verification and the token cache.

    A shallow embedding of [server/index.js].  The Node process is a single
    cooperative thread: a handler or a stretch of the worker between two
    [await]s runs without interruption, and other handlers run only while
    the worker is suspended.  The embedding makes that explicit: the worker
    is a function over the registry and a schedule that says which control
    messages are handled during each suspension; it returns the history of
    what happened, in order.

    The handlers that do not share state with a worker are plain
    functions of their input, of what the upstream calls settle to and of
    the state they read: the helpdesk call, the connection check, the
    OAuth flow, the single-ticket and verification endpoints, the profile
    endpoints and the two files.  The last sections embed the handlers of
    the dashboard that send the control messages and receive the
    results. *)

From Stdlib Require Import ZArith String Ascii List Bool Lia.
From stdpp Require Import gmap strings list fin_maps pretty.
From Equations Require Import Equations.
Import ListNotations.
Open Scope string_scope.
Open Scope Z_scope.
Open Scope list_scope.
Set Warnings "-register-all".

(* ===================================================================== *)
(** ** JavaScript values *)
(* ===================================================================== *)

(** JSON data as the server sees it, plus [undefined].  Numbers are the
    integers that [String] prints digit by digit (below 10^21 in absolute
    value); strings are sequences of code units below 256. *)
Inductive Value :=
| VUndefined
| VNull
| VBool (b : bool)
| VNum (n : Z)
| VStr (s : string)
| VArr (items : list Value)
| VObj (fields : list (string * Value)).

(** An object literal: property names with their values. *)
Definition Obj := list (string * Value).

(** [if (v)], [v && ...], [v || ...], [!v]. *)
Definition truthy (v : Value) : bool :=
  match v with
  | VUndefined | VNull => false
  | VBool b => b
  | VNum n => negb (n =? 0)
  | VStr s => negb (String.eqb s "")
  | VArr _ | VObj _ => true
  end.

Definition truthyStr (s : string) : bool := negb (String.eqb s "").

(** [a.join(sep)] on strings. *)
Fixpoint join (sep : string) (l : list string) : string :=
  match l with
  | [] => ""
  | [s] => s
  | s :: rest => s +:+ sep +:+ join sep rest
  end.

(** [String(v)] and [`${v}`]. *)
Fixpoint toStr (v : Value) : string :=
  match v with
  | VUndefined => "undefined"
  | VNull => "null"
  | VBool true => "true"
  | VBool false => "false"
  | VNum n => pretty n
  | VStr s => s
  | VArr items =>
      join "," (map (fun x => match x with
                              | VUndefined | VNull => ""
                              | _ => toStr x
                              end) items)
  | VObj _ => "[object Object]"
  end.

(** [o.k] on an object literal: [undefined] when the property is absent. *)
Fixpoint field (o : Obj) (k : string) : Value :=
  match o with
  | [] => VUndefined
  | (k', v) :: rest => if String.eqb k' k then v else field rest k
  end.

(** [v.k] on a value that is not null or undefined: only objects carry the
    properties read by this server. *)
Definition prop (v : Value) (k : string) : Value :=
  match v with
  | VObj o => field o k
  | _ => VUndefined
  end.

(** The property names every object created as [{}] inherits from
    [Object.prototype]. *)
Definition objectPrototype : list string :=
  ["constructor"; "__defineGetter__"; "__defineSetter__"; "hasOwnProperty";
   "__lookupGetter__"; "__lookupSetter__"; "isPrototypeOf";
   "propertyIsEnumerable"; "toString"; "valueOf"; "__proto__";
   "toLocaleString"].

Definition inherited (k : string) : bool :=
  existsb (String.eqb k) objectPrototype.

(** What [o[k]] finds on an object created as [{}] and filled by
    assignments [o[k'] = v], the map holding the properties so assigned:
    the value assigned, or else what [Object.prototype] has under that
    name (a function, or the prototype itself for [__proto__]), an object
    with none of the properties this server reads, or else nothing.  The
    server assigns under the names of profiles it has found a token for
    and under the states it has drawn, never under [__proto__]. *)
Inductive Member (A : Type) :=
| Own (a : A)
| Inherited
| Absent.
Arguments Own {A} a.
Arguments Inherited {A}.
Arguments Absent {A}.

Definition member {A} (o : gmap string A) (k : string) : Member A :=
  match o !! k with
  | Some a => Own a
  | None => if inherited k then Inherited else Absent
  end.

(** [s.includes(sub)]. *)
Fixpoint includes (sub s : string) : bool :=
  String.prefix sub s ||
  match s with
  | EmptyString => false
  | String _ rest => includes sub rest
  end.

(** The characters the regular expression's [.] refuses. *)
Definition isLineTerminator (c : ascii) : bool :=
  (Ascii.eqb c "010" || Ascii.eqb c "013")%char.

(** [(.*?)<\/title>] anchored at the start of [s]: the shortest run of
    characters other than line terminators that is followed by the
    closing tag. *)
Fixpoint lazyUntilClose (s : string) : option string :=
  if String.prefix "</title>" s then Some ""
  else match s with
       | EmptyString => None
       | String c rest =>
           if isLineTerminator c then None
           else option_map (String c) (lazyUntilClose rest)
       end.

Fixpoint dropChars (n : nat) (s : string) : string :=
  match n, s with
  | O, _ => s
  | S n', String _ rest => dropChars n' rest
  | S _, EmptyString => EmptyString
  end.

(** [s.match(/<title>(.*?)<\/title>/)], reduced to its first group: the
    leftmost start at which the pattern matches. *)
Fixpoint matchTitle (s : string) : option string :=
  match (if String.prefix "<title>" s
         then lazyUntilClose (dropChars 7 s) else None) with
  | Some t => Some t
  | None => match s with
            | EmptyString => None
            | String _ rest => matchTitle rest
            end
  end.

(** White space of [String.prototype.trim] among code units below 256. *)
Definition isWhiteSpace (c : ascii) : bool :=
  let n := nat_of_ascii c in
  ((9 <=? n) && (n <=? 13) || (n =? 32) || (n =? 160))%nat.

Fixpoint trimStart (s : string) : string :=
  match s with
  | EmptyString => EmptyString
  | String c rest => if isWhiteSpace c then trimStart rest else s
  end.

Fixpoint trimEnd (s : string) : string :=
  match s with
  | EmptyString => EmptyString
  | String c rest =>
      match trimEnd rest with
      | EmptyString => if isWhiteSpace c then EmptyString else String c EmptyString
      | t => String c t
      end
  end.

(** [s.trim()]. *)
Definition trim (s : string) : string := trimEnd (trimStart s).

(* ===================================================================== *)
(** ** Errors and [parseError] *)
(* ===================================================================== *)

Module Response.
(** [error.response] of a rejected HTTP call. *)
Record t := { data : Value; status : Z; statusText : string }.
End Response.

Module JsError.
(** What [parseError] reads from a caught error: axios sets [response]
    when the server answered, [request] when it did not; [message] and
    [stack] are those of any [Error]. *)
Record t := {
  response : option Response.t;
  request : bool;
  message : string;
  stack : string
}.
End JsError.

Module ParsedError.
Record t := { message : Value; fullResponse : Value }.

(** The object literal [{ message, fullResponse }]. *)
Definition toValue (p : t) : Value :=
  VObj [("message", message p); ("fullResponse", fullResponse p)].
End ParsedError.

(** [typeof v === 'string']. *)
Definition isString (v : Value) : bool :=
  match v with
  | VStr _ => true
  | _ => false
  end.

Definition parseError (error : JsError.t) : ParsedError.t :=
  match JsError.response error with
  | Some response =>
      let data := Response.data response in
      if truthy data && truthy (prop data "message") then
        {| ParsedError.message := prop data "message";
           ParsedError.fullResponse := data |}
      else if isString data && includes "<title>" (toStr data) then
        let titleMatch := matchTitle (toStr data) in
        let title := match titleMatch with
                     | Some t => t
                     | None => "HTML Error Page Received"
                     end in
        {| ParsedError.message := VStr ("Zoho Server Error: " +:+ title);
           ParsedError.fullResponse := data |}
      else
        {| ParsedError.message :=
             VStr ("HTTP Error " +:+ pretty (Response.status response)
                   +:+ ": " +:+ Response.statusText response);
           ParsedError.fullResponse :=
             if truthy data then data
             else VStr (Response.statusText response) |}
  | None =>
      if JsError.request error then
        {| ParsedError.message :=
             VStr "Network Error: No response received from Zoho API.";
           ParsedError.fullResponse := VStr (JsError.message error) |}
      else
        {| ParsedError.message :=
             VStr (if truthyStr (JsError.message error)
                   then JsError.message error
                   else "An unknown error occurred.");
           ParsedError.fullResponse := VStr (JsError.stack error) |}
  end.

(** The result of awaiting a promise: it resolves with a value or rejects
    with an error that the surrounding [try] catches. *)
Inductive Outcome (A : Type) :=
| Resolved (a : A)
| Rejected (e : JsError.t).
Arguments Resolved {A} a.
Arguments Rejected {A} e.

(** The [TypeError] thrown when the property [k] of [undefined] is read,
    with the message Node's engine gives it. *)
Definition undefinedRead (k stack : string) : JsError.t :=
  {| JsError.response := None;
     JsError.request := false;
     JsError.message :=
       "Cannot read properties of undefined (reading '" +:+ k +:+ "')";
     JsError.stack := stack |}.

(* ===================================================================== *)
(** ** The job registry and its handlers *)
(* ===================================================================== *)

Inductive Status := running | paused | ended.

#[global] Instance Status_eq_dec : EqDecision Status.
Proof. solve_decision. Defined.

(** The object stored under a job identifier: [{ status }]. *)
Record Job := { status : Status }.

#[global] Instance Job_eq_dec : EqDecision Job.
Proof. solve_decision. Defined.

(** [activeJobs]: job identifier to job. *)
Abbreviation Registry := (gmap string Job).

Definition createJobId (socketId profileName : string) : string :=
  socketId +:+ "_" +:+ profileName.

(** First statement of the [startBulkCreate] handler:
    [activeJobs[jobId] = { status: 'running' }]. *)
Definition startJob (socketId profileName : string) (activeJobs : Registry)
  : Registry :=
  let jobId := createJobId socketId profileName in
  <[jobId := {| status := running |}]> activeJobs.

(** [if (activeJobs[jobId]) activeJobs[jobId].status = s]. *)
Definition setStatus (jobId : string) (s : Status) (activeJobs : Registry)
  : Registry :=
  match activeJobs !! jobId with
  | Some _ => <[jobId := {| status := s |}]> activeJobs
  | None => activeJobs
  end.

Definition pauseJob (socketId profileName : string) (activeJobs : Registry)
  : Registry :=
  let jobId := createJobId socketId profileName in
  setStatus jobId paused activeJobs.

Definition resumeJob (socketId profileName : string) (activeJobs : Registry)
  : Registry :=
  let jobId := createJobId socketId profileName in
  setStatus jobId running activeJobs.

Definition endJob (socketId profileName : string) (activeJobs : Registry)
  : Registry :=
  let jobId := createJobId socketId profileName in
  setStatus jobId ended activeJobs.

(** The [disconnect] handler: every job whose identifier starts with the
    socket's id is deleted. *)
Definition disconnect (socketId : string) (activeJobs : Registry) : Registry :=
  filter (fun kv => String.prefix socketId (fst kv) = false) activeJobs.

(** [delete activeJobs[jobId]], as the worker's [finally] does it. *)
Definition removeJob (jobId : string) (activeJobs : Registry) : Registry :=
  delete jobId activeJobs.

(** A control message handled while some worker is suspended.  [Start] and
    [Finish] are the registry effects of another batch started on the same
    connection: its first statement and the deletion in its [finally]. *)
Inductive Signal :=
| Pause (socketId profileName : string)
| Resume (socketId profileName : string)
| End (socketId profileName : string)
| Start (socketId profileName : string)
| Finish (socketId profileName : string)
| Disconnect (socketId : string).

Definition handle (sig : Signal) (activeJobs : Registry) : Registry :=
  match sig with
  | Pause s p => pauseJob s p activeJobs
  | Resume s p => resumeJob s p activeJobs
  | End s p => endJob s p activeJobs
  | Start s p => startJob s p activeJobs
  | Finish s p => removeJob (createJobId s p) activeJobs
  | Disconnect s => disconnect s activeJobs
  end.

(** Handlers run one after the other, in arrival order. *)
Definition deliver (sigs : list Signal) (activeJobs : Registry) : Registry :=
  fold_left (fun r sig => handle sig r) sigs activeJobs.

(** [activeJobs[jobId]?.status]. *)
Definition statusOf (activeJobs : Registry) (jobId : string) : option Status :=
  status <$> activeJobs !! jobId.

(** [!activeJobs[jobId] || activeJobs[jobId].status === 'ended']. *)
Definition cancelled (activeJobs : Registry) (jobId : string) : bool :=
  match statusOf activeJobs jobId with
  | None => true
  | Some ended => true
  | Some _ => false
  end.

(** [activeJobs[jobId]?.status === 'paused']. *)
Definition isPaused (activeJobs : Registry) (jobId : string) : bool :=
  match statusOf activeJobs jobId with
  | Some paused => true
  | _ => false
  end.

(* ===================================================================== *)
(** ** Profiles and the access-token cache *)
(* ===================================================================== *)

Module Profile.
Record t := {
  profileName : string;
  orgId : string;
  refreshToken : string;
  defaultDepartmentId : string;
  fromEmailAddress : option string;
  clientId : string;
  clientSecret : string;
  mailReplyAddressId : option string
}.
End Profile.

(** [profiles.find(p => p.profileName === name)]. *)
Definition findProfile (profiles : list Profile.t) (name : string)
  : option Profile.t :=
  List.find (fun p => String.eqb (Profile.profileName p) name) profiles.

Module TokenData.
(** [response.data] of the token endpoint, as far as the server reads
    it. *)
Record t := { access_token : Value; expires_in : Z; error : Value }.
End TokenData.

Module CacheEntry.
(** [{ data, expiresAt }]; [expiresAt] is in milliseconds. *)
Record t := { data : TokenData.t; expiresAt : Z }.
End CacheEntry.

Module TokenRequest.
(** The form posted to [https://accounts.zoho.com/oauth/v2/token]. *)
Record t := {
  refresh_token : string;
  client_id : string;
  client_secret : string;
  grant_type : string;
  scope : string
}.
End TokenRequest.

Module TokenResult.
(** What a call of [getValidAccessToken] leaves behind: the value it
    resolves with or the error it rethrows, the cache afterwards, and
    the requests it posted to the token endpoint. *)
Record t := {
  result : Outcome TokenData.t;
  tokenCache : gmap string CacheEntry.t;
  posted : list TokenRequest.t
}.
End TokenResult.

(** The parameters of the refresh-token grant. *)
Definition refreshParams (profile : Profile.t) : TokenRequest.t :=
  {| TokenRequest.refresh_token := Profile.refreshToken profile;
     TokenRequest.client_id := Profile.clientId profile;
     TokenRequest.client_secret := Profile.clientSecret profile;
     TokenRequest.grant_type := "refresh_token";
     TokenRequest.scope := "Desk.tickets.ALL,Desk.settings.ALL" |}.

(** The [try] block of [getValidAccessToken]: the refresh-token grant is
    posted; a response without a truthy [error] is stored under the
    profile name with its expiry.  [now] is [Date.now()] at entry, [post]
    the token endpoint and [stack] the stack text the engine gives an
    error created here. *)
Definition refresh (now : Z) (stack : string)
    (post : TokenRequest.t -> Outcome TokenData.t)
    (profile : Profile.t) (tokenCache : gmap string CacheEntry.t)
  : TokenResult.t :=
  let name := Profile.profileName profile in
  let params := refreshParams profile in
  match post params with
  | Resolved data =>
      if truthy (TokenData.error data) then
        {| TokenResult.result :=
             Rejected {| JsError.response := None;
                         JsError.request := false;
                         JsError.message := toStr (TokenData.error data);
                         JsError.stack := stack |};
           TokenResult.tokenCache := tokenCache;
           TokenResult.posted := [params] |}
      else
        let expires_in := TokenData.expires_in data in
        {| TokenResult.result := Resolved data;
           TokenResult.tokenCache :=
             <[name := {| CacheEntry.data := data;
                          CacheEntry.expiresAt :=
                            now + ((expires_in - 60) * 1000) |}]>
               tokenCache;
           TokenResult.posted := [params] |}
  | Rejected e =>
      {| TokenResult.result := Rejected e;
         TokenResult.tokenCache := tokenCache;
         TokenResult.posted := [params] |}
  end.

(** The test that opens the function reads [tokenCache[name]] three
    times: an entry stored by an earlier refresh is returned when its
    [access_token] is truthy and its [expiresAt] is later than [now]; for
    a name that [tokenCache] inherits, [.data] is [undefined] and reading
    its [access_token] throws, outside the [try]. *)
Definition getValidAccessToken (now : Z) (stack : string)
    (post : TokenRequest.t -> Outcome TokenData.t)
    (profile : Profile.t) (tokenCache : gmap string CacheEntry.t)
  : TokenResult.t :=
  let name := Profile.profileName profile in
  match member tokenCache name with
  | Own entry =>
      if truthy (TokenData.access_token (CacheEntry.data entry))
         && (now <? CacheEntry.expiresAt entry)
      then
        {| TokenResult.result := Resolved (CacheEntry.data entry);
           TokenResult.tokenCache := tokenCache;
           TokenResult.posted := [] |}
      else refresh now stack post profile tokenCache
  | Inherited =>
      {| TokenResult.result := Rejected (undefinedRead "access_token" stack);
         TokenResult.tokenCache := tokenCache;
         TokenResult.posted := [] |}
  | Absent => refresh now stack post profile tokenCache
  end.

(* ===================================================================== *)
(** ** What the server does: requests, events, history *)
(* ===================================================================== *)

Module Request.
(** The arguments of [makeApiCall]. *)
Record t := { method : string; relativeUrl : string; data : Value }.
End Request.

Module TicketResult.
(** Payload of a [ticketResult] event.  The success path sets
    [ticketNumber] and [details], the failure path sets [error]. *)
Record t := {
  email : string;
  success : bool;
  ticketNumber : option Value;
  details : option string;
  error : option Value;
  fullResponse : Value;
  profileName : string
}.
End TicketResult.

Module Update.
(** Payload of a verification event. *)
Record t := {
  ticketNumber : Value;
  success : bool;
  details : string;
  fullResponse : Value;
  profileName : string
}.
End Update.

(** [socket.emit(name, payload)]. *)
Inductive Event :=
| ticketResult (r : TicketResult.t)
| bulkError (message profileName : string)
| bulkEnded (profileName : string)
| bulkComplete (profileName : string)
| verification (resultEventName : string) (u : Update.t).

(** The timers the server waits on. *)
Inductive Timer :=
| pauseTimer      (* [setTimeout(resolve, 500)] of the pause poll *)
| sleepTimer      (* one period of [setInterval(..., 100)] *)
| verifyTimer.    (* [setTimeout(resolve, 10000)] before verification *)

Definition duration (t : Timer) : Z :=
  match t with
  | pauseTimer => 500
  | sleepTimer => 100
  | verifyTimer => 10000
  end.

(** One entry of a history. *)
Inductive Action :=
| Handled (sig : Signal)      (* a control message handled while suspended *)
| Wait (t : Timer)            (* the timer awaited until it fires *)
| Call (req : Request.t)      (* [makeApiCall] issued and awaited *)
| Logged (ticketNumber : Value) (email : string)  (* [writeToTicketLog] *)
| Emit (ev : Event)           (* [socket.emit] *)
| Verify (ticket : Obj).      (* [verifyTicketEmail] launched, not awaited *)

(** The registry together with the control messages still to come: the
    n-th element of [pending] is handled during the worker's n-th
    suspension from now; after the last one nothing more arrives. *)
Record Machine := {
  activeJobs : Registry;
  pending : list (list Signal)
}.

(** A stretch of the worker: from a machine state to a value (or [None]
    when the worker never leaves the stretch), the state afterwards and
    the history of the stretch. *)
Definition Task (A : Type) : Type := Machine -> option A * Machine * list Action.

Definition ret {A} (a : A) : Task A := fun m => (Some a, m, []).

Definition bind {A B} (t : Task A) (k : A -> Task B) : Task B :=
  fun m =>
    match t m with
    | (Some a, m1, h1) =>
        match k a m1 with
        | (b, m2, h2) => (b, m2, h1 ++ h2)
        end
    | (None, m1, h1) => (None, m1, h1)
    end.

Declare Scope task_scope.
Delimit Scope task_scope with task.
Notation "x <- t ;; k" := (bind t (fun x => k))
  (at level 100, t at next level, k at level 200, right associativity)
  : task_scope.
Notation "t ;; k" := (bind t (fun _ => k))
  (at level 100, k at level 200, right associativity) : task_scope.
Open Scope task_scope.

(** Read the registry. *)
Definition getJobs : Task Registry := fun m => (Some (activeJobs m), m, []).

(** Change the registry (the worker's own writes). *)
Definition setJobs (f : Registry -> Registry) : Task unit :=
  fun m => (Some tt, {| activeJobs := f (activeJobs m); pending := pending m |}, []).

(** Something observable done without suspending. *)
Definition act (a : Action) : Task unit := fun m => (Some tt, m, [a]).

(** What happens while the worker is suspended once: the handlers of the
    messages that arrive meanwhile run, in order. *)
Definition arrive (m : Machine) : Machine * list Action :=
  match pending m with
  | [] => (m, [])
  | sigs :: rest =>
      ({| activeJobs := deliver sigs (activeJobs m); pending := rest |},
       map Handled sigs)
  end.

(** An [await]. *)
Definition suspend : Task unit :=
  fun m => match arrive m with (m1, h1) => (Some tt, m1, h1) end.

(** [await makeApiCall(...)]: the request goes out, the worker is
    suspended until the answer is in. *)
Definition awaitCall {A} (req : Request.t) (answer : Outcome A)
  : Task (Outcome A) :=
  act (Call req) ;; suspend ;; ret answer.

(* ===================================================================== *)
(** ** The pause poll and the interruptible delay *)
(* ===================================================================== *)

(** [while (activeJobs[jobId]?.status === 'paused')
       await new Promise(resolve => setTimeout(resolve, 500));]
    When the job is paused and no message is left to arrive, the loop
    polls for ever: the result is [None]. *)
Fixpoint pausePoll (jobId : string) (sched : list (list Signal))
    (jobs : Registry) : option unit * Machine * list Action :=
  if isPaused jobs jobId then
    match sched with
    | [] => (None, {| activeJobs := jobs; pending := [] |}, [Wait pauseTimer])
    | sigs :: rest =>
        match pausePoll jobId rest (deliver sigs jobs) with
        | (v, m, h) => (v, m, Wait pauseTimer :: map Handled sigs ++ h)
        end
    end
  else (Some tt, {| activeJobs := jobs; pending := sched |}, []).

Definition whilePaused (jobId : string) : Task unit :=
  fun m => pausePoll jobId (pending m) (activeJobs m).

(** The callback of [setInterval(..., 100)] in [interruptibleSleep], fired
    with [elapsed] milliseconds counted so far. *)
Equations? sleepPoll (ms elapsed : Z) (jobId : string) (m : Machine)
  : Machine * list Action by wf (Z.to_nat (ms - elapsed)) lt :=
  sleepPoll ms elapsed jobId m with arrive m => {
    | (m1, h1) with cancelled (activeJobs m1) jobId => {
        | true => (m1, Wait sleepTimer :: h1);
        | false with Z_lt_dec (elapsed + 100) ms => {
            | left _ with sleepPoll ms (elapsed + 100) jobId m1 => {
                | (m2, h2) => (m2, Wait sleepTimer :: h1 ++ h2) };
            | right _ => (m1, Wait sleepTimer :: h1) } } }.
Proof. lia. Defined.

Definition interruptibleSleep (ms : Z) (jobId : string) : Task unit :=
  fun m =>
    if ms <=? 0 then (Some tt, m, [])
    else match sleepPoll ms 0 jobId m with (m1, h1) => (Some tt, m1, h1) end.

(* ===================================================================== *)
(** ** The batch worker *)
(* ===================================================================== *)

Module BulkData.
(** The payload of [startBulkCreate]. *)
Record t := {
  emails : list string;
  subject : string;
  description : string;
  delay : Z;
  selectedProfileName : string;
  sendDirectReply : bool;
  verifyEmail : bool
}.
End BulkData.

Module Upstream.
(** The helpdesk API as the worker at index [i] meets it: the outcome of
    the create-ticket call and of the send-reply call. *)
Record t := {
  create : nat -> Outcome Obj;
  reply : nat -> Outcome Value
}.
End Upstream.

Definition dquote : string := String (ascii_of_nat 34) EmptyString.

Definition optStr (o : option string) : Value :=
  match o with
  | Some s => VStr s
  | None => VUndefined
  end.

Section Worker.

Variable socketId : string.
Variable data : BulkData.t.
Variable activeProfile : Profile.t.
Variable upstream : Upstream.t.

#[local] Abbreviation selectedProfileName :=
  (BulkData.selectedProfileName data).
#[local] Abbreviation jobId := (createJobId socketId selectedProfileName).

Definition ticketData (email : string) : Value :=
  VObj [("subject", VStr (BulkData.subject data));
        ("description", VStr (BulkData.description data));
        ("departmentId", VStr (Profile.defaultDepartmentId activeProfile));
        ("contact", VObj [("email", VStr email)]);
        ("channel", VStr "Email")].

Definition replyData (email : string) : Value :=
  VObj [("fromEmailAddress", optStr (Profile.fromEmailAddress activeProfile));
        ("to", VStr email);
        ("content", VStr (BulkData.description data));
        ("contentType", VStr "html");
        ("channel", VStr "EMAIL")].

Definition createRequest (email : string) : Request.t :=
  {| Request.method := "post";
     Request.relativeUrl := "/api/v1/tickets";
     Request.data := ticketData email |}.

Definition replyRequest (newTicket : Obj) (email : string) : Request.t :=
  {| Request.method := "post";
     Request.relativeUrl :=
       "/api/v1/tickets/" +:+ toStr (field newTicket "id") +:+ "/sendReply";
     Request.data := replyData email |}.

(** The three variables the success path assigns before it emits:
    [overallSuccess], [successMessage] and the [sendReply] property of
    [fullResponseData] when there is one. *)
Definition sendReply (i : nat) (newTicket : Obj) (email : string)
  : Task (bool * string * Obj) :=
  let number := toStr (field newTicket "ticketNumber") in
  if BulkData.sendDirectReply data then
    replyResponse <- awaitCall (replyRequest newTicket email)
                               (Upstream.reply upstream i) ;;
    match replyResponse with
    | Resolved replyBody =>
        ret (true,
             "Ticket #" +:+ number +:+ " created and reply sent.",
             [("sendReply", replyBody)])
    | Rejected replyError =>
        ret (false,
             "Ticket #" +:+ number +:+ " created, but reply failed: "
               +:+ toStr (ParsedError.message (parseError replyError)),
             [("sendReply",
               VObj [("error", ParsedError.toValue (parseError replyError))])])
    end
  else
    ret (true, "Ticket #" +:+ number +:+ " created.", []).

(** The inner [try]/[catch] of the loop body. *)
Definition processRecipient (i : nat) (email : string) : Task unit :=
  ticketResponse <- awaitCall (createRequest email)
                              (Upstream.create upstream i) ;;
  match ticketResponse with
  | Resolved newTicket =>
      act (Logged (field newTicket "ticketNumber") email) ;;
      outcome <- sendReply i newTicket email ;;
      match outcome with
      | (overallSuccess, successMessage, replyPart) =>
          act (Emit (ticketResult
            {| TicketResult.email := email;
               TicketResult.success := overallSuccess;
               TicketResult.ticketNumber :=
                 Some (field newTicket "ticketNumber");
               TicketResult.details := Some successMessage;
               TicketResult.error := None;
               TicketResult.fullResponse :=
                 VObj (("ticketCreate", VObj newTicket) :: replyPart);
               TicketResult.profileName := selectedProfileName |})) ;;
          if BulkData.verifyEmail data then act (Verify newTicket)
          else ret tt
      end
  | Rejected error =>
      let parsed := parseError error in
      act (Emit (ticketResult
        {| TicketResult.email := email;
           TicketResult.success := false;
           TicketResult.ticketNumber := None;
           TicketResult.details := None;
           TicketResult.error := Some (ParsedError.message parsed);
           TicketResult.fullResponse := ParsedError.fullResponse parsed;
           TicketResult.profileName := selectedProfileName |}))
  end.

(** The loop body from [const email = emails[i]] on; [next] is the rest
    of the loop. *)
Definition loopBody (i : nat) (email : string) (next : Task unit)
  : Task unit :=
  if String.eqb (trim email) "" then next
  else processRecipient i email ;; next.

(** One iteration at index [i]; [next] is the rest of the loop.  A
    [break] returns without running [next]. *)
Definition iteration (i : nat) (email : string) (next : Task unit)
  : Task unit :=
  jobs <- getJobs ;;
  if cancelled jobs jobId then ret tt
  else
    whilePaused jobId ;;
    (if (0 <? i)%nat && (0 <? BulkData.delay data)
     then interruptibleSleep (BulkData.delay data * 1000) jobId
     else ret tt) ;;
    jobs <- getJobs ;;
    if cancelled jobs jobId then ret tt
    else loopBody i email next.

(** [for (let i = ...; i < emails.length; i++)], entered at index [i]
    with the recipients from [i] on. *)
Fixpoint forLoop (i : nat) (emails : list string) : Task unit :=
  match emails with
  | [] => ret tt
  | email :: rest => iteration i email (forLoop (S i) rest)
  end.

End Worker.

(** The statements before the loop: the message of the [Error] thrown, or
    the profile found. *)
Definition setup (profiles : list Profile.t) (data : BulkData.t)
  : string + Profile.t :=
  match findProfile profiles (BulkData.selectedProfileName data) with
  | None => inl "Profile not found."
  | Some activeProfile =>
      if BulkData.sendDirectReply data
         && negb (truthy (optStr (Profile.fromEmailAddress activeProfile)))
      then inl ("Profile " +:+ dquote +:+ BulkData.selectedProfileName data
                +:+ dquote +:+ " is missing " +:+ dquote
                +:+ "fromEmailAddress" +:+ dquote +:+ ".")
      else inr activeProfile
  end.

(** The [finally] block. *)
Definition finish (jobId profileName : string) : Task unit :=
  jobs <- getJobs ;;
  match jobs !! jobId with
  | Some job =>
      act (Emit (match status job with
                 | ended => bulkEnded profileName
                 | _ => bulkComplete profileName
                 end)) ;;
      setJobs (removeJob jobId)
  | None => ret tt
  end.

(** The [startBulkCreate] handler of the connection [socketId];
    [profiles] is what [readProfiles()] returns. *)
Definition startBulkCreate (socketId : string) (profiles : list Profile.t)
    (upstream : Upstream.t) (data : BulkData.t) : Task unit :=
  let selectedProfileName := BulkData.selectedProfileName data in
  let jobId := createJobId socketId selectedProfileName in
  setJobs (startJob socketId selectedProfileName) ;;
  match setup profiles data with
  | inr activeProfile =>
      forLoop socketId data activeProfile upstream 0 (BulkData.emails data)
  | inl message =>
      act (Emit (bulkError (if truthyStr message then message
                            else "A critical server error occurred.")
                           selectedProfileName))
  end ;;
  finish jobId selectedProfileName.

(* ===================================================================== *)
(** ** Delivery verification *)
(* ===================================================================== *)

Module Feed.
(** [response.data] of a ticket-history call: its [data] property is an
    array or is missing. *)
Record t := { data : option (list Value) }.

Definition toValue (f : t) : Value :=
  match data f with
  | Some events => VObj [("data", VArr events)]
  | None => VObj []
  end.
End Feed.

Module Alerts.
(** [response.data] of the failure-alert call: its [data] property is an
    array of alert objects or is missing. *)
Record t := { data : option (list Obj) }.
End Alerts.

(** [x || []]. *)
Definition orEmpty {A} (o : option (list A)) : list A :=
  match o with
  | Some l => l
  | None => []
  end.

Definition historyRequest (ticket : Obj) (eventFilter : string) : Request.t :=
  {| Request.method := "get";
     Request.relativeUrl :=
       "/api/v1/tickets/" +:+ toStr (field ticket "id")
       +:+ "/History?eventFilter=" +:+ eventFilter;
     Request.data := VNull |}.

Definition alertsRequest (profile : Profile.t) : Request.t :=
  {| Request.method := "get";
     Request.relativeUrl :=
       "/api/v1/emailFailureAlerts?department="
       +:+ Profile.defaultDepartmentId profile;
     Request.data := VNull |}.

(** [data?.find(f => String(f.ticketNumber) === String(ticket.ticketNumber))]. *)
Definition findFailure (alerts : Alerts.t) (ticket : Obj) : option Obj :=
  match Alerts.data alerts with
  | Some entries =>
      List.find (fun f => String.eqb (toStr (field f "ticketNumber"))
                                     (toStr (field ticket "ticketNumber")))
                entries
  | None => None
  end.

(** [verifyTicketEmail(ticket, profile, socket, resultEventName)], as the
    history of what it does.  [histories] is what [Promise.all] of the two
    history calls settles to, [alerts] what the failure-alert call settles
    to when it is issued. *)
Definition verifyTicketEmail (ticket : Obj) (profile : Profile.t)
    (resultEventName : string)
    (histories : Outcome (Feed.t * Feed.t)) (alerts : Outcome Alerts.t)
  : list Action :=
  let number := field ticket "ticketNumber" in
  let created := "Ticket #" +:+ toStr number +:+ " created. " in
  let emit success details verifyEmail :=
    Emit (verification resultEventName
      {| Update.ticketNumber := number;
         Update.success := success;
         Update.details := details;
         Update.fullResponse :=
           VObj [("ticketCreate", VObj ticket); ("verifyEmail", VObj verifyEmail)];
         Update.profileName := Profile.profileName profile |}) in
  let calls :=
    [Wait verifyTimer;
     Call (historyRequest ticket "WorkflowHistory");
     Call (historyRequest ticket "NotificationRuleHistory")] in
  match histories with
  | Resolved (workflowHistory, notificationHistory) =>
      let allHistoryEvents :=
        orEmpty (Feed.data workflowHistory)
        ++ orEmpty (Feed.data notificationHistory) in
      let history :=
        ("history",
         VObj [("workflowHistory", Feed.toValue workflowHistory);
               ("notificationHistory", Feed.toValue notificationHistory)]) in
      if (0 <? length allHistoryEvents)%nat then
        calls ++
        [emit true (created +:+ "Email verification: Sent successfully.")
              [history]]
      else
        match alerts with
        | Resolved failureResponse =>
            let failure := findFailure failureResponse ticket in
            let verificationMessage :=
              match failure with
              | Some f => "Email verification: Failed. Reason: "
                          +:+ toStr (field f "reason")
              | None => "Email verification: Not Found."
              end in
            calls ++
            [Call (alertsRequest profile);
             emit false (created +:+ verificationMessage)
                  [history;
                   ("failure",
                    match failure with
                    | Some f => VObj f
                    | None => VStr "No specific failure found for this ticket."
                    end)]]
        | Rejected error =>
            calls ++
            [Call (alertsRequest profile);
             emit false
                  (created +:+ "Email verification: Failed to check status.")
                  [history;
                   ("error", ParsedError.message (parseError error))]]
        end
  | Rejected error =>
      calls ++
      [emit false (created +:+ "Email verification: Failed to check status.")
            [("error", ParsedError.message (parseError error))]]
  end.


(* ===================================================================== *)
(** ** Reading a history *)
(* ===================================================================== *)

(** The registry after the handlers recorded in a history have run. *)
Fixpoint replay (h : list Action) (r : Registry) : Registry :=
  match h with
  | [] => r
  | Handled sig :: rest => replay rest (handle sig r)
  | _ :: rest => replay rest r
  end.

(** [makeApiCall('post', '/api/v1/tickets', ...)]. *)
Definition isCreate (req : Request.t) : bool :=
  String.eqb (Request.method req) "post"
  && String.eqb (Request.relativeUrl req) "/api/v1/tickets".

Definition isCreateCall (a : Action) : bool :=
  match a with
  | Call req => isCreate req
  | _ => false
  end.

Definition isResult (a : Action) : bool :=
  match a with
  | Emit (ticketResult _) => true
  | _ => false
  end.

Definition isSleepTick (a : Action) : bool :=
  match a with
  | Wait sleepTimer => true
  | _ => false
  end.

(** The create-ticket calls of a history. *)
Definition creates (h : list Action) : list Action := List.filter isCreateCall h.

(** The primary result events of a history. *)
Fixpoint results (h : list Action) : list TicketResult.t :=
  match h with
  | [] => []
  | Emit (ticketResult r) :: rest => r :: results rest
  | _ :: rest => results rest
  end.

(** The terminal events of a history. *)
Fixpoint terminals (h : list Action) : list Event :=
  match h with
  | [] => []
  | Emit (bulkError msg p) :: rest => bulkError msg p :: terminals rest
  | Emit (bulkEnded p) :: rest => bulkEnded p :: terminals rest
  | Emit (bulkComplete p) :: rest => bulkComplete p :: terminals rest
  | _ :: rest => terminals rest
  end.

(** The periods of the 100 ms interval a history waited for. *)
Definition sleepTicks (h : list Action) : nat :=
  length (List.filter isSleepTick h).

(** Every create-ticket call of [h] is issued at a moment when the status
    of [jobId], in the registry as the handlers so far left it, passes
    [ok]. *)
Fixpoint createsWhile (ok : option Status -> bool) (jobId : string)
    (r : Registry) (h : list Action) : bool :=
  match h with
  | [] => true
  | Handled sig :: rest => createsWhile ok jobId (handle sig r) rest
  | Call req :: rest =>
      (if isCreate req then ok (statusOf r jobId) else true)
      && createsWhile ok jobId r rest
  | _ :: rest => createsWhile ok jobId r rest
  end.

Definition notPaused (s : option Status) : bool :=
  match s with
  | Some paused => false
  | _ => true
  end.

(** The status under which the loop lets a recipient start: running, or
    paused when an inter-item delay is configured. *)
Definition startable (delay : Z) (s : option Status) : bool :=
  match s with
  | Some running => true
  | Some paused => 0 <? delay
  | _ => false
  end.

(** A create-ticket call and its result event alternate: [busy] says
    whether a recipient is in flight; the result is the flag at the end of
    the history, or [None] when the history breaks the alternation. *)
Fixpoint inFlight (busy : bool) (h : list Action) : option bool :=
  match h with
  | [] => Some busy
  | a :: rest =>
      if isCreateCall a then
        if busy then None else inFlight true rest
      else if isResult a then
        if busy then inFlight false rest else None
      else inFlight busy rest
  end.

(** An action that is no create-ticket call and no event. *)
Definition inert (a : Action) : bool :=
  match a with
  | Handled _ | Wait _ | Logged _ _ | Verify _ => true
  | Call req => negb (isCreate req)
  | Emit _ => false
  end.

(** The handler of [sig] may change the entry under [jobId]. *)
Definition touches (jobId : string) (sig : Signal) : bool :=
  match sig with
  | Pause s p | Resume s p | End s p | Start s p | Finish s p =>
      String.eqb (createJobId s p) jobId
  | Disconnect s => String.prefix s jobId
  end.

(** The handler of [sig] may end or remove the job under [jobId]. *)
Definition cancels (jobId : string) (sig : Signal) : bool :=
  match sig with
  | End s p | Finish s p => String.eqb (createJobId s p) jobId
  | Disconnect s => String.prefix s jobId
  | _ => false
  end.


(** The signals handled in a history. *)
Fixpoint handled (h : list Action) : list Signal :=
  match h with
  | [] => []
  | Handled sig :: rest => sig :: handled rest
  | _ :: rest => handled rest
  end.

(** The status a control message sets. *)
Definition target (sig : Signal) : option Status :=
  match sig with
  | Pause _ _ => Some paused
  | Resume _ _ | Start _ _ => Some running
  | End _ _ => Some ended
  | Finish _ _ | Disconnect _ => None
  end.

(** [sig] is one of start, pause, resume, end for the job of [socketId]
    and [profileName]. *)
Definition controls (socketId profileName : string) (sig : Signal) : bool :=
  match sig with
  | Pause s p | Resume s p | End s p | Start s p =>
      String.eqb s socketId && String.eqb p profileName
  | _ => false
  end.

(** The entries that are not blank after trimming. *)
Definition nonBlank (emails : list string) : list string :=
  List.filter (fun email => negb (String.eqb (trim email) "")) emails.

(** The machine after [k] suspensions. *)
Fixpoint advance (k : nat) (m : Machine) : Machine :=
  match k with
  | O => m
  | S k' => advance k' (fst (arrive m))
  end.

(** The job under [jobId] is in the registry and not ended. *)
Definition alive (jobId : string) (r : Registry) : Prop :=
  cancelled r jobId = false.

(** What a stretch of the worker returns is consistent with the state it
    started from: the registry changed by the recorded handlers only, and
    these are the first of the messages that were pending. *)
Definition tracked {A} (m : Machine) (res : option A * Machine * list Action)
  : Prop :=
  match res with
  | (_, m', h) =>
      activeJobs m' = replay h (activeJobs m)
      /\ concat (pending m) = handled h ++ concat (pending m')
  end.
Arguments tracked : simpl never.

(** What holds of every stretch of the loop, whatever messages arrive:
    it is consistent with its starting state, emits no terminal event,
    starts a recipient only under a status that [startable] admits,
    alternates create-ticket calls with result events and leaves no
    recipient in flight, and never returns only while the job is
    paused. *)
Definition goodRun (delay : Z) (jobId : string) (m : Machine)
    (res : option unit * Machine * list Action) : Prop :=
  tracked m res
  /\ terminals (snd res) = []
  /\ createsWhile (startable delay) jobId (activeJobs m) (snd res) = true
  /\ inFlight false (snd res) = Some false
  /\ (fst (fst res) = None ->
      isPaused (activeJobs (snd (fst res))) jobId = true).

(** The number of 100 ms periods an uninterrupted delay of [delay] seconds
    takes. *)
Definition ticksPerDelay (delay : Z) : nat :=
  if 0 <? delay then Z.to_nat (10 * delay) else O.

(** The number of indices from [i] on, among [n] of them, that are not
    index 0. *)
Definition laterIndices (i n : nat) : nat :=
  match i with
  | O => pred n
  | S _ => n
  end.

(** A history put in front of what a task returns. *)
Definition after {A} (h : list Action) (x : option A * Machine * list Action)
  : option A * Machine * list Action :=
  match x with
  | (v, m, h') => (v, m, h ++ h')
  end.

(* ===================================================================== *)
(** ** A sample installation *)
(* ===================================================================== *)

(** A profile with a sender address, and the same profile without one. *)
Definition acme : Profile.t :=
  {| Profile.profileName := "acme";
     Profile.orgId := "60001";
     Profile.refreshToken := "1000.refresh";
     Profile.defaultDepartmentId := "dept-1";
     Profile.fromEmailAddress := Some "support@acme.test";
     Profile.clientId := "1000.client";
     Profile.clientSecret := "secret";
     Profile.mailReplyAddressId := None |}.

(** The same profile under a name that every plain object inherits. *)
Definition constructorProfile : Profile.t :=
  {| Profile.profileName := "constructor";
     Profile.orgId := "60001";
     Profile.refreshToken := "1000.refresh";
     Profile.defaultDepartmentId := "dept-1";
     Profile.fromEmailAddress := Some "support@acme.test";
     Profile.clientId := "1000.client";
     Profile.clientSecret := "secret";
     Profile.mailReplyAddressId := None |}.

Definition acmeNoSender : Profile.t :=
  {| Profile.profileName := "acme";
     Profile.orgId := "60001";
     Profile.refreshToken := "1000.refresh";
     Profile.defaultDepartmentId := "dept-1";
     Profile.fromEmailAddress := None;
     Profile.clientId := "1000.client";
     Profile.clientSecret := "secret";
     Profile.mailReplyAddressId := None |}.

(** The ticket the helpdesk creates for the recipient at index [i]. *)
Definition ticketAt (i : nat) : Obj :=
  [("id", VStr ("7000" +:+ pretty i));
   ("ticketNumber", VStr (pretty (101 + i)%nat))].

(** A helpdesk that accepts every call. *)
Definition helpdesk : Upstream.t :=
  {| Upstream.create := fun i => Resolved (ticketAt i);
     Upstream.reply := fun _ => Resolved (VObj [("id", VStr "thread-1")]) |}.

(** The error of a send-reply call that the helpdesk refuses. *)
Definition replyRefused : JsError.t :=
  {| JsError.response :=
       Some {| Response.data :=
                 VObj [("errorCode", VStr "UNPROCESSABLE_ENTITY");
                       ("message", VStr "The from address is not verified.")];
               Response.status := 422;
               Response.statusText := "Unprocessable Entity" |};
     JsError.request := true;
     JsError.message := "Request failed with status code 422";
     JsError.stack := "AxiosError: Request failed with status code 422" |}.

(** A helpdesk that creates tickets and refuses every reply. *)
Definition helpdeskNoReply : Upstream.t :=
  {| Upstream.create := fun i => Resolved (ticketAt i);
     Upstream.reply := fun _ => Rejected replyRefused |}.

(** A [startBulkCreate] payload for the profile [acme]. *)
Definition batch (emails : list string) (delay : Z) (sendDirectReply : bool)
  : BulkData.t :=
  {| BulkData.emails := emails;
     BulkData.subject := "Welcome";
     BulkData.description := "<p>Hello</p>";
     BulkData.delay := delay;
     BulkData.selectedProfileName := "acme";
     BulkData.sendDirectReply := sendDirectReply;
     BulkData.verifyEmail := false |}.

(** A server with no job, and the messages to come. *)
Definition idle (sched : list (list Signal)) : Machine :=
  {| activeJobs := ∅; pending := sched |}.

(** An alert of the failure feed. *)
Definition mailboxFull : Obj :=
  [("ticketNumber", VNum 101); ("reason", VStr "Mailbox full")].

(** What the token endpoint grants: a token good for an hour. *)
Definition grantedToken : TokenData.t :=
  {| TokenData.access_token := VStr "1000.access";
     TokenData.expires_in := 3600;
     TokenData.error := VUndefined |}.

Definition tokenEndpoint (params : TokenRequest.t) : Outcome TokenData.t :=
  Resolved grantedToken.

(* ===================================================================== *)
(** ** More about strings and histories *)
(* ===================================================================== *)

(** No character of [s] is a line terminator. *)
Fixpoint noLineBreak (s : string) : bool :=
  match s with
  | EmptyString => true
  | String c rest => negb (isLineTerminator c) && noLineBreak rest
  end.

(** Every character of [s] is white space. *)
Fixpoint allBlank (s : string) : bool :=
  match s with
  | EmptyString => true
  | String c rest => isWhiteSpace c && allBlank rest
  end.

(** The ticket-log entries a history wrote: ticket number and address. *)
Fixpoint logged (h : list Action) : list (Value * string) :=
  match h with
  | [] => []
  | Logged n email :: rest => (n, email) :: logged rest
  | _ :: rest => logged rest
  end.

(** The tickets whose verification a history launched. *)
Fixpoint verifying (h : list Action) : list Obj :=
  match h with
  | [] => []
  | Verify ticket :: rest => ticket :: verifying rest
  | _ :: rest => verifying rest
  end.

(** The results that report a created ticket, as number and address. *)
Fixpoint reported (rs : list TicketResult.t) : list (Value * string) :=
  match rs with
  | [] => []
  | r :: rest =>
      match TicketResult.ticketNumber r with
      | Some n => (n, TicketResult.email r) :: reported rest
      | None => reported rest
      end
  end.

(** An action of a suspension: a timer or a handler that ran meanwhile. *)
Definition quiet (a : Action) : bool :=
  match a with
  | Handled _ | Wait _ => true
  | _ => false
  end.

(* ===================================================================== *)
(** ** [makeApiCall] and the connection check *)
(* ===================================================================== *)

Module HttpRequest.
(** The configuration [makeApiCall] hands to [axios]. *)
Record t := {
  method : string;
  url : string;
  data : Value;
  authorization : string;   (* the [Authorization] header *)
  orgId : string            (* the [orgId] header *)
}.
End HttpRequest.

Module ApiResult.
(** What a call of [makeApiCall] leaves behind: the response it resolves
    with or the error it throws, the token cache afterwards, the requests
    posted to the token endpoint and the requests sent to the helpdesk. *)
Record t := {
  result : Outcome Response.t;
  tokenCache : gmap string CacheEntry.t;
  posted : list TokenRequest.t;
  sent : list HttpRequest.t
}.
End ApiResult.

(** [now] is [Date.now()] when the token is asked for, [stack] the stack
    text of an [Error] created during the call, [post] the token endpoint
    and [axios] the helpdesk. *)
Definition makeApiCall (now : Z) (stack : string)
    (post : TokenRequest.t -> Outcome TokenData.t)
    (axios : HttpRequest.t -> Outcome Response.t)
    (req : Request.t) (profile : Profile.t)
    (tokenCache : gmap string CacheEntry.t) : ApiResult.t :=
  let token := getValidAccessToken now stack post profile tokenCache in
  match TokenResult.result token with
  | Resolved tokenResponse =>
      let accessToken := TokenData.access_token tokenResponse in
      if negb (truthy accessToken) then
        {| ApiResult.result :=
             Rejected {| JsError.response := None;
                         JsError.request := false;
                         JsError.message :=
                           "Failed to retrieve a valid access token.";
                         JsError.stack := stack |};
           ApiResult.tokenCache := TokenResult.tokenCache token;
           ApiResult.posted := TokenResult.posted token;
           ApiResult.sent := [] |}
      else
        let fullUrl := "https://desk.zoho.com" +:+ Request.relativeUrl req in
        let config :=
          {| HttpRequest.method := Request.method req;
             HttpRequest.url := fullUrl;
             HttpRequest.data := Request.data req;
             HttpRequest.authorization :=
               "Zoho-oauthtoken " +:+ toStr accessToken;
             HttpRequest.orgId := Profile.orgId profile |} in
        {| ApiResult.result := axios config;
           ApiResult.tokenCache := TokenResult.tokenCache token;
           ApiResult.posted := TokenResult.posted token;
           ApiResult.sent := [config] |}
  | Rejected error =>
      {| ApiResult.result := Rejected error;
         ApiResult.tokenCache := TokenResult.tokenCache token;
         ApiResult.posted := TokenResult.posted token;
         ApiResult.sent := [] |}
  end.

Module ApiStatus.
(** Payload of [apiStatusResult]: [fullResponse] is the token response
    on success and what [parseError] made of the error otherwise. *)
Record t := {
  success : bool;
  message : string;
  fullResponse : TokenData.t + Value
}.
End ApiStatus.

(** The [checkApiStatus] handler: the event it emits, the token cache
    afterwards and the requests posted to the token endpoint.
    [typeErrorMessage] and [typeErrorStack] are the message and the stack
    of the [TypeError] the engine throws when [getValidAccessToken] reads
    [profile.profileName] of [undefined]. *)
Definition checkApiStatus (now : Z) (stack : string)
    (typeErrorMessage typeErrorStack : string)
    (post : TokenRequest.t -> Outcome TokenData.t)
    (profiles : list Profile.t) (selectedProfileName : string)
    (tokenCache : gmap string CacheEntry.t)
  : ApiStatus.t * gmap string CacheEntry.t * list TokenRequest.t :=
  let caught (error : JsError.t) :=
    let parsed := parseError error in
    {| ApiStatus.success := false;
       ApiStatus.message :=
         "Connection failed: " +:+ toStr (ParsedError.message parsed);
       ApiStatus.fullResponse := inr (ParsedError.fullResponse parsed) |} in
  match findProfile profiles selectedProfileName with
  | None =>
      (caught {| JsError.response := None;
                 JsError.request := false;
                 JsError.message := typeErrorMessage;
                 JsError.stack := typeErrorStack |},
       tokenCache, [])
  | Some activeProfile =>
      let token :=
        getValidAccessToken now stack post activeProfile tokenCache in
      (match TokenResult.result token with
       | Resolved tokenResponse =>
           {| ApiStatus.success := true;
              ApiStatus.message :=
                "Token is valid. Connection to Zoho API is successful.";
              ApiStatus.fullResponse := inl tokenResponse |}
       | Rejected error => caught error
       end,
       TokenResult.tokenCache token, TokenResult.posted token)
  end.

(* ===================================================================== *)
(** ** The OAuth flow *)
(* ===================================================================== *)

Module AuthData.
(** What [/api/zoho/auth] stores under a state. *)
Record t := { clientId : Value; clientSecret : Value; socketId : Value }.
End AuthData.

Module CodeGrant.
(** The form [/api/zoho/callback] posts to the token endpoint. *)
Record t := {
  code : string;
  client_id : string;
  client_secret : string;
  redirect_uri : string;
  grant_type : string
}.
End CodeGrant.

(** What an HTTP handler answers. *)
Inductive Reply :=
| Json (code : Z) (body : Value)     (* [res.status(code).json(body)] *)
| Html (code : Z) (body : string).   (* [res.status(code).send(body)] *)

(** [port] is the text of [process.env.PORT || 3000]. *)
Definition REDIRECT_URI (port : string) : string :=
  "http://localhost:" +:+ port +:+ "/api/zoho/callback".

(** The [/api/zoho/auth] handler.  [state] is the text of
    [crypto.randomBytes(16).toString('hex')], [body] the request body. *)
Definition zohoAuth (port state : string) (body : Obj)
    (authStates : gmap string AuthData.t)
  : Reply * gmap string AuthData.t :=
  let clientId := field body "clientId" in
  let clientSecret := field body "clientSecret" in
  let socketId := field body "socketId" in
  if negb (truthy clientId) || negb (truthy clientSecret)
     || negb (truthy socketId)
  then (Html 400 "Client ID, Client Secret, and Socket ID are required.",
        authStates)
  else
    let scopes :=
      "Desk.tickets.ALL,Desk.settings.READ,Desk.settings.UPDATE,Desk.basic.READ" in
    let authUrl :=
      "https://accounts.zoho.com/oauth/v2/auth?scope=" +:+ scopes
      +:+ "&client_id=" +:+ toStr clientId
      +:+ "&response_type=code&access_type=offline&redirect_uri="
      +:+ REDIRECT_URI port +:+ "&prompt=consent&state=" +:+ state in
    (Json 200 (VObj [("authUrl", VStr authUrl)]),
     <[state := {| AuthData.clientId := clientId;
                   AuthData.clientSecret := clientSecret;
                   AuthData.socketId := socketId |}]> authStates).

(** The callback of [setTimeout(() => delete authStates[state], 300000)]. *)
Definition expireState (state : string) (authStates : gmap string AuthData.t)
  : gmap string AuthData.t :=
  delete state authStates.

Module Callback.
(** What a call of [/api/zoho/callback] leaves behind: the answer, the
    states afterwards, the forms posted to the token endpoint and the
    events sent, each to a room. *)
Record t := {
  reply : Reply;
  authStates : gmap string AuthData.t;
  posted : list CodeGrant.t;
  emitted : list (Value * string * Value)
}.
End Callback.

(** [authStates[state]]: what [/api/zoho/auth] stored under the state, or
    else a member that [authStates] inherits, which is truthy and has no
    [clientId], [clientSecret] or [socketId]. *)
Definition authDataOf (authStates : gmap string AuthData.t) (state : string)
  : option AuthData.t :=
  match member authStates state with
  | Own authData => Some authData
  | Inherited =>
      Some {| AuthData.clientId := VUndefined;
              AuthData.clientSecret := VUndefined;
              AuthData.socketId := VUndefined |}
  | Absent => None
  end.

(** The [/api/zoho/callback] handler.  [query] is [req.query], [post] the
    token endpoint, [stack] the stack text of an [Error] created here.
    [delete authStates[state]] removes what was stored under the state and
    leaves an inherited member where it is. *)
Definition zohoCallback (port stack : string)
    (post : CodeGrant.t -> Outcome Obj) (query : Obj)
    (authStates : gmap string AuthData.t) : Callback.t :=
  let code := field query "code" in
  let state := field query "state" in
  match authDataOf authStates (toStr state) with
  | None =>
      {| Callback.reply :=
           Html 400 "<h1>Error</h1><p>Invalid or expired session state. Please try generating the token again.</p>";
         Callback.authStates := authStates;
         Callback.posted := [];
         Callback.emitted := [] |}
  | Some authData =>
      let authStates := delete (toStr state) authStates in
      let params :=
        {| CodeGrant.code := toStr code;
           CodeGrant.client_id := toStr (AuthData.clientId authData);
           CodeGrant.client_secret := toStr (AuthData.clientSecret authData);
           CodeGrant.redirect_uri := REDIRECT_URI port;
           CodeGrant.grant_type := "authorization_code" |} in
      let caught (error : JsError.t) :=
        let message := ParsedError.message (parseError error) in
        {| Callback.reply :=
             Html 500 ("<h1>Error</h1><p>Failed to get token: "
                       +:+ toStr message
                       +:+ ". Please close this window and try again.</p>");
           Callback.authStates := authStates;
           Callback.posted := [params];
           Callback.emitted :=
             [(AuthData.socketId authData, "zoho-refresh-token-error",
               VObj [("error", message)])] |} in
      match post params with
      | Resolved data =>
          let refresh_token := field data "refresh_token" in
          if negb (truthy refresh_token) then
            caught {| JsError.response := None;
                      JsError.request := false;
                      JsError.message :=
                        "Refresh token not found in Zoho's response.";
                      JsError.stack := stack |}
          else
            {| Callback.reply :=
                 Html 200 "<h1>Success!</h1><p>You can now close this window. The token has been sent to the application.</p><script>window.close();</script>";
               Callback.authStates := authStates;
               Callback.posted := [params];
               Callback.emitted :=
                 [(AuthData.socketId authData, "zoho-refresh-token",
                   VObj [("refreshToken", refresh_token)])] |}
      | Rejected error => caught error
      end
  end.

(** A request of the OAuth flow, or the timer of a state. *)
Inductive OAuthRequest :=
| AuthRequest (port state : string) (body : Obj)
| CallbackRequest (port stack : string) (post : CodeGrant.t -> Outcome Obj)
                  (query : Obj)
| StateTimeout (state : string).

(** The states after a request has been served. *)
Definition serve (req : OAuthRequest) (authStates : gmap string AuthData.t)
  : gmap string AuthData.t :=
  match req with
  | AuthRequest port state body => snd (zohoAuth port state body authStates)
  | CallbackRequest port stack post query =>
      Callback.authStates (zohoCallback port stack post query authStates)
  | StateTimeout state => expireState state authStates
  end.

(** The three values stored under a state are truthy. *)
Definition complete (authData : AuthData.t) : bool :=
  truthy (AuthData.clientId authData)
  && truthy (AuthData.clientSecret authData)
  && truthy (AuthData.socketId authData).

(* ===================================================================== *)
(** ** A single ticket *)
(* ===================================================================== *)

Module TicketBody.
(** The body of [/api/tickets/single] and the payload of
    [sendTestTicket]. *)
Record t := {
  email : string;
  subject : string;
  description : string;
  selectedProfileName : string;
  sendDirectReply : bool;
  verifyEmail : bool
}.
End TicketBody.

(** What a request handler does, in order. *)
Inductive Effect :=
| Requested (req : Request.t)     (* [makeApiCall] issued and awaited *)
| LogWritten (ticketNumber : Value) (email : string)  (* [writeToTicketLog] *)
| Sent (eventName : string) (payload : Value)         (* [socket.emit] *)
| Launched (ticket : Obj) (profile : Profile.t) (resultEventName : string).
                                  (* [verifyTicketEmail], not awaited *)

(** The [/api/tickets/single] handler.  [profiles] is what
    [readProfiles()] returns, [create] and [reply] what the two helpdesk
    calls settle to when they are made. *)
Definition ticketsSingle (profiles : list Profile.t)
    (create : Outcome Obj) (reply : Outcome Value) (body : TicketBody.t)
  : list Effect * Reply :=
  let email := TicketBody.email body in
  let selectedProfileName := TicketBody.selectedProfileName body in
  if negb (truthyStr email) || negb (truthyStr selectedProfileName) then
    ([], Json 400 (VObj [("success", VBool false);
                         ("error", VStr "Missing email or profile.")]))
  else
    match findProfile profiles selectedProfileName with
    | None =>
        ([], Json 404 (VObj [("success", VBool false);
                             ("error", VStr "Profile not found.")]))
    | Some activeProfile =>
        let ticketData :=
          VObj [("subject", VStr (TicketBody.subject body));
                ("description", VStr (TicketBody.description body));
                ("departmentId",
                 VStr (Profile.defaultDepartmentId activeProfile));
                ("contact", VObj [("email", VStr email)]);
                ("channel", VStr "Email")] in
        let createCall :=
          Requested {| Request.method := "post";
                       Request.relativeUrl := "/api/v1/tickets";
                       Request.data := ticketData |} in
        match create with
        | Resolved newTicket =>
            let logged :=
              LogWritten (field newTicket "ticketNumber") email in
            if TicketBody.sendDirectReply body then
              let replyData :=
                VObj [("fromEmailAddress",
                       optStr (Profile.fromEmailAddress activeProfile));
                      ("to", VStr email);
                      ("content", VStr (TicketBody.description body));
                      ("contentType", VStr "html");
                      ("channel", VStr "EMAIL")] in
              let replyCall :=
                Requested {| Request.method := "post";
                             Request.relativeUrl :=
                               "/api/v1/tickets/"
                               +:+ toStr (field newTicket "id")
                               +:+ "/sendReply";
                             Request.data := replyData |} in
              let sendReply :=
                match reply with
                | Resolved replyBody => replyBody
                | Rejected replyError =>
                    ParsedError.toValue (parseError replyError)
                end in
              ([createCall; logged; replyCall],
               Json 200 (VObj [("success", VBool true);
                               ("fullResponse",
                                VObj [("ticketCreate", VObj newTicket);
                                      ("sendReply", sendReply)])]))
            else
              ([createCall; logged],
               Json 200 (VObj [("success", VBool true);
                               ("fullResponse",
                                VObj [("ticketCreate", VObj newTicket)])]))
        | Rejected error =>
            let parsed := parseError error in
            ([createCall],
             Json 500 (VObj [("success", VBool false);
                             ("error", ParsedError.message parsed);
                             ("fullResponse",
                              ParsedError.fullResponse parsed)]))
        end
    end.

(** The [sendTestTicket] handler of a connection. *)
Definition sendTestTicket (profiles : list Profile.t)
    (create : Outcome Obj) (reply : Outcome Value) (data : TicketBody.t)
  : list Effect :=
  let email := TicketBody.email data in
  let selectedProfileName := TicketBody.selectedProfileName data in
  if negb (truthyStr email) || negb (truthyStr selectedProfileName) then
    [Sent "testTicketResult"
          (VObj [("success", VBool false);
                 ("error", VStr "Missing email or profile.")])]
  else
    match findProfile profiles selectedProfileName with
    | None =>
        [Sent "testTicketResult"
              (VObj [("success", VBool false);
                     ("error", VStr "Profile not found.")])]
    | Some activeProfile =>
        let ticketData :=
          VObj [("subject", VStr (TicketBody.subject data));
                ("description", VStr (TicketBody.description data));
                ("departmentId",
                 VStr (Profile.defaultDepartmentId activeProfile));
                ("contact", VObj [("email", VStr email)]);
                ("channel", VStr "Email")] in
        let createCall :=
          Requested {| Request.method := "post";
                       Request.relativeUrl := "/api/v1/tickets";
                       Request.data := ticketData |} in
        match create with
        | Resolved newTicket =>
            let logged :=
              LogWritten (field newTicket "ticketNumber") email in
            let verification :=
              if TicketBody.verifyEmail data
              then [Launched newTicket activeProfile
                             "testTicketVerificationResult"]
              else [] in
            if TicketBody.sendDirectReply data then
              let replyData :=
                VObj [("fromEmailAddress",
                       optStr (Profile.fromEmailAddress activeProfile));
                      ("to", VStr email);
                      ("content", VStr (TicketBody.description data));
                      ("contentType", VStr "html");
                      ("channel", VStr "EMAIL")] in
              let replyCall :=
                Requested {| Request.method := "post";
                             Request.relativeUrl :=
                               "/api/v1/tickets/"
                               +:+ toStr (field newTicket "id")
                               +:+ "/sendReply";
                             Request.data := replyData |} in
              let sendReply :=
                match reply with
                | Resolved replyBody => replyBody
                | Rejected replyError =>
                    ParsedError.toValue (parseError replyError)
                end in
              [createCall; logged; replyCall;
               Sent "testTicketResult"
                    (VObj [("success", VBool true);
                           ("fullResponse",
                            VObj [("ticketCreate", VObj newTicket);
                                  ("sendReply", sendReply)])])]
              ++ verification
            else
              [createCall; logged;
               Sent "testTicketResult"
                    (VObj [("success", VBool true);
                           ("fullResponse",
                            VObj [("ticketCreate", VObj newTicket)])])]
              ++ verification
        | Rejected error =>
            let parsed := parseError error in
            [createCall;
             Sent "testTicketResult"
                  (VObj [("success", VBool false);
                         ("error", ParsedError.message parsed);
                         ("fullResponse", ParsedError.fullResponse parsed)])]
        end
    end.

(** The helpdesk requests of a run. *)
Fixpoint requested (effects : list Effect) : list Request.t :=
  match effects with
  | [] => []
  | Requested req :: rest => req :: requested rest
  | _ :: rest => requested rest
  end.

(** The ticket-log entries of a run. *)
Fixpoint logWrites (effects : list Effect) : list (Value * string) :=
  match effects with
  | [] => []
  | LogWritten n email :: rest => (n, email) :: logWrites rest
  | _ :: rest => logWrites rest
  end.

(* ===================================================================== *)
(** ** Verification on request *)
(* ===================================================================== *)

Module Verification.
(** What [getVerificationStatus] resolves with. *)
Record t := { success : bool; details : string; fullResponse : Value }.

(** The object literal [{ success, details, fullResponse }]. *)
Definition toValue (v : t) : Value :=
  VObj [("success", VBool (success v)); ("details", VStr (details v));
        ("fullResponse", fullResponse v)].
End Verification.

(** The properties of a value that is not null or undefined, as an object
    literal: only objects carry the properties read by this server. *)
Definition asObj (v : Value) : Obj :=
  match v with
  | VObj o => o
  | _ => []
  end.

(** [getVerificationStatus(ticket, profile)]: the helpdesk calls it
    issues, in order, and what it resolves with.  [histories] is what
    [Promise.all] of the two history calls settles to, [alerts] what the
    failure-alert call settles to when it is issued. *)
Definition getVerificationStatus (ticket : Value) (profile : Profile.t)
    (histories : Outcome (Feed.t * Feed.t)) (alerts : Outcome Alerts.t)
  : list Request.t * Verification.t :=
  let result success details verifyEmail :=
    {| Verification.success := success;
       Verification.details := details;
       Verification.fullResponse :=
         VObj [("ticketDetails", ticket); ("verifyEmail", VObj verifyEmail)] |} in
  let calls :=
    [historyRequest (asObj ticket) "WorkflowHistory";
     historyRequest (asObj ticket) "NotificationRuleHistory"] in
  let caught (error : JsError.t) (verifyEmail : Obj) :=
    let parsed := parseError error in
    result false
           ("Email verification: Failed to check status. Error: "
            +:+ toStr (ParsedError.message parsed))
           (verifyEmail ++ [("error", ParsedError.fullResponse parsed)]) in
  match histories with
  | Resolved (workflowHistory, notificationHistory) =>
      let allHistoryEvents :=
        orEmpty (Feed.data workflowHistory)
        ++ orEmpty (Feed.data notificationHistory) in
      let history :=
        ("history",
         VObj [("workflowHistory", Feed.toValue workflowHistory);
               ("notificationHistory", Feed.toValue notificationHistory)]) in
      if (0 <? length allHistoryEvents)%nat then
        (calls,
         result true "Email verification: Sent successfully." [history])
      else
        match alerts with
        | Resolved failureResponse =>
            let failure := findFailure failureResponse (asObj ticket) in
            let details :=
              match failure with
              | Some f => "Email verification: Failed. Reason: "
                          +:+ toStr (field f "reason")
              | None => "Email verification: Not Found."
              end in
            (calls ++ [alertsRequest profile],
             result false details
                    [history;
                     ("failure",
                      match failure with
                      | Some f => VObj f
                      | None =>
                          VStr "No specific failure found for this ticket."
                      end)])
        | Rejected error =>
            (calls ++ [alertsRequest profile], caught error [history])
        end
  | Rejected error => (calls, caught error [])
  end.

(** The [/api/tickets/verify] handler.  Its own [catch] is not reached:
    [getVerificationStatus] catches what its calls throw. *)
Definition ticketsVerify (profiles : list Profile.t)
    (histories : Outcome (Feed.t * Feed.t)) (alerts : Outcome Alerts.t)
    (ticket : Value) (profileName : string) : list Request.t * Reply :=
  if negb (truthy ticket) || negb (truthyStr profileName) then
    ([], Json 400 (VObj [("success", VBool false);
                         ("error",
                          VStr "Missing ticket details or profile.")]))
  else
    match findProfile profiles profileName with
    | None =>
        ([], Json 404 (VObj [("success", VBool false);
                             ("error", VStr "Profile not found.")]))
    | Some activeProfile =>
        match getVerificationStatus ticket activeProfile histories alerts with
        | (calls, verificationResult) =>
            (calls, Json 200 (Verification.toValue verificationResult))
        end
    end.

(** The number of events in the two history feeds of a ticket. *)
Definition historyEvents (histories : Feed.t * Feed.t) : nat :=
  length (orEmpty (Feed.data (fst histories))
          ++ orEmpty (Feed.data (snd histories))).

(* ===================================================================== *)
(** ** The two files *)
(* ===================================================================== *)

(** A JSON file as the server finds it: it is not there, it cannot be
    read or parsed, or it holds a value of the type the server writes to
    it, an array of profiles or of log entries.  A file edited by hand to
    hold other JSON is outside this type. *)
Inductive File (A : Type) :=
| Missing               (* [fs.existsSync] answers false *)
| Corrupt               (* reading it or [JSON.parse] throws *)
| Holds (content : A).
Arguments Missing {A}.
Arguments Corrupt {A}.
Arguments Holds {A} content.

(** A profile as the profile endpoints see it: an object, from property
    name to JSON value. *)
Abbreviation ProfileObj := (gmap string Value).

Module LogEntry.
(** An entry of the ticket log: [{ ticketNumber, email }]. *)
Record t := { ticketNumber : Value; email : string }.
End LogEntry.

(** [profiles.json] and [ticket-log.json], and whether
    [fs.writeFileSync] succeeds. *)
Record Disk := {
  profilesJson : File (list ProfileObj);
  ticketLogJson : File (list LogEntry.t);
  writable : bool
}.

(** What the two readers return: the content, or [[]] when the file is
    missing or the [catch] has logged an error. *)
Definition readFile {A} (f : File (list A)) : list A :=
  match f with
  | Holds content => content
  | Missing | Corrupt => []
  end.

Definition readProfiles (disk : Disk) : list ProfileObj :=
  readFile (profilesJson disk).

Definition readTicketLog (disk : Disk) : list LogEntry.t :=
  readFile (ticketLogJson disk).

(** The write fails silently: the [catch] only logs. *)
Definition writeProfiles (profiles : list ProfileObj) (disk : Disk) : Disk :=
  if writable disk then
    {| profilesJson := Holds profiles;
       ticketLogJson := ticketLogJson disk;
       writable := writable disk |}
  else disk.

(** [log.push] is applied to what [readTicketLog] returns, an array for
    every file of the type [File]. *)
Definition writeToTicketLog (newEntry : LogEntry.t) (disk : Disk) : Disk :=
  let log := readTicketLog disk in
  let log := log ++ [newEntry] in
  if writable disk then
    {| profilesJson := profilesJson disk;
       ticketLogJson := Holds log;
       writable := writable disk |}
  else disk.

(** The [clearTicketLogs] handler. *)
Definition clearTicketLogs (disk : Disk) : list Effect * Disk :=
  if writable disk then
    ([Sent "clearTicketLogsResult" (VObj [("success", VBool true)])],
     {| profilesJson := profilesJson disk;
        ticketLogJson := Holds [];
        writable := writable disk |})
  else
    ([Sent "clearTicketLogsResult"
           (VObj [("success", VBool false);
                  ("error", VStr "Failed to clear log file on server.")])],
     disk).

(* ===================================================================== *)
(** ** The profile endpoints *)
(* ===================================================================== *)

(** [a === b] for two values of different origin: two objects or two
    arrays are then never the same one. *)
Definition strictEq (a b : Value) : bool :=
  match a, b with
  | VUndefined, VUndefined => true
  | VNull, VNull => true
  | VBool x, VBool y => Bool.eqb x y
  | VNum x, VNum y => x =? y
  | VStr x, VStr y => String.eqb x y
  | _, _ => false
  end.

(** [p.k] on a profile. *)
Definition get (p : ProfileObj) (k : string) : Value :=
  match p !! k with
  | Some v => v
  | None => VUndefined
  end.

(** [l.findIndex(f)]; [None] stands for [-1]. *)
Fixpoint findIndex {A} (f : A -> bool) (l : list A) : option nat :=
  match l with
  | [] => None
  | x :: rest => if f x then Some O else option_map S (findIndex f rest)
  end.

(** What a profile endpoint answers. *)
Inductive ProfilesReply :=
| ProfilesOk (profiles : list ProfileObj)
    (* [res.json({ success: true, profiles })] *)
| ProfilesError (code : Z) (error : string).
    (* [res.status(code).json({ success: false, error })] *)

(** [GET /api/profiles]. *)
Definition getProfiles (disk : Disk) : list ProfileObj := readProfiles disk.

(** [POST /api/profiles]; [newProfile] is the request body. *)
Definition postProfile (newProfile : ProfileObj) (disk : Disk)
  : ProfilesReply * Disk :=
  let profiles := readProfiles disk in
  if negb (truthy (get newProfile "profileName")) then
    (ProfilesError 400 "Profile name is required.", disk)
  else if existsb (fun p => strictEq (get p "profileName")
                                     (get newProfile "profileName")) profiles
  then (ProfilesError 400 "A profile with this name already exists.", disk)
  else
    let profiles := profiles ++ [newProfile] in
    (ProfilesOk profiles, writeProfiles profiles disk).

(** [PUT /api/profiles/:profileNameToUpdate]; [updatedProfileData] is the
    request body.  [{ ...a, ...b }] is the union in which [b] wins. *)
Definition putProfile (profileNameToUpdate : string)
    (updatedProfileData : ProfileObj) (disk : Disk) : ProfilesReply * Disk :=
  let profiles := readProfiles disk in
  match findIndex (fun p => strictEq (get p "profileName")
                                     (VStr profileNameToUpdate)) profiles with
  | None => (ProfilesError 404 "Profile not found.", disk)
  | Some profileIndex =>
      if negb (strictEq (get updatedProfileData "profileName")
                        (VStr profileNameToUpdate))
         && existsb (fun p => strictEq (get p "profileName")
                                       (get updatedProfileData "profileName"))
                    profiles
      then (ProfilesError 400 "A profile with the new name already exists.",
            disk)
      else
        let merged :=
          match profiles !! profileIndex with
          | Some old => updatedProfileData ∪ old
          | None => updatedProfileData
          end in
        let profiles := <[profileIndex := merged]> profiles in
        (ProfilesOk profiles, writeProfiles profiles disk)
  end.

(** No two profiles of the list have the same name. *)
Definition distinctNames (profiles : list ProfileObj) : Prop :=
  forall (i j : nat) (p q : ProfileObj),
    profiles !! i = Some p -> profiles !! j = Some q -> i <> j ->
    strictEq (get p "profileName") (get q "profileName") = false.

(* ===================================================================== *)
(** ** Failure alerts with their addresses *)
(* ===================================================================== *)

(** [{ ...o, k: v }]: the property is replaced where it stands, or added
    at the end. *)
Fixpoint setField (o : Obj) (k : string) (v : Value) : Obj :=
  match o with
  | [] => [(k, v)]
  | (k', x) :: rest =>
      if String.eqb k' k then (k, v) :: rest
      else (k', x) :: setField rest k v
  end.

(** [ticketLog.find(entry => String(entry.ticketNumber)
                             === String(failure.ticketNumber))]. *)
Definition findLogEntry (ticketLog : list LogEntry.t) (failure : Obj)
  : option LogEntry.t :=
  List.find (fun entry => String.eqb (toStr (LogEntry.ticketNumber entry))
                                     (toStr (field failure "ticketNumber")))
            ticketLog.

(** The callback of [failures.map]. *)
Definition withEmail (ticketLog : list LogEntry.t) (failure : Obj) : Obj :=
  setField failure "email"
           (match findLogEntry ticketLog failure with
            | Some logEntry => VStr (LogEntry.email logEntry)
            | None => VStr "Unknown"
            end).

(** The [getEmailFailures] handler.  [response] is what the failure-alert
    call settles to when it is made, [stack] the stack text of an [Error]
    created here. *)
Definition getEmailFailures (stack : string) (profiles : list Profile.t)
    (response : Outcome Alerts.t) (selectedProfileName : string)
    (disk : Disk) : list Effect :=
  let caught (error : JsError.t) :=
    Sent "emailFailuresResult"
         (VObj [("success", VBool false);
                ("error", ParsedError.message (parseError error))]) in
  match findProfile profiles selectedProfileName with
  | None =>
      [caught {| JsError.response := None;
                 JsError.request := false;
                 JsError.message :=
                   "Profile not found for fetching email failures.";
                 JsError.stack := stack |}]
  | Some activeProfile =>
      let departmentId := Profile.defaultDepartmentId activeProfile in
      let call :=
        Requested {| Request.method := "get";
                     Request.relativeUrl :=
                       "/api/v1/emailFailureAlerts?department="
                       +:+ departmentId +:+ "&limit=50";
                     Request.data := VNull |} in
      match response with
      | Resolved body =>
          let failures := orEmpty (Alerts.data body) in
          let ticketLog := readTicketLog disk in
          let failuresWithEmails := map (withEmail ticketLog) failures in
          [call;
           Sent "emailFailuresResult"
                (VObj [("success", VBool true);
                       ("data", VArr (map VObj failuresWithEmails))])]
      | Rejected error => [call; caught error]
      end
  end.

(* ===================================================================== *)
(** ** The dashboard *)
(* ===================================================================== *)

Module FormData.
(** The form of the dashboard ([TicketFormData]). *)
Record t := {
  emails : string;
  subject : string;
  description : string;
  delay : Z;
  sendDirectReply : bool;
  verifyEmail : bool
}.
End FormData.

Module JobState.
(** The dashboard's state of one profile ([JobState]);
    [processingStartTime] is in milliseconds. *)
Record t := {
  formData : FormData.t;
  results : list TicketResult.t;
  isProcessing : bool;
  isPaused : bool;
  isComplete : bool;
  processingStartTime : option Z;
  processingTime : string;
  totalTicketsToProcess : nat;
  countdown : Z;
  currentDelay : Z;
  filterText : string
}.
End JobState.

(** [jobs]: profile name to state. *)
Abbreviation Jobs := (gmap string JobState.t).

(** [s.split('\n')]. *)
Fixpoint splitLines (s : string) : list string :=
  match s with
  | EmptyString => [EmptyString]
  | String c rest =>
      if Ascii.eqb c "010" then EmptyString :: splitLines rest
      else match splitLines rest with
           | first :: others => String c first :: others
           | [] => [String c EmptyString]
           end
  end.

(** The recipients [handleFormSubmit] reads from the form:
    [emails.split('\n').map(email => email.trim())
           .filter(email => email !== '')]. *)
Definition submittedEmails (text : string) : list string :=
  List.filter (fun email => negb (String.eqb email ""))
              (map trim (splitLines text)).

(** [emailCount] of the ticket form:
    [emails.split('\n').filter(email => email.trim() !== '').length]. *)
Definition emailCount (text : string) : nat :=
  length (List.filter (fun email => negb (String.eqb (trim email) ""))
                      (splitLines text)).

(** [handleFormSubmit] of the dashboard: the state afterwards and the
    payload of the [startBulkCreate] it emits, if any.  [socket] says
    whether there is a socket, [now] is the time of [new Date()]. *)
Definition handleFormSubmit (socket : bool) (now : Z)
    (activeProfileName : string) (jobs : Jobs) : Jobs * option BulkData.t :=
  if negb socket || negb (truthyStr activeProfileName) then (jobs, None)
  else
    match jobs !! activeProfileName with
    | None => (jobs, None)
    | Some job =>
        let currentFormData := JobState.formData job in
        let emails := submittedEmails (FormData.emails currentFormData) in
        if (length emails =? 0)%nat then (jobs, None)
        else
          (<[activeProfileName :=
               {| JobState.formData := JobState.formData job;
                  JobState.results := [];
                  JobState.isProcessing := true;
                  JobState.isPaused := false;
                  JobState.isComplete := false;
                  JobState.processingStartTime := Some now;
                  JobState.processingTime := JobState.processingTime job;
                  JobState.totalTicketsToProcess := length emails;
                  JobState.countdown := JobState.countdown job;
                  JobState.currentDelay := FormData.delay currentFormData;
                  JobState.filterText := JobState.filterText job |}]> jobs,
           Some {| BulkData.emails := emails;
                   BulkData.subject := FormData.subject currentFormData;
                   BulkData.description :=
                     FormData.description currentFormData;
                   BulkData.delay := FormData.delay currentFormData;
                   BulkData.selectedProfileName := activeProfileName;
                   BulkData.sendDirectReply :=
                     FormData.sendDirectReply currentFormData;
                   BulkData.verifyEmail :=
                     FormData.verifyEmail currentFormData |})
    end.

(** The dashboard's handler of [ticketResult]: the state afterwards, or
    [None] when the state update throws: for a profile name that [jobs]
    inherits, [profileJob.results] is [undefined] and reading its [length]
    throws. *)
Definition onTicketResult (result : TicketResult.t) (prevJobs : Jobs)
  : option Jobs :=
  match member prevJobs (TicketResult.profileName result) with
  | Absent => Some prevJobs
  | Inherited => None
  | Own profileJob =>
      let isLastTicket :=
        (JobState.totalTicketsToProcess profileJob
         <=? length (JobState.results profileJob) + 1)%nat in
      Some
        (<[TicketResult.profileName result :=
             {| JobState.formData := JobState.formData profileJob;
                JobState.results := JobState.results profileJob ++ [result];
                JobState.isProcessing := JobState.isProcessing profileJob;
                JobState.isPaused := JobState.isPaused profileJob;
                JobState.isComplete := JobState.isComplete profileJob;
                JobState.processingStartTime :=
                  JobState.processingStartTime profileJob;
                JobState.processingTime := JobState.processingTime profileJob;
                JobState.totalTicketsToProcess :=
                  JobState.totalTicketsToProcess profileJob;
                JobState.countdown :=
                  if isLastTicket then 0 else JobState.currentDelay profileJob;
                JobState.currentDelay := JobState.currentDelay profileJob;
                JobState.filterText := JobState.filterText profileJob |}]>
           prevJobs)
  end.

(** [r.ticketNumber], [undefined] when the result has none. *)
Definition ticketNumberOf (r : TicketResult.t) : Value :=
  match TicketResult.ticketNumber r with
  | Some n => n
  | None => VUndefined
  end.

(** The callback of [results.map] in the handler of [ticketUpdate]. *)
Definition applyUpdate (updateData : Update.t) (r : TicketResult.t)
  : TicketResult.t :=
  if strictEq (ticketNumberOf r) (Update.ticketNumber updateData) then
    {| TicketResult.email := TicketResult.email r;
       TicketResult.success := Update.success updateData;
       TicketResult.ticketNumber := TicketResult.ticketNumber r;
       TicketResult.details := Some (Update.details updateData);
       TicketResult.error := TicketResult.error r;
       TicketResult.fullResponse := Update.fullResponse updateData;
       TicketResult.profileName := TicketResult.profileName r |}
  else r.

(** The dashboard's handler of [ticketUpdate]; [None] when the state
    update throws, as it does when there is no job for the profile. *)
Definition onTicketUpdate (updateData : Update.t) (prevJobs : Jobs)
  : option Jobs :=
  match member prevJobs (Update.profileName updateData) with
  | Own job =>
      Some
        (<[Update.profileName updateData :=
             {| JobState.formData := JobState.formData job;
                JobState.results :=
                  map (applyUpdate updateData) (JobState.results job);
                JobState.isProcessing := JobState.isProcessing job;
                JobState.isPaused := JobState.isPaused job;
                JobState.isComplete := JobState.isComplete job;
                JobState.processingStartTime :=
                  JobState.processingStartTime job;
                JobState.processingTime := JobState.processingTime job;
                JobState.totalTicketsToProcess :=
                  JobState.totalTicketsToProcess job;
                JobState.countdown := JobState.countdown job;
                JobState.currentDelay := JobState.currentDelay job;
                JobState.filterText := JobState.filterText job |}]>
           prevJobs)
  | Inherited | Absent => None
  end.

(** [handleJobCompletion], which handles [bulkComplete], [bulkEnded] and
    [bulkError]; [None] when there is no job for the profile: what is
    stored then has the four properties set here and no others, and is
    not a job state. *)
Definition handleJobCompletion (profileName : string) (prevJobs : Jobs)
  : option Jobs :=
  match member prevJobs profileName with
  | Own job =>
      Some
        (<[profileName :=
             {| JobState.formData := JobState.formData job;
                JobState.results := JobState.results job;
                JobState.isProcessing := false;
                JobState.isPaused := false;
                JobState.isComplete := true;
                JobState.processingStartTime :=
                  JobState.processingStartTime job;
                JobState.processingTime := JobState.processingTime job;
                JobState.totalTicketsToProcess :=
                  JobState.totalTicketsToProcess job;
                JobState.countdown := 0;
                JobState.currentDelay := JobState.currentDelay job;
                JobState.filterText := JobState.filterText job |}]>
           prevJobs)
  | Inherited | Absent => None
  end.

(** What the dashboard does with an event of the server. *)
Definition onEvent (event : Event) (jobs : Jobs) : option Jobs :=
  match event with
  | ticketResult result => onTicketResult result jobs
  | verification resultEventName updateData =>
      if String.eqb resultEventName "ticketUpdate"
      then onTicketUpdate updateData jobs
      else Some jobs
  | bulkComplete profileName | bulkEnded profileName
  | bulkError _ profileName => handleJobCompletion profileName jobs
  end.

(** [handlePauseResume] of the dashboard on the connection [socketId]:
    the state afterwards, or [None] when the state update throws because
    there is no job for the profile, and the control messages emitted, as
    the handlers of the connection receive them. *)
Definition handlePauseResume (socket : bool) (socketId : string)
    (activeProfileName : string) (jobs : Jobs) : option Jobs * list Signal :=
  if negb socket || negb (truthyStr activeProfileName) then (Some jobs, [])
  else
    match jobs !! activeProfileName with
    | Some job =>
        (Some (<[activeProfileName :=
                   {| JobState.formData := JobState.formData job;
                      JobState.results := JobState.results job;
                      JobState.isProcessing := JobState.isProcessing job;
                      JobState.isPaused := negb (JobState.isPaused job);
                      JobState.isComplete := JobState.isComplete job;
                      JobState.processingStartTime :=
                        JobState.processingStartTime job;
                      JobState.processingTime := JobState.processingTime job;
                      JobState.totalTicketsToProcess :=
                        JobState.totalTicketsToProcess job;
                      JobState.countdown := JobState.countdown job;
                      JobState.currentDelay := JobState.currentDelay job;
                      JobState.filterText := JobState.filterText job |}]>
                 jobs),
         [if JobState.isPaused job
          then Resume socketId activeProfileName
          else Pause socketId activeProfileName])
    | None => (None, [Pause socketId activeProfileName])
    end.

(** The dashboard and the registry after [n] clicks on the pause button,
    each message handled before the next click and no other message in
    between; [None] when a click throws. *)
Fixpoint clicks (n : nat) (socketId activeProfileName : string)
    (jobs : Jobs) (activeJobs : Registry) : option (Jobs * Registry) :=
  match n with
  | O => Some (jobs, activeJobs)
  | S n' =>
      match handlePauseResume true socketId activeProfileName jobs with
      | (Some jobs', sigs) =>
          clicks n' socketId activeProfileName jobs' (deliver sigs activeJobs)
      | (None, _) => None
      end
  end.

(** The dashboard's flag and the registry's status of a job say the
    same: the job is there on both sides, paused on both or running on
    the server and not paused on the dashboard. *)
Definition inStep (socketId activeProfileName : string) (jobs : Jobs)
    (activeJobs : Registry) : Prop :=
  exists job,
    jobs !! activeProfileName = Some job
    /\ statusOf activeJobs (createJobId socketId activeProfileName)
       = Some (if JobState.isPaused job then paused else running).

(** [createInitialJobState()]. *)
Definition createInitialJobState : JobState.t :=
  {| JobState.formData :=
       {| FormData.emails := "";
          FormData.subject := "";
          FormData.description := "";
          FormData.delay := 1;
          FormData.sendDirectReply := false;
          FormData.verifyEmail := false |};
     JobState.results := [];
     JobState.isProcessing := false;
     JobState.isPaused := false;
     JobState.isComplete := false;
     JobState.processingStartTime := None;
     JobState.processingTime := "0s";
     JobState.totalTicketsToProcess := 0;
     JobState.countdown := 0;
     JobState.currentDelay := 1;
     JobState.filterText := "" |}.

(** [handleEndJob] of the dashboard on the connection [socketId]: it
    emits [endJob] and puts a fresh state in the place of the job. *)
Definition handleEndJob (socket : bool) (socketId : string)
    (activeProfileName : string) (jobs : Jobs) : Jobs * list Signal :=
  if negb socket || negb (truthyStr activeProfileName) then (jobs, [])
  else (<[activeProfileName := createInitialJobState]> jobs,
        [End socketId activeProfileName]).

(** What happens to the dashboard while a batch runs: an event of the
    server comes in, or the user clicks the pause button or the end
    button. *)
Inductive Input :=
| Receive (event : Event)
| ClickPauseResume
| ClickEnd.

(** One input: the state afterwards and the control messages emitted, or
    [None] when a state update throws or leaves the job states. *)
Definition step (socketId activeProfileName : string) (input : Input)
    (jobs : Jobs) : option (Jobs * list Signal) :=
  match input with
  | Receive event =>
      match onEvent event jobs with
      | Some jobs' => Some (jobs', [])
      | None => None
      end
  | ClickPauseResume =>
      match handlePauseResume true socketId activeProfileName jobs with
      | (Some jobs', sigs) => Some (jobs', sigs)
      | (None, _) => None
      end
  | ClickEnd => Some (handleEndJob true socketId activeProfileName jobs)
  end.

(** The inputs one after the other, each state update done before the
    next input. *)
Fixpoint operate (socketId activeProfileName : string) (inputs : list Input)
    (jobs : Jobs) : option (Jobs * list Signal) :=
  match inputs with
  | [] => Some (jobs, [])
  | input :: rest =>
      match step socketId activeProfileName input jobs with
      | Some (jobs', sigs) =>
          match operate socketId activeProfileName rest jobs' with
          | Some (jobs'', sigs') => Some (jobs'', sigs ++ sigs')
          | None => None
          end
      | None => None
      end
  end.

(** The [ticketResult] events among the inputs, the verification events
    the dashboard listens to, and the clicks. *)
Fixpoint arrivals (inputs : list Input) : list TicketResult.t :=
  match inputs with
  | [] => []
  | Receive (ticketResult result) :: rest => result :: arrivals rest
  | _ :: rest => arrivals rest
  end.

Definition isUpdate (input : Input) : bool :=
  match input with
  | Receive (verification resultEventName _) =>
      String.eqb resultEventName "ticketUpdate"
  | _ => false
  end.

Definition isClick (input : Input) : bool :=
  match input with
  | ClickPauseResume | ClickEnd => true
  | Receive _ => false
  end.

Definition isClickEnd (input : Input) : bool :=
  match input with
  | ClickEnd => true
  | _ => false
  end.

(** The verification and terminal events among the inputs are for the
    profile [profileName]. *)
Definition concerns (profileName : string) (input : Input) : bool :=
  match input with
  | Receive (verification _ updateData) =>
      String.eqb (Update.profileName updateData) profileName
  | Receive (bulkComplete p) | Receive (bulkEnded p)
  | Receive (bulkError _ p) => String.eqb p profileName
  | _ => true
  end.

(** What identifies a result in the list the dashboard shows: the
    address and the ticket number. *)
Definition shown (r : TicketResult.t) : string * option Value :=
  (TicketResult.email r, TicketResult.ticketNumber r).

(* ===================================================================== *)
(** ** More of the sample installation *)
(* ===================================================================== *)

(** A helpdesk that answers every request with an empty object. *)
Definition desk (config : HttpRequest.t) : Outcome Response.t :=
  Resolved {| Response.data := VObj [];
              Response.status := 200;
              Response.statusText := "OK" |}.

(** A token endpoint that answers without a token and without an error. *)
Definition emptyGrant (params : TokenRequest.t) : Outcome TokenData.t :=
  Resolved {| TokenData.access_token := VUndefined;
              TokenData.expires_in := 3600;
              TokenData.error := VUndefined |}.

(** The error of a token request that the accounts server refuses, and a
    token endpoint that refuses every request. *)
Definition invalidClient : JsError.t :=
  {| JsError.response :=
       Some {| Response.data := VObj [("error", VStr "invalid_client")];
               Response.status := 400;
               Response.statusText := "Bad Request" |};
     JsError.request := true;
     JsError.message := "Request failed with status code 400";
     JsError.stack := "AxiosError: Request failed with status code 400" |}.

Definition refusingEndpoint (params : TokenRequest.t) : Outcome TokenData.t :=
  Rejected invalidClient.

(** The body of an auth request of the profile dialog, and an accounts
    server that grants a refresh token for any code. *)
Definition authBody : Obj :=
  [("clientId", VStr "1000.client"); ("clientSecret", VStr "secret");
   ("socketId", VStr "s1")].

Definition accounts (params : CodeGrant.t) : Outcome Obj :=
  Resolved [("access_token", VStr "1000.access");
            ("refresh_token", VStr "1000.refresh")].

(** A test ticket for the profile [acme]. *)
Definition testTicket (sendDirectReply verifyEmail : bool) : TicketBody.t :=
  {| TicketBody.email := "a@x.com";
     TicketBody.subject := "Welcome";
     TicketBody.description := "<p>Hello</p>";
     TicketBody.selectedProfileName := "acme";
     TicketBody.sendDirectReply := sendDirectReply;
     TicketBody.verifyEmail := verifyEmail |}.

(** An empty disk that accepts writes. *)
Definition emptyDisk : Disk :=
  {| profilesJson := Missing; ticketLogJson := Missing; writable := true |}.

(** The profile [acme] as the profile dialog posts it. *)
Definition acmeObj : ProfileObj :=
  {[ "profileName" := VStr "acme"; "orgId" := VStr "60001" ]}.

(** The job of the profile [acme] once the dashboard has submitted the
    form filled with [text] for [total] recipients. *)
Definition submittedJob (text : string) (total : nat) : JobState.t :=
  {| JobState.formData :=
       {| FormData.emails := text;
          FormData.subject := "Welcome";
          FormData.description := "<p>Hello</p>";
          FormData.delay := 1;
          FormData.sendDirectReply := false;
          FormData.verifyEmail := false |};
     JobState.results := [];
     JobState.isProcessing := true;
     JobState.isPaused := false;
     JobState.isComplete := false;
     JobState.processingStartTime := Some 0;
     JobState.processingTime := "0s";
     JobState.totalTicketsToProcess := total;
     JobState.countdown := 0;
     JobState.currentDelay := 1;
     JobState.filterText := "" |}.

(** The result events of a history, as they come in at the dashboard. *)
Definition incoming (h : list Action) : list Input :=
  map (fun r => Receive (ticketResult r)) (results h).

(** A second profile, and a [profiles.json] that holds the two. *)
Definition globexObj : ProfileObj :=
  {[ "profileName" := VStr "globex"; "orgId" := VStr "60002" ]}.

Definition twoProfiles : Disk :=
  {| profilesJson := Holds [acmeObj; globexObj];
     ticketLogJson := Missing;
     writable := true |}.

(** The state of a job that has not started, with the given text in the
    address field, and a dashboard with this job for the profile
    [acme]. *)
Definition idleJob (text : string) : JobState.t :=
  {| JobState.formData :=
       {| FormData.emails := text;
          FormData.subject := "Welcome";
          FormData.description := "<p>Hello</p>";
          FormData.delay := 1;
          FormData.sendDirectReply := false;
          FormData.verifyEmail := false |};
     JobState.results := [];
     JobState.isProcessing := false;
     JobState.isPaused := false;
     JobState.isComplete := false;
     JobState.processingStartTime := None;
     JobState.processingTime := "0s";
     JobState.totalTicketsToProcess := 0;
     JobState.countdown := 0;
     JobState.currentDelay := 1;
     JobState.filterText := "" |}.

Definition dashboard (text : string) : Jobs := {[ "acme" := idleJob text ]}.

(** Three lines as pasted into the address field: an address, a line of
    spaces, and an address with spaces around it. *)
Definition pasted : string :=
  "a@x.com" +:+ String "010" ("  " +:+ String "010" " b@x.com ").

(* ===================================================================== *)
(** ** The registry handlers *)
(* ===================================================================== *)

Lemma setStatus_present (jobId : string) (s : Status) (r : Registry) :
  is_Some (r !! jobId) -> setStatus jobId s r !! jobId = Some {| status := s |}.
Proof.
  intros [job Hjob]. unfold setStatus. rewrite Hjob. apply lookup_insert_eq.
Qed.

Lemma setStatus_absent (jobId : string) (s : Status) (r : Registry) :
  r !! jobId = None -> setStatus jobId s r = r.
Proof. intros Hnone. unfold setStatus. now rewrite Hnone. Qed.

Lemma setStatus_other (jobId j : string) (s : Status) (r : Registry) :
  jobId <> j -> setStatus jobId s r !! j = r !! j.
Proof.
  intros Hne. unfold setStatus.
  destruct (r !! jobId); [now apply lookup_insert_ne | reflexivity].
Qed.

Lemma setStatus_twice (jobId : string) (s : Status) (r : Registry) :
  setStatus jobId s (setStatus jobId s r) = setStatus jobId s r.
Proof.
  unfold setStatus. destruct (r !! jobId) eqn:Hj.
  - rewrite lookup_insert_eq. apply insert_insert_eq.
  - now rewrite Hj.
Qed.

Lemma disconnect_lookup (socketId j : string) (r : Registry) :
  disconnect socketId r !! j = if String.prefix socketId j then None else r !! j.
Proof.
  unfold disconnect. destruct (String.prefix socketId j) eqn:Hp.
  - apply map_lookup_filter_None. right. intros x _ Hx. simpl in Hx. congruence.
  - destruct (r !! j) as [x|] eqn:Hj.
    + apply map_lookup_filter_Some. now split.
    + apply map_lookup_filter_None. now left.
Qed.

Lemma handle_untouched (jobId : string) (sig : Signal) (r : Registry) :
  touches jobId sig = false -> handle sig r !! jobId = r !! jobId.
Proof.
  destruct sig as [s p|s p|s p|s p|s p|s]; simpl; intros Ht;
    try (apply String.eqb_neq in Ht).
  - now apply setStatus_other.
  - now apply setStatus_other.
  - now apply setStatus_other.
  - unfold startJob. now apply lookup_insert_ne.
  - unfold removeJob. now apply lookup_delete_ne.
  - rewrite disconnect_lookup. now rewrite Ht.
Qed.

Lemma statusOf_untouched (jobId : string) (sig : Signal) (r : Registry) :
  touches jobId sig = false -> statusOf (handle sig r) jobId = statusOf r jobId.
Proof. intros Ht. unfold statusOf. now rewrite handle_untouched. Qed.

Lemma deliver_app (a b : list Signal) (r : Registry) :
  deliver (a ++ b) r = deliver b (deliver a r).
Proof. unfold deliver. apply fold_left_app. Qed.

Lemma deliver_cons (sig : Signal) (sigs : list Signal) (r : Registry) :
  deliver (sig :: sigs) r = deliver sigs (handle sig r).
Proof. reflexivity. Qed.

(** A control message for a job sets the status it names, whatever the
    status before, as soon as the entry exists. *)
Lemma handle_controls (socketId profileName : string) (sig : Signal)
    (r : Registry) :
  controls socketId profileName sig = true ->
  is_Some (r !! createJobId socketId profileName) ->
  statusOf (handle sig r) (createJobId socketId profileName) = target sig.
Proof.
  intros Hc Hsome.
  destruct sig as [s p|s p|s p|s p|s p|s]; simpl in Hc; try discriminate;
    apply andb_true_iff in Hc as [Hs Hp];
    apply String.eqb_eq in Hs; apply String.eqb_eq in Hp; subst s p; simpl;
    unfold statusOf, pauseJob, resumeJob, endJob, startJob;
    rewrite ?setStatus_present, ?lookup_insert_eq by assumption; reflexivity.
Qed.

Lemma controls_keep_present (socketId profileName : string) (sig : Signal)
    (r : Registry) :
  controls socketId profileName sig = true ->
  is_Some (r !! createJobId socketId profileName) ->
  is_Some (handle sig r !! createJobId socketId profileName).
Proof.
  intros Hc Hsome.
  pose proof (handle_controls socketId profileName sig r Hc Hsome) as Hst.
  unfold statusOf in Hst.
  destruct (handle sig r !! createJobId socketId profileName); [eauto|].
  destruct sig; simpl in *; discriminate.
Qed.

Lemma controls_deliver_present (socketId profileName : string)
    (sigs : list Signal) (r : Registry) :
  Forall (fun x => controls socketId profileName x = true) sigs ->
  is_Some (r !! createJobId socketId profileName) ->
  is_Some (deliver sigs r !! createJobId socketId profileName).
Proof.
  revert r. induction sigs as [|sig sigs IH]; intros r Hall Hsome; [exact Hsome|].
  inversion Hall as [|? ? Hsig Hrest]; subst.
  rewrite deliver_cons. apply IH; [exact Hrest|].
  now apply controls_keep_present.
Qed.

(** C2, as the handlers have it: once [start] has created the entry, the
    status after any sequence of start, pause, resume and end messages for
    the job is the one the last message names, whatever the status before
    it; so [running -> paused -> running] and [running|paused -> ended]
    are transitions, an ended job stays ended under further [end]s, and a
    pause or resume that reaches an entry still in the registry takes an
    ended job to paused or running. *)
Theorem C2_status_is_the_last_control (socketId profileName : string)
    (sigs : list Signal) (sig : Signal) (r : Registry) :
  Forall (fun x => controls socketId profileName x = true) (sigs ++ [sig]) ->
  statusOf (deliver (sigs ++ [sig]) (startJob socketId profileName r))
           (createJobId socketId profileName) = target sig.
Proof.
  intros Hall. apply Forall_app in Hall as [Hsigs Hsig].
  inversion Hsig as [|? ? Hc _]; subst.
  rewrite deliver_app. simpl. apply handle_controls; [exact Hc|].
  apply controls_deliver_present; [exact Hsigs|].
  unfold startJob. rewrite lookup_insert_eq. eauto.
Qed.

Lemma C2_status_is_the_last_control_witness :
  statusOf (deliver ([Pause "s1" "acme"; End "s1" "acme"] ++ [Resume "s1" "acme"])
                    (startJob "s1" "acme" ∅))
           (createJobId "s1" "acme") = Some running.
Proof.
  apply (C2_status_is_the_last_control "s1" "acme"
           [Pause "s1" "acme"; End "s1" "acme"] (Resume "s1" "acme") ∅).
  repeat constructor.
Defined.

(** C2 as stated fails: a job that has been ended and is still in the
    registry is paused by a later pause, and set running by a later
    resume. *)
Lemma C2_pause_after_end_leaves_ended :
  statusOf (endJob "s1" "acme" (startJob "s1" "acme" ∅))
           (createJobId "s1" "acme") = Some ended
  /\ statusOf (pauseJob "s1" "acme"
                 (endJob "s1" "acme" (startJob "s1" "acme" ∅)))
              (createJobId "s1" "acme") = Some paused
  /\ statusOf (resumeJob "s1" "acme"
                 (endJob "s1" "acme" (startJob "s1" "acme" ∅)))
              (createJobId "s1" "acme") = Some running.
Proof. vm_compute. auto. Qed.

Lemma handle_alive (jobId : string) (sig : Signal) (r : Registry) :
  cancels jobId sig = false -> alive jobId r -> alive jobId (handle sig r).
Proof.
  unfold alive, cancelled. intros Hc Ha.
  destruct (touches jobId sig) eqn:Ht.
  - assert (Hsome : is_Some (r !! jobId)).
    { unfold statusOf in Ha. destruct (r !! jobId); [eauto|discriminate]. }
    destruct sig as [s p|s p|s p|s p|s p|s]; simpl in Hc, Ht;
      try (rewrite Ht in Hc; discriminate Hc);
      apply String.eqb_eq in Ht; subst jobId; simpl; unfold statusOf.
    + unfold pauseJob. now rewrite setStatus_present.
    + unfold resumeJob. now rewrite setStatus_present.
    + unfold startJob. now rewrite lookup_insert_eq.
  - now rewrite statusOf_untouched.
Qed.

Lemma deliver_alive (jobId : string) (sigs : list Signal) (r : Registry) :
  Forall (fun sig => cancels jobId sig = false) sigs ->
  alive jobId r -> alive jobId (deliver sigs r).
Proof.
  revert r. induction sigs as [|sig sigs IH]; intros r Hall Ha; [exact Ha|].
  inversion Hall; subst. rewrite deliver_cons. apply IH; [assumption|].
  now apply handle_alive.
Qed.


(* ===================================================================== *)
(** ** The access-token cache *)
(* ===================================================================== *)

Lemma member_Own {A} (o : gmap string A) (k : string) (a : A) :
  member o k = Own a <-> o !! k = Some a.
Proof.
  unfold member. destruct (o !! k) as [a'|].
  - split; intros [= ->]; reflexivity.
  - split; [destruct (inherited k)|]; discriminate.
Qed.

Lemma member_insert {A} (o : gmap string A) (k : string) (a : A) :
  member (<[k := a]> o) k = Own a.
Proof. apply member_Own, lookup_insert_eq. Qed.

Lemma member_Inherited {A} (o : gmap string A) (k : string) :
  member o k = @Inherited A <-> o !! k = None /\ inherited k = true.
Proof.
  unfold member. destruct (o !! k) as [a|].
  - split; [discriminate|]. now intros [? _].
  - destruct (inherited k); split; try discriminate; auto.
    now intros [_ ?].
Qed.

Lemma refresh_posted (now : Z) (stack : string)
    (post : TokenRequest.t -> Outcome TokenData.t)
    (profile : Profile.t) (tokenCache : gmap string CacheEntry.t) :
  TokenResult.posted (refresh now stack post profile tokenCache)
  = [refreshParams profile].
Proof.
  unfold refresh. destruct (post (refreshParams profile)) as [data|e];
    [destruct (truthy (TokenData.error data))|]; reflexivity.
Qed.

Lemma refresh_stores (now : Z) (stack : string)
    (post : TokenRequest.t -> Outcome TokenData.t)
    (profile : Profile.t) (tokenCache : gmap string CacheEntry.t)
    (data : TokenData.t) :
  post (refreshParams profile) = Resolved data ->
  truthy (TokenData.error data) = false ->
  refresh now stack post profile tokenCache
  = {| TokenResult.result := Resolved data;
       TokenResult.tokenCache :=
         <[Profile.profileName profile :=
             {| CacheEntry.data := data;
                CacheEntry.expiresAt :=
                  now + (TokenData.expires_in data - 60) * 1000 |}]>
           tokenCache;
       TokenResult.posted := [refreshParams profile] |}.
Proof. intros Hpost Herr. unfold refresh. now rewrite Hpost, Herr. Qed.

(** The three ways [getValidAccessToken] goes. *)
Lemma getValidAccessToken_cases (now : Z) (stack : string)
    (post : TokenRequest.t -> Outcome TokenData.t)
    (profile : Profile.t) (tokenCache : gmap string CacheEntry.t) :
  let name := Profile.profileName profile in
  let res := getValidAccessToken now stack post profile tokenCache in
  (exists entry,
     tokenCache !! name = Some entry
     /\ truthy (TokenData.access_token (CacheEntry.data entry)) = true
     /\ now < CacheEntry.expiresAt entry
     /\ res = {| TokenResult.result := Resolved (CacheEntry.data entry);
                 TokenResult.tokenCache := tokenCache;
                 TokenResult.posted := [] |})
  \/ (tokenCache !! name = None /\ inherited name = true
      /\ res = {| TokenResult.result :=
                    Rejected (undefinedRead "access_token" stack);
                  TokenResult.tokenCache := tokenCache;
                  TokenResult.posted := [] |})
  \/ ((forall entry,
         tokenCache !! name = Some entry ->
         truthy (TokenData.access_token (CacheEntry.data entry)) = true ->
         now < CacheEntry.expiresAt entry -> False)
      /\ (tokenCache !! name = None -> inherited name = false)
      /\ res = refresh now stack post profile tokenCache).
Proof.
  cbv zeta. unfold getValidAccessToken, member.
  destruct (tokenCache !! Profile.profileName profile) as [entry|] eqn:He.
  - destruct (truthy (TokenData.access_token (CacheEntry.data entry))) eqn:Ht;
      [destruct (now <? CacheEntry.expiresAt entry) eqn:Hlt|]; cbn [andb].
    + left. exists entry. repeat split; auto. lia.
    + right. right. split; [|split; [discriminate|reflexivity]].
      intros entry' [= <-] _ Hlt'. lia.
    + right. right. split; [|split; [discriminate|reflexivity]].
      intros entry' [= <-] Ht' _. congruence.
  - destruct (inherited (Profile.profileName profile)) eqn:Hi.
    + right. left. auto.
    + right. right. split; [discriminate|]. auto.
Qed.

(** C10: [getValidAccessToken] returns the cached token response, posting
    nothing to the token endpoint, exactly when the cache has an entry
    for the profile name with a truthy [access_token] and an expiry
    strictly later than now; a successful refresh records the expiry
    [now + (expires_in - 60) * 1000] milliseconds, so that a later call
    answers from that entry exactly while it is earlier than 60 seconds
    before the end of the token's lifetime.  Nothing is posted in one
    more case only, with no token returned: for a profile named like a
    member of [Object.prototype] that has no entry, the opening test
    throws a [TypeError]. *)
Theorem C10_token_cache (now : Z) (stack : string)
    (post : TokenRequest.t -> Outcome TokenData.t)
    (profile : Profile.t) (tokenCache : gmap string CacheEntry.t) :
  let name := Profile.profileName profile in
  let res := getValidAccessToken now stack post profile tokenCache in
  ((exists entry, tokenCache !! name = Some entry
                  /\ truthy (TokenData.access_token (CacheEntry.data entry)) = true
                  /\ now < CacheEntry.expiresAt entry)
   <-> (exists data, TokenResult.result res = Resolved data)
       /\ TokenResult.posted res = [])
  /\ (forall entry,
        tokenCache !! name = Some entry ->
        truthy (TokenData.access_token (CacheEntry.data entry)) = true ->
        now < CacheEntry.expiresAt entry ->
        TokenResult.result res = Resolved (CacheEntry.data entry)
        /\ TokenResult.tokenCache res = tokenCache)
  /\ (TokenResult.posted res = []
      <-> (exists entry, tokenCache !! name = Some entry
                         /\ truthy (TokenData.access_token
                                      (CacheEntry.data entry)) = true
                         /\ now < CacheEntry.expiresAt entry)
          \/ (tokenCache !! name = None /\ inherited name = true))
  /\ (tokenCache !! name = None ->
      inherited name = true ->
      TokenResult.result res = Rejected (undefinedRead "access_token" stack)
      /\ TokenResult.tokenCache res = tokenCache)
  /\ (TokenResult.posted res <> [] ->
      TokenResult.posted res = [refreshParams profile]
      /\ forall data,
           post (refreshParams profile) = Resolved data ->
           truthy (TokenData.error data) = false ->
           TokenResult.result res = Resolved data
           /\ TokenResult.tokenCache res !! name
              = Some {| CacheEntry.data := data;
                        CacheEntry.expiresAt :=
                          now + (TokenData.expires_in data - 60) * 1000 |}
           /\ forall later stack' post',
                TokenResult.posted
                  (getValidAccessToken later stack' post' profile
                     (TokenResult.tokenCache res)) = []
                <-> truthy (TokenData.access_token data) = true
                    /\ later < now + (TokenData.expires_in data - 60) * 1000).
Proof.
  cbv zeta.
  destruct (getValidAccessToken_cases now stack post profile tokenCache)
    as [(entry & He & Ht & Hlt & Hres)
       |[(Hnone & Hinh & Hres)|(Hnot & Hown & Hres)]].
  - rewrite Hres. cbn [TokenResult.result TokenResult.tokenCache
                       TokenResult.posted].
    split; [split; eauto|]. split.
    { intros entry' He' _ _. split; [congruence|reflexivity]. }
    split; [split; eauto|]. split; [congruence|].
    intros Hne. now contradiction Hne.
  - rewrite Hres. cbn [TokenResult.result TokenResult.tokenCache
                       TokenResult.posted].
    split.
    { split; [intros (entry & He & _); congruence|].
      intros [[data [=]] _]. }
    split; [intros entry He; congruence|].
    split; [split; auto|]. split; [auto|].
    intros Hne. now contradiction Hne.
  - pose proof (refresh_posted now stack post profile tokenCache) as Hposted.
    rewrite <- Hres in Hposted.
    assert (Hnone : ~ exists entry,
               tokenCache !! Profile.profileName profile = Some entry
               /\ truthy (TokenData.access_token (CacheEntry.data entry)) = true
               /\ now < CacheEntry.expiresAt entry).
    { intros (entry & He & Ht & Hlt). eauto. }
    split.
    { split; [intros H; now apply Hnone in H|].
      rewrite Hposted. intros [_ [=]]. }
    split; [intros entry He Ht Hlt; exfalso; eauto|].
    split.
    { rewrite Hposted. split; [discriminate|].
      intros [H|[Hn Hi]]; [now apply Hnone in H|].
      rewrite (Hown Hn) in Hi. discriminate. }
    split.
    { intros Hn Hi. rewrite (Hown Hn) in Hi. discriminate. }
    intros _. split; [exact Hposted|].
    intros data Hpost Herr.
    rewrite Hres, (refresh_stores _ _ _ _ _ _ Hpost Herr).
    cbn [TokenResult.result TokenResult.tokenCache].
    rewrite lookup_insert_eq. split; [reflexivity|]. split; [reflexivity|].
    intros later stack' post'.
    set (cache' := <[Profile.profileName profile := _]> tokenCache).
    destruct (getValidAccessToken_cases later stack' post' profile cache')
      as [(entry & He & Ht & Hlt & Hres')
         |[(Hnone' & _ & _)|(Hnot' & _ & Hres')]].
    + unfold cache' in He. rewrite lookup_insert_eq in He.
      injection He as <-. cbn [CacheEntry.data CacheEntry.expiresAt] in *.
      rewrite Hres'. cbn [TokenResult.posted]. split; auto.
    + unfold cache' in Hnone'. rewrite lookup_insert_eq in Hnone'.
      discriminate.
    + rewrite Hres', refresh_posted. split; [discriminate|].
      intros [Ht Hlt]. exfalso.
      apply (Hnot' {| CacheEntry.data := data;
                      CacheEntry.expiresAt :=
                        now + (TokenData.expires_in data - 60) * 1000 |});
        auto.
      unfold cache'. apply lookup_insert_eq.
Qed.

Lemma C10_token_cache_witness :
  let res := getValidAccessToken 1000000 "" tokenEndpoint acme ∅ in
  TokenResult.posted res = [refreshParams acme]
  /\ TokenResult.tokenCache res !! "acme"
     = Some {| CacheEntry.data := grantedToken;
               CacheEntry.expiresAt := 1000000 + (3600 - 60) * 1000 |}
  /\ (TokenResult.posted
        (getValidAccessToken 4539999 "" tokenEndpoint acme
           (TokenResult.tokenCache res)) = []
      <-> truthy (TokenData.access_token grantedToken) = true
          /\ 4539999 < 1000000 + (3600 - 60) * 1000)
  /\ (TokenResult.posted
        (getValidAccessToken 4540000 "" tokenEndpoint acme
           (TokenResult.tokenCache res)) = []
      <-> truthy (TokenData.access_token grantedToken) = true
          /\ 4540000 < 1000000 + (3600 - 60) * 1000)
  /\ TokenResult.result
       (getValidAccessToken 1000000 "" tokenEndpoint constructorProfile ∅)
     = Rejected (undefinedRead "access_token" "")
  /\ (TokenResult.posted
        (getValidAccessToken 1000000 "" tokenEndpoint constructorProfile ∅)
      = []
      <-> (exists entry,
             (∅ : gmap string CacheEntry.t) !! "constructor" = Some entry
             /\ truthy (TokenData.access_token (CacheEntry.data entry)) = true
             /\ 1000000 < CacheEntry.expiresAt entry)
          \/ ((∅ : gmap string CacheEntry.t) !! "constructor" = None
              /\ inherited "constructor" = true)).
Proof.
  cbv zeta.
  assert (Hne : TokenResult.posted
                  (getValidAccessToken 1000000 "" tokenEndpoint acme ∅) <> [])
    by (vm_compute; discriminate).
  destruct (C10_token_cache 1000000 "" tokenEndpoint acme ∅)
    as (_ & _ & _ & _ & Hrefreshed).
  destruct (Hrefreshed Hne) as [Hposted Hrefresh].
  destruct (Hrefresh grantedToken eq_refl eq_refl) as (_ & Hcache & Hlater).
  destruct (C10_token_cache 1000000 "" tokenEndpoint constructorProfile ∅)
    as (_ & _ & Hquiet & Hthrown & _).
  split; [exact Hposted|]. split; [exact Hcache|].
  split; [apply Hlater|]. split; [apply Hlater|].
  split; [apply (Hthrown eq_refl eq_refl)|exact Hquiet].
Defined.

(* ===================================================================== *)
(** ** Strings *)
(* ===================================================================== *)

Lemma prefix_refl (s : string) : String.prefix s s = true.
Proof.
  induction s as [|c s IH]; simpl; [reflexivity|].
  destruct (ascii_dec c c) as [_|Hne]; [exact IH | now contradiction Hne].
Qed.

Lemma includes_here (sub s : string) :
  String.prefix sub s = true -> includes sub s = true.
Proof. intros Hp. destruct s; cbn [includes]; rewrite Hp; reflexivity. Qed.

Lemma includes_append (sub pre s : string) :
  includes sub s = true -> includes sub (pre +:+ s) = true.
Proof.
  intros Hs. induction pre as [|c pre IH]; [exact Hs|].
  change (String c pre +:+ s) with (String c (pre +:+ s)).
  cbn [includes]. rewrite IH. apply orb_true_r.
Qed.

(* ===================================================================== *)
(** ** Delivery verification *)
(* ===================================================================== *)

Lemma findFailure_first (alerts : Alerts.t) (entries : list Obj) (ticket f : Obj) :
  Alerts.data alerts = Some entries ->
  In f entries ->
  toStr (field f "ticketNumber") = toStr (field ticket "ticketNumber") ->
  exists g, findFailure alerts ticket = Some g
            /\ In g entries
            /\ toStr (field g "ticketNumber") = toStr (field ticket "ticketNumber").
Proof.
  intros Hdata Hin Hmatch. unfold findFailure. rewrite Hdata.
  destruct (List.find _ entries) as [g|] eqn:Hfind.
  - apply find_some in Hfind as [Hg Heq]. apply String.eqb_eq in Heq. eauto.
  - exfalso. apply (find_none _ _ Hfind) in Hin.
    apply String.eqb_neq in Hin. contradiction.
Qed.

(** C8: when both history feeds come back empty and the failure-alert
    feed holds an entry whose ticket number, as a string, is the created
    ticket's, the verification emits one update with [success = false]
    whose details end in the reason of the alert that the lookup finds
    (the first such entry of the feed). *)
Theorem C8_failure_alert_is_reported (ticket : Obj) (profile : Profile.t)
    (resultEventName : string) (workflowHistory notificationHistory : Feed.t)
    (alerts : Alerts.t) (entries : list Obj) (f : Obj) :
  orEmpty (Feed.data workflowHistory) = [] ->
  orEmpty (Feed.data notificationHistory) = [] ->
  Alerts.data alerts = Some entries ->
  In f entries ->
  toStr (field f "ticketNumber") = toStr (field ticket "ticketNumber") ->
  exists (g : Obj) (u : Update.t),
    findFailure alerts ticket = Some g
    /\ In g entries
    /\ toStr (field g "ticketNumber") = toStr (field ticket "ticketNumber")
    /\ verifyTicketEmail ticket profile resultEventName
         (Resolved (workflowHistory, notificationHistory)) (Resolved alerts)
       = [Wait verifyTimer;
          Call (historyRequest ticket "WorkflowHistory");
          Call (historyRequest ticket "NotificationRuleHistory");
          Call (alertsRequest profile);
          Emit (verification resultEventName u)]
    /\ Update.success u = false
    /\ Update.ticketNumber u = field ticket "ticketNumber"
    /\ Update.details u
       = ("Ticket #" +:+ toStr (field ticket "ticketNumber") +:+ " created. ")
         +:+ ("Email verification: Failed. Reason: "
              +:+ toStr (field g "reason"))
    /\ includes (toStr (field g "reason")) (Update.details u) = true
    /\ prop (prop (Update.fullResponse u) "verifyEmail") "failure" = VObj g.
Proof.
  intros Hwf Hnf Hdata Hin Hmatch.
  destruct (findFailure_first alerts entries ticket f Hdata Hin Hmatch)
    as (g & Hfind & Hgin & Hgmatch).
  exists g. eexists. split; [exact Hfind|]. split; [exact Hgin|].
  split; [exact Hgmatch|].
  unfold verifyTicketEmail. rewrite Hwf, Hnf, Hfind.
  cbn [app length Nat.ltb Nat.leb].
  split; [reflexivity|].
  cbn [Update.success Update.ticketNumber Update.details Update.fullResponse].
  split; [reflexivity|]. split; [reflexivity|]. split; [reflexivity|].
  split; [|reflexivity].
  apply includes_append. apply includes_append. apply includes_here.
  apply prefix_refl.
Qed.

Lemma C8_failure_alert_is_reported_witness :
  exists (g : Obj) (u : Update.t),
    findFailure {| Alerts.data := Some [mailboxFull] |} (ticketAt 0) = Some g
    /\ In g [mailboxFull]
    /\ toStr (field g "ticketNumber") = toStr (field (ticketAt 0) "ticketNumber")
    /\ verifyTicketEmail (ticketAt 0) acme "ticketUpdate"
         (Resolved ({| Feed.data := Some [] |}, {| Feed.data := None |}))
         (Resolved {| Alerts.data := Some [mailboxFull] |})
       = [Wait verifyTimer;
          Call (historyRequest (ticketAt 0) "WorkflowHistory");
          Call (historyRequest (ticketAt 0) "NotificationRuleHistory");
          Call (alertsRequest acme);
          Emit (verification "ticketUpdate" u)]
    /\ Update.success u = false
    /\ Update.ticketNumber u = field (ticketAt 0) "ticketNumber"
    /\ Update.details u
       = ("Ticket #" +:+ toStr (field (ticketAt 0) "ticketNumber")
          +:+ " created. ")
         +:+ ("Email verification: Failed. Reason: "
              +:+ toStr (field g "reason"))
    /\ includes (toStr (field g "reason")) (Update.details u) = true
    /\ prop (prop (Update.fullResponse u) "verifyEmail") "failure" = VObj g.
Proof.
  apply (C8_failure_alert_is_reported (ticketAt 0) acme "ticketUpdate"
           {| Feed.data := Some [] |} {| Feed.data := None |}
           {| Alerts.data := Some [mailboxFull] |} [mailboxFull] mailboxFull).
  - reflexivity.
  - reflexivity.
  - reflexivity.
  - simpl. auto.
  - reflexivity.
Defined.

(* ===================================================================== *)
(** ** Histories *)
(* ===================================================================== *)

Lemma replay_app (h1 h2 : list Action) (r : Registry) :
  replay (h1 ++ h2) r = replay h2 (replay h1 r).
Proof.
  revert r. induction h1 as [|a h1 IH]; intros r; [reflexivity|].
  destruct a; simpl; apply IH.
Qed.

Lemma replay_handled (sigs : list Signal) (r : Registry) :
  replay (map Handled sigs) r = deliver sigs r.
Proof.
  revert r. induction sigs as [|sig sigs IH]; intros r; [reflexivity|].
  simpl. rewrite IH. reflexivity.
Qed.

Lemma handled_app (h1 h2 : list Action) :
  handled (h1 ++ h2) = handled h1 ++ handled h2.
Proof.
  induction h1 as [|a h1 IH]; [reflexivity|].
  destruct a; simpl; now rewrite ?IH.
Qed.

Lemma handled_map (sigs : list Signal) : handled (map Handled sigs) = sigs.
Proof. induction sigs as [|sig sigs IH]; simpl; now rewrite ?IH. Qed.

Lemma replay_deliver (h : list Action) (r : Registry) :
  replay h r = deliver (handled h) r.
Proof.
  revert r. induction h as [|a h IH]; intros r; [reflexivity|].
  destruct a; simpl; rewrite IH; reflexivity.
Qed.

Lemma terminals_app (h1 h2 : list Action) :
  terminals (h1 ++ h2) = terminals h1 ++ terminals h2.
Proof.
  induction h1 as [|a h1 IH]; [reflexivity|].
  destruct a as [| | | |ev|]; simpl; try exact IH.
  destruct ev; simpl; now rewrite ?IH.
Qed.

Lemma results_app (h1 h2 : list Action) :
  results (h1 ++ h2) = results h1 ++ results h2.
Proof.
  induction h1 as [|a h1 IH]; [reflexivity|].
  destruct a as [| | | |ev|]; simpl; try exact IH.
  destruct ev; simpl; now rewrite ?IH.
Qed.

Lemma creates_app (h1 h2 : list Action) :
  creates (h1 ++ h2) = creates h1 ++ creates h2.
Proof. unfold creates. apply List.filter_app. Qed.

Lemma sleepTicks_app (h1 h2 : list Action) :
  sleepTicks (h1 ++ h2) = (sleepTicks h1 + sleepTicks h2)%nat.
Proof. unfold sleepTicks. now rewrite List.filter_app, length_app. Qed.

Lemma createsWhile_app (ok : option Status -> bool) (jobId : string)
    (h1 h2 : list Action) (r : Registry) :
  createsWhile ok jobId r (h1 ++ h2)
  = createsWhile ok jobId r h1 && createsWhile ok jobId (replay h1 r) h2.
Proof.
  revert r. induction h1 as [|a h1 IH]; intros r; [reflexivity|].
  destruct a; simpl; rewrite ?IH; try reflexivity.
  now rewrite andb_assoc.
Qed.

Lemma inFlight_app (busy : bool) (h1 h2 : list Action) :
  inFlight busy (h1 ++ h2)
  = match inFlight busy h1 with
    | Some b => inFlight b h2
    | None => None
    end.
Proof.
  revert busy. induction h1 as [|a h1 IH]; intros busy; [reflexivity|].
  simpl. destruct (isCreateCall a); [destruct busy; [reflexivity|apply IH]|].
  destruct (isResult a); [destruct busy; [apply IH|reflexivity]|apply IH].
Qed.

Lemma handled_inert (sigs : list Signal) :
  Forall (fun a => inert a = true) (map Handled sigs).
Proof. induction sigs; constructor; auto. Qed.

Lemma handled_no_ticks (sigs : list Signal) : sleepTicks (map Handled sigs) = O.
Proof. induction sigs; auto. Qed.

Create HintDb history discriminated.
Create Rewrite HintDb history.
#[global] Hint Rewrite replay_app handled_app terminals_app results_app
  creates_app sleepTicks_app : history.
#[global] Hint Resolve handled_inert : history.

Lemma inert_terminals (h : list Action) :
  Forall (fun a => inert a = true) h -> terminals h = [].
Proof.
  induction 1 as [|a l Ha _ IH]; [reflexivity|].
  destruct a as [| | | |ev|]; simpl; try exact IH. discriminate Ha.
Qed.

Lemma inert_results (h : list Action) :
  Forall (fun a => inert a = true) h -> results h = [].
Proof.
  induction 1 as [|a l Ha _ IH]; [reflexivity|].
  destruct a as [| | | |ev|]; simpl; try exact IH. discriminate Ha.
Qed.

Lemma inert_creates (h : list Action) :
  Forall (fun a => inert a = true) h -> creates h = [].
Proof.
  induction 1 as [|a l Ha _ IH]; [reflexivity|].
  unfold creates in *. destruct a as [| |req| | |]; simpl; try exact IH.
  simpl in Ha. apply negb_true_iff in Ha. now rewrite Ha.
Qed.

Lemma inert_inFlight (h : list Action) (busy : bool) :
  Forall (fun a => inert a = true) h -> inFlight busy h = Some busy.
Proof.
  induction 1 as [|a l Ha _ IH]; [reflexivity|].
  destruct a as [| |req| | |]; simpl; try exact IH; [|discriminate Ha].
  simpl in Ha. apply negb_true_iff in Ha. now rewrite Ha.
Qed.

Lemma inert_createsWhile (ok : option Status -> bool) (jobId : string)
    (h : list Action) (r : Registry) :
  Forall (fun a => inert a = true) h -> createsWhile ok jobId r h = true.
Proof.
  intros Hinert. revert r.
  induction Hinert as [|a l Ha _ IH]; intros r; [reflexivity|].
  destruct a as [| |req| | |]; simpl; try apply IH.
  simpl in Ha. apply negb_true_iff in Ha. rewrite Ha. apply IH.
Qed.

Lemma results_recipient (req : Request.t) (r : TicketResult.t)
    (hA hB : list Action) :
  Forall (fun a => inert a = true) hA ->
  Forall (fun a => inert a = true) hB ->
  results (Call req :: hA ++ Emit (ticketResult r) :: hB) = [r].
Proof.
  intros HA HB. cbn [results]. rewrite results_app. cbn [results].
  now rewrite (inert_results hA), (inert_results hB).
Qed.

Lemma creates_recipient (req : Request.t) (r : TicketResult.t)
    (hA hB : list Action) :
  isCreate req = true ->
  Forall (fun a => inert a = true) hA ->
  Forall (fun a => inert a = true) hB ->
  creates (Call req :: hA ++ Emit (ticketResult r) :: hB) = [Call req].
Proof.
  intros Hreq HA HB.
  change (Call req :: hA ++ Emit (ticketResult r) :: hB)
    with ([Call req] ++ hA ++ [Emit (ticketResult r)] ++ hB).
  rewrite !creates_app, (inert_creates hA), (inert_creates hB) by assumption.
  unfold creates. simpl. now rewrite Hreq.
Qed.

Lemma createsWhile_weaken (ok ok' : option Status -> bool) (jobId : string)
    (h : list Action) (r : Registry) :
  (forall s, ok s = true -> ok' s = true) ->
  createsWhile ok jobId r h = true -> createsWhile ok' jobId r h = true.
Proof.
  intros Himp. revert r. induction h as [|a h IH]; intros r Hcw; [reflexivity|].
  destruct a as [sig|t|req|n e|ev|t]; simpl in *; try (now apply IH).
  apply andb_true_iff in Hcw as [Hreq Hrest]. apply andb_true_iff. split.
  - destruct (isCreate req); [now apply Himp|reflexivity].
  - now apply IH.
Qed.





(* ===================================================================== *)
(** ** Tasks *)
(* ===================================================================== *)

Lemma bind_run {A B} (t : Task A) (k : A -> Task B) (m : Machine) :
  bind t k m = match t m with
               | (Some a, m1, h1) => after h1 (k a m1)
               | (None, m1, h1) => (None, m1, h1)
               end.
Proof.
  unfold bind, after. destruct (t m) as [[[a|] m1] h1]; [|reflexivity].
  now destruct (k a m1) as [[b m2] h2].
Qed.

Lemma after_nil {A} (x : option A * Machine * list Action) : after [] x = x.
Proof. now destruct x as [[v m] h]. Qed.

Lemma after_after {A} (h1 h2 : list Action)
    (x : option A * Machine * list Action) :
  after h1 (after h2 x) = after (h1 ++ h2) x.
Proof. destruct x as [[v m] h]. simpl. now rewrite app_assoc. Qed.

Lemma arrive_replay (m : Machine) :
  activeJobs (fst (arrive m)) = replay (snd (arrive m)) (activeJobs m).
Proof.
  unfold arrive. destruct (pending m) as [|sigs rest]; [reflexivity|].
  simpl. now rewrite replay_handled.
Qed.

Lemma arrive_inert (m : Machine) :
  Forall (fun a => inert a = true) (snd (arrive m)).
Proof.
  unfold arrive. destruct (pending m); [constructor|apply handled_inert].
Qed.

Lemma arrive_no_ticks (m : Machine) : sleepTicks (snd (arrive m)) = O.
Proof.
  unfold arrive. destruct (pending m); [reflexivity|apply handled_no_ticks].
Qed.

Lemma suspend_run (m : Machine) :
  suspend m = (Some tt, fst (arrive m), snd (arrive m)).
Proof. unfold suspend. now destruct (arrive m). Qed.

Lemma awaitCall_run {A} (req : Request.t) (answer : Outcome A) (m : Machine) :
  awaitCall req answer m
  = (Some answer, fst (arrive m), Call req :: snd (arrive m)).
Proof.
  unfold awaitCall. rewrite !bind_run. unfold act.
  rewrite bind_run, suspend_run. simpl. now rewrite app_nil_r.
Qed.

Lemma tracked_ret {A} (a : option A) (m : Machine) : tracked m (a, m, []).
Proof. split; reflexivity. Qed.

Lemma tracked_after {A B} (m m1 : Machine) (v : option A) (h1 : list Action)
    (x : option B * Machine * list Action) :
  tracked m (v, m1, h1) -> tracked m1 x -> tracked m (after h1 x).
Proof.
  destruct x as [[w m2] h2]. intros [Hr1 Hp1] [Hr2 Hp2]. split.
  - rewrite replay_app, <- Hr1. exact Hr2.
  - rewrite handled_app, <- app_assoc, <- Hp2. exact Hp1.
Qed.

Lemma tracked_static {A} (a : option A) (m : Machine) (h : list Action) :
  handled h = [] -> tracked m (a, m, h).
Proof.
  intros Hh. split; [|now rewrite Hh].
  rewrite replay_deliver, Hh. reflexivity.
Qed.

Lemma tracked_app {A B} (m m1 m2 : Machine) (v : option A) (w : option B)
    (h1 h2 : list Action) :
  tracked m (v, m1, h1) -> tracked m1 (w, m2, h2) -> tracked m (w, m2, h1 ++ h2).
Proof. intros H1 H2. exact (tracked_after m m1 v h1 (w, m2, h2) H1 H2). Qed.

Lemma tracked_cons {A} (m m' : Machine) (v : option A) (a : Action)
    (h : list Action) :
  handled [a] = [] -> tracked m (v, m', h) -> tracked m (v, m', a :: h).
Proof.
  intros Ha H.
  exact (tracked_app m m m' (Some tt) v [a] h (tracked_static _ m [a] Ha) H).
Qed.

Lemma arrive_tracked {A} (a : option A) (m : Machine) :
  tracked m (a, fst (arrive m), snd (arrive m)).
Proof.
  split; [apply arrive_replay|].
  unfold arrive. destruct (pending m) as [|sigs rest] eqn:E; simpl.
  - now rewrite E.
  - now rewrite handled_map.
Qed.

Lemma tracked_arrive {A} (m m' : Machine) (v : option A) (h : list Action) :
  tracked (fst (arrive m)) (v, m', h) -> tracked m (v, m', snd (arrive m) ++ h).
Proof. apply tracked_app with (v := Some tt). apply arrive_tracked. Qed.

(** Walks a history from its head: an action that is no message, the
    messages of one suspension, or nothing more. *)
Ltac tracked_steps :=
  repeat first
    [ apply tracked_ret
    | apply arrive_tracked
    | apply tracked_arrive
    | apply tracked_cons; [reflexivity|] ].

(** What a stretch leaves behind when no message that arrives cancels the
    job: the job is still alive, and so are the messages still pending. *)
Lemma tracked_alive {A} (jobId : string) (m m' : Machine) (v : option A)
    (h : list Action) :
  tracked m (v, m', h) ->
  Forall (fun sig => cancels jobId sig = false) (concat (pending m)) ->
  alive jobId (activeJobs m) ->
  Forall (fun sig => cancels jobId sig = false) (concat (pending m'))
  /\ alive jobId (activeJobs m').
Proof.
  intros [Hr Hp] Hall Ha. rewrite Hp in Hall.
  apply Forall_app in Hall as [Hh Hrest]. split; [exact Hrest|].
  rewrite Hr, replay_deliver. now apply deliver_alive.
Qed.

(* ===================================================================== *)
(** ** The interruptible delay *)
(* ===================================================================== *)

Lemma sleepPoll_step (ms elapsed : Z) (jobId : string) (m : Machine) :
  sleepPoll ms elapsed jobId m =
  let m1 := fst (arrive m) in
  let h1 := snd (arrive m) in
  if cancelled (activeJobs m1) jobId then (m1, Wait sleepTimer :: h1)
  else if elapsed + 100 <? ms then
         (fst (sleepPoll ms (elapsed + 100) jobId m1),
          Wait sleepTimer :: h1 ++ snd (sleepPoll ms (elapsed + 100) jobId m1))
       else (m1, Wait sleepTimer :: h1).
Proof.
  simp sleepPoll. destruct (arrive m) as [m1 h1] eqn:Ha. simpl.
  destruct (cancelled (activeJobs m1) jobId) eqn:Hc; simpl; [reflexivity|].
  destruct (Z_lt_dec (elapsed + 100) ms) as [Hlt|Hge]; simpl.
  - destruct (sleepPoll ms (elapsed + 100) jobId m1) as [m2 h2]. simpl.
    destruct (elapsed + 100 <? ms) eqn:E; [reflexivity|lia].
  - destruct (elapsed + 100 <? ms) eqn:E; [lia|reflexivity].
Qed.

Lemma advance_S (k : nat) (m : Machine) :
  advance (S k) m = advance k (fst (arrive m)).
Proof. reflexivity. Qed.

(** The interval callback stops at the first firing that finds the job
    ended or gone, or the duration used up. *)
Lemma sleepPoll_spec (n : nat) :
  forall (ms elapsed : Z) (jobId : string) (m : Machine),
    ms - elapsed <= 100 * Z.of_nat n ->
    exists k : nat,
      (1 <= k)%nat
      /\ fst (sleepPoll ms elapsed jobId m) = advance k m
      /\ sleepTicks (snd (sleepPoll ms elapsed jobId m)) = k
      /\ Forall (fun a => inert a = true) (snd (sleepPoll ms elapsed jobId m))
      /\ activeJobs (advance k m)
         = replay (snd (sleepPoll ms elapsed jobId m)) (activeJobs m)
      /\ (cancelled (activeJobs (advance k m)) jobId = true
          \/ ms <= elapsed + 100 * Z.of_nat k)
      /\ forall j : nat,
           (1 <= j < k)%nat ->
           cancelled (activeJobs (advance j m)) jobId = false
           /\ elapsed + 100 * Z.of_nat j < ms.
Proof.
  induction n as [|n IH]; intros ms elapsed jobId m Hn;
    rewrite sleepPoll_step; cbv zeta;
    pose proof (arrive_inert m) as Hin;
    pose proof (arrive_replay m) as Hrep;
    pose proof (arrive_no_ticks m) as Hticks;
    destruct (cancelled (activeJobs (fst (arrive m))) jobId) eqn:Hc.
  1,3: exists 1%nat; simpl; repeat split; auto; try lia;
       unfold sleepTicks in *; simpl; lia.
  - destruct (elapsed + 100 <? ms) eqn:E; [lia|].
    exists 1%nat. simpl. repeat split; auto; try lia.
    unfold sleepTicks in *; simpl; lia.
  - destruct (elapsed + 100 <? ms) eqn:E.
    + destruct (IH ms (elapsed + 100) jobId (fst (arrive m)))
        as (k & Hk & Hfst & Hcount & Hinert & Hreplay & Hstop & Hbefore); [lia|].
      exists (S k). rewrite advance_S. simpl fst. simpl snd.
      split; [lia|]. split; [exact Hfst|].
      split.
      { change (Wait sleepTimer :: snd (arrive m) ++ snd (sleepPoll ms (elapsed + 100) jobId (fst (arrive m))))
          with ([Wait sleepTimer] ++ snd (arrive m) ++ snd (sleepPoll ms (elapsed + 100) jobId (fst (arrive m)))).
        rewrite !sleepTicks_app, Hticks, Hcount. reflexivity. }
      split.
      { constructor; [reflexivity|]. apply Forall_app. split; assumption. }
      split.
      { simpl. rewrite replay_app, <- Hrep. exact Hreplay. }
      split.
      { destruct Hstop as [Hs|Hs]; [left; exact Hs|right; lia]. }
      intros j Hj. destruct j as [|j]; [lia|]. rewrite advance_S.
      destruct j as [|j].
      * simpl. split; [exact Hc|lia].
      * destruct (Hbefore (S j)) as [Hcj Hlt]; [lia|]. split; [exact Hcj|lia].
    + exists 1%nat. simpl. repeat split; auto; try lia.
      unfold sleepTicks in *; simpl; lia.
Qed.

Lemma sleepPoll_tracked (ms elapsed : Z) (jobId : string) (m : Machine) :
  tracked m (Some tt, fst (sleepPoll ms elapsed jobId m),
             snd (sleepPoll ms elapsed jobId m)).
Proof.
  assert (H : forall n ms elapsed m, ms - elapsed <= 100 * Z.of_nat n ->
            tracked m (Some tt, fst (sleepPoll ms elapsed jobId m),
                       snd (sleepPoll ms elapsed jobId m))).
  { clear. induction n as [|n IH]; intros ms elapsed m Hn;
      rewrite sleepPoll_step; cbv zeta;
      destruct (cancelled (activeJobs (fst (arrive m))) jobId);
      [| destruct (elapsed + 100 <? ms) eqn:E; [lia|] |
       | destruct (elapsed + 100 <? ms) eqn:E ];
      cbn [fst snd]; apply tracked_cons; try reflexivity;
      try (apply arrive_tracked).
    apply tracked_arrive. apply IH. lia. }
  apply (H (Z.to_nat (ms - elapsed))). lia.
Qed.

Lemma interruptibleSleep_run (ms : Z) (jobId : string) (m : Machine) :
  interruptibleSleep ms jobId m
  = if ms <=? 0 then (Some tt, m, [])
    else (Some tt, fst (sleepPoll ms 0 jobId m), snd (sleepPoll ms 0 jobId m)).
Proof.
  unfold interruptibleSleep. destruct (ms <=? 0); [reflexivity|].
  now destruct (sleepPoll ms 0 jobId m).
Qed.

(** C6: for a duration that is not positive [interruptibleSleep] resolves
    at once, without a poll and whatever the registry holds; for a
    positive one it resolves at the first firing [k] of the 100 ms
    interval at which the job is found ended or removed or [100 * k]
    reaches the duration, and at no earlier firing. *)
Theorem C6_interruptibleSleep (ms : Z) (jobId : string) (m : Machine) :
  (ms <= 0 -> interruptibleSleep ms jobId m = (Some tt, m, []))
  /\ (0 < ms ->
      exists (k : nat) (h : list Action),
        interruptibleSleep ms jobId m = (Some tt, advance k m, h)
        /\ (1 <= k)%nat
        /\ sleepTicks h = k
        /\ (cancelled (activeJobs (advance k m)) jobId = true
            \/ ms <= 100 * Z.of_nat k)
        /\ forall j : nat,
             (1 <= j < k)%nat ->
             cancelled (activeJobs (advance j m)) jobId = false
             /\ 100 * Z.of_nat j < ms).
Proof.
  rewrite interruptibleSleep_run. split.
  - intros Hle. destruct (ms <=? 0) eqn:E; [reflexivity|lia].
  - intros Hpos. destruct (ms <=? 0) eqn:E; [lia|].
    destruct (sleepPoll_spec (Z.to_nat ms) ms 0 jobId m)
      as (k & Hk & Hfst & Hcount & _ & _ & Hstop & Hbefore); [lia|].
    exists k, (snd (sleepPoll ms 0 jobId m)). rewrite Hfst.
    repeat split; auto.
    + apply Hbefore. lia.
    + apply Hbefore. lia.
Qed.

Lemma C6_interruptibleSleep_witness :
  interruptibleSleep 0 "s1_acme"
    {| activeJobs := startJob "s1" "acme" ∅; pending := [[End "s1" "acme"]] |}
  = (Some tt,
     {| activeJobs := startJob "s1" "acme" ∅; pending := [[End "s1" "acme"]] |},
     [])
  /\ exists (k : nat) (h : list Action),
       interruptibleSleep 250 "s1_acme"
         {| activeJobs := startJob "s1" "acme" ∅;
            pending := [[]; [End "s1" "acme"]] |}
       = (Some tt,
          advance k {| activeJobs := startJob "s1" "acme" ∅;
                       pending := [[]; [End "s1" "acme"]] |}, h)
       /\ (1 <= k)%nat
       /\ sleepTicks h = k
       /\ (cancelled
             (activeJobs
                (advance k {| activeJobs := startJob "s1" "acme" ∅;
                              pending := [[]; [End "s1" "acme"]] |}))
             "s1_acme" = true
           \/ 250 <= 100 * Z.of_nat k)
       /\ forall j : nat,
            (1 <= j < k)%nat ->
            cancelled
              (activeJobs
                 (advance j {| activeJobs := startJob "s1" "acme" ∅;
                               pending := [[]; [End "s1" "acme"]] |}))
              "s1_acme" = false
            /\ 100 * Z.of_nat j < 250.
Proof.
  split.
  - apply (proj1 (C6_interruptibleSleep 0 "s1_acme" _)). lia.
  - apply (proj2 (C6_interruptibleSleep 250 "s1_acme" _)). lia.
Defined.

Lemma advance_alive (jobId : string) (k : nat) :
  forall m : Machine,
    Forall (fun sig => cancels jobId sig = false) (concat (pending m)) ->
    alive jobId (activeJobs m) ->
    alive jobId (activeJobs (advance k m)).
Proof.
  induction k as [|k IH]; intros m Hall Ha; [exact Ha|].
  rewrite advance_S.
  destruct (tracked_alive jobId m (fst (arrive m)) (Some tt) (snd (arrive m))
              (arrive_tracked _ m) Hall Ha) as [Hall' Ha'].
  now apply IH.
Qed.

(** A delay that nothing interrupts takes every one of its periods. *)
Lemma sleepPoll_full (jobId : string) (delay : Z) (m : Machine) :
  0 < delay ->
  Forall (fun sig => cancels jobId sig = false) (concat (pending m)) ->
  alive jobId (activeJobs m) ->
  sleepTicks (snd (sleepPoll (delay * 1000) 0 jobId m)) = ticksPerDelay delay.
Proof.
  intros Hd Hall Ha.
  destruct (sleepPoll_spec (Z.to_nat (delay * 1000)) (delay * 1000) 0 jobId m)
    as (k & Hk & _ & Hcount & _ & _ & Hstop & Hbefore); [lia|].
  rewrite Hcount. unfold ticksPerDelay.
  destruct (0 <? delay) eqn:E; [|lia].
  destruct Hstop as [Hc|Hreach].
  - pose proof (advance_alive jobId k m Hall Ha) as Hk'.
    unfold alive in Hk'. congruence.
  - destruct (Nat.eq_dec k 1%nat) as [->|Hne]; [lia|].
    destruct (Hbefore (k - 1)%nat) as [_ Hlt]; lia.
Qed.

(* ===================================================================== *)
(** ** The pause poll *)
(* ===================================================================== *)

Lemma pausePoll_spec (jobId : string) (sched : list (list Signal)) :
  forall jobs : Registry,
    tracked {| activeJobs := jobs; pending := sched |}
            (pausePoll jobId sched jobs)
    /\ Forall (fun a => inert a = true) (snd (pausePoll jobId sched jobs))
    /\ sleepTicks (snd (pausePoll jobId sched jobs)) = O
    /\ isPaused (activeJobs (snd (fst (pausePoll jobId sched jobs)))) jobId
       = match fst (fst (pausePoll jobId sched jobs)) with
         | Some _ => false
         | None => true
         end.
Proof.
  induction sched as [|sigs rest IH]; intros jobs; simpl;
    destruct (isPaused jobs jobId) eqn:Hp; simpl.
  - repeat split; auto.
  - repeat split; auto.
  - specialize (IH (deliver sigs jobs)).
    destruct (pausePoll jobId rest (deliver sigs jobs)) as [[v m'] h].
    destruct IH as (Htr & Hin & Hticks & Hpaused). simpl in *.
    split; [|split; [|split]].
    + apply tracked_cons; [reflexivity|].
      apply (tracked_app _ {| activeJobs := deliver sigs jobs; pending := rest |}
               _ (Some tt)); [|exact Htr].
      split; simpl; [now rewrite replay_handled|now rewrite handled_map].
    + constructor; [reflexivity|]. apply Forall_app.
      split; [apply handled_inert|exact Hin].
    + change (Wait pauseTimer :: map Handled sigs ++ h)
        with ([Wait pauseTimer] ++ map Handled sigs ++ h).
      now rewrite !sleepTicks_app, handled_no_ticks, Hticks.
    + exact Hpaused.
  - repeat split; auto.
Qed.

Lemma whilePaused_spec (jobId : string) (m : Machine) :
  tracked m (whilePaused jobId m)
  /\ Forall (fun a => inert a = true) (snd (whilePaused jobId m))
  /\ sleepTicks (snd (whilePaused jobId m)) = O
  /\ isPaused (activeJobs (snd (fst (whilePaused jobId m)))) jobId
     = match fst (fst (whilePaused jobId m)) with
       | Some _ => false
       | None => true
       end.
Proof.
  unfold whilePaused. destruct m as [jobs sched]. apply pausePoll_spec.
Qed.

Lemma paused_not_cancelled (r : Registry) (jobId : string) :
  isPaused r jobId = true -> cancelled r jobId = false.
Proof.
  unfold isPaused, cancelled. destruct (statusOf r jobId) as [[]|]; auto;
    discriminate.
Qed.

(* ===================================================================== *)
(** ** One recipient *)
(* ===================================================================== *)

Lemma replyRequest_not_create (data : BulkData.t) (activeProfile : Profile.t)
    (newTicket : Obj) (email : string) :
  isCreate (replyRequest data activeProfile newTicket email) = false.
Proof. reflexivity. Qed.

Lemma sendReply_run (data : BulkData.t) (activeProfile : Profile.t)
    (upstream : Upstream.t) (i : nat) (newTicket : Obj) (email : string)
    (m : Machine) :
  exists (out : bool * string * Obj) (m' : Machine) (h : list Action),
    sendReply data activeProfile upstream i newTicket email m = (Some out, m', h)
    /\ tracked m (Some out, m', h)
    /\ Forall (fun a => inert a = true) h
    /\ sleepTicks h = O.
Proof.
  unfold sendReply. destruct (BulkData.sendDirectReply data).
  - rewrite bind_run, awaitCall_run.
    destruct (Upstream.reply upstream i) as [body|e]; simpl;
      rewrite app_nil_r; do 3 eexists; (split; [reflexivity|]);
      (split; [|split]).
    1,4: tracked_steps.
    1,3: constructor; [reflexivity|apply arrive_inert].
    1,2: apply arrive_no_ticks.
  - do 3 eexists. split; [reflexivity|]. split; [tracked_steps|].
    split; [constructor|reflexivity].
Qed.

(** A recipient that is processed costs one create-ticket call and yields
    one result event, for its address; nothing else in between or after
    is a create-ticket call or an event, and no delay is taken. *)
Lemma processRecipient_spec (data : BulkData.t) (activeProfile : Profile.t)
    (upstream : Upstream.t) (i : nat) (email : string) (m : Machine) :
  exists (r : TicketResult.t) (hA hB : list Action) (m' : Machine),
    processRecipient data activeProfile upstream i email m
    = (Some tt, m',
       Call (createRequest data activeProfile email) :: hA
       ++ Emit (ticketResult r) :: hB)
    /\ tracked m (Some tt, m',
                  Call (createRequest data activeProfile email) :: hA
                  ++ Emit (ticketResult r) :: hB)
    /\ Forall (fun a => inert a = true) hA
    /\ Forall (fun a => inert a = true) hB
    /\ sleepTicks (hA ++ Emit (ticketResult r) :: hB) = O
    /\ TicketResult.email r = email.
Proof.
  unfold processRecipient. rewrite bind_run, awaitCall_run.
  destruct (Upstream.create upstream i) as [newTicket|error].
  - rewrite bind_run. unfold act at 1. cbv iota beta.
    rewrite bind_run.
    destruct (sendReply_run data activeProfile upstream i newTicket email
                (fst (arrive m))) as (out & m1 & h1 & Hrun & Htr & Hin & Hticks).
    rewrite Hrun. destruct out as [[overallSuccess successMessage] replyPart].
    cbv iota beta. rewrite bind_run. unfold act at 1. cbv iota beta.
    assert (Htail : exists hB,
              (if BulkData.verifyEmail data then act (Verify newTicket) else ret tt) m1
              = (Some tt, m1, hB) /\ Forall (fun a => inert a = true) hB
              /\ sleepTicks hB = O /\ handled hB = []).
    { destruct (BulkData.verifyEmail data); eexists;
        (split; [reflexivity|]); repeat split; repeat constructor. }
    destruct Htail as (hB & HrunB & HinB & HticksB & HhB). rewrite HrunB.
    simpl after.
    exists {| TicketResult.email := email;
              TicketResult.success := overallSuccess;
              TicketResult.ticketNumber := Some (field newTicket "ticketNumber");
              TicketResult.details := Some successMessage;
              TicketResult.error := None;
              TicketResult.fullResponse :=
                VObj (("ticketCreate", VObj newTicket) :: replyPart);
              TicketResult.profileName := BulkData.selectedProfileName data |},
           (snd (arrive m) ++ Logged (field newTicket "ticketNumber") email :: h1),
           hB, m1.
    split.
    { f_equal. f_equal. rewrite <- !app_assoc. reflexivity. }
    split.
    { rewrite <- app_assoc. tracked_steps.
      apply (tracked_app _ _ _ _ _ _ _ Htr).
      apply tracked_static. simpl. exact HhB. }
    split.
    { apply Forall_app. split; [apply arrive_inert|].
      constructor; [reflexivity|exact Hin]. }
    split; [exact HinB|].
    split; [|reflexivity].
    rewrite !sleepTicks_app, arrive_no_ticks.
    unfold sleepTicks in *. simpl. rewrite Hticks, HticksB. reflexivity.
  - unfold act. simpl after.
    eexists _, (snd (arrive m)), [], (fst (arrive m)).
    split; [reflexivity|].
    split.
    { tracked_steps. }
    split; [apply arrive_inert|]. split; [constructor|].
    split; [|reflexivity].
    rewrite sleepTicks_app, arrive_no_ticks. reflexivity.
Qed.

Lemma loopBody_run (data : BulkData.t) (activeProfile : Profile.t)
    (upstream : Upstream.t) (i : nat) (email : string) (next : Task unit)
    (m : Machine) :
  loopBody data activeProfile upstream i email next m =
  if String.eqb (trim email) "" then next m
  else match processRecipient data activeProfile upstream i email m with
       | (Some _, m1, h1) => after h1 (next m1)
       | (None, m1, h1) => (None, m1, h1)
       end.
Proof.
  unfold loopBody. destruct (String.eqb (trim email) ""); [reflexivity|].
  apply bind_run.
Qed.

(** C7: when the create-ticket call succeeds and the send-reply call
    fails, with [sendDirectReply] set, the loop body issues these two
    calls and no other, emits one result with [success = false], the
    created ticket's number, and the parsed reply error under
    [fullResponse.sendReply.error], and goes on with the rest of the
    loop. *)
Theorem C7_reply_failure_keeps_the_ticket (data : BulkData.t)
    (activeProfile : Profile.t) (upstream : Upstream.t) (i : nat)
    (email : string) (next : Task unit) (m : Machine) (newTicket : Obj)
    (replyError : JsError.t) :
  BulkData.sendDirectReply data = true ->
  String.eqb (trim email) "" = false ->
  Upstream.create upstream i = Resolved newTicket ->
  Upstream.reply upstream i = Rejected replyError ->
  exists r : TicketResult.t,
    loopBody data activeProfile upstream i email next m
    = after ([Call (createRequest data activeProfile email)]
             ++ snd (arrive m)
             ++ [Logged (field newTicket "ticketNumber") email;
                 Call (replyRequest data activeProfile newTicket email)]
             ++ snd (arrive (fst (arrive m)))
             ++ [Emit (ticketResult r)]
             ++ (if BulkData.verifyEmail data then [Verify newTicket] else []))
            (next (fst (arrive (fst (arrive m)))))
    /\ TicketResult.email r = email
    /\ TicketResult.success r = false
    /\ TicketResult.ticketNumber r = Some (field newTicket "ticketNumber")
    /\ TicketResult.details r
       = Some ("Ticket #" +:+ toStr (field newTicket "ticketNumber")
               +:+ " created, but reply failed: "
               +:+ toStr (ParsedError.message (parseError replyError)))
    /\ prop (TicketResult.fullResponse r) "ticketCreate" = VObj newTicket
    /\ prop (prop (TicketResult.fullResponse r) "sendReply") "error"
       = ParsedError.toValue (parseError replyError).
Proof.
  intros Hflag Hblank Hcreate Hreply.
  eexists. split.
  - rewrite loopBody_run, Hblank. unfold processRecipient.
    rewrite bind_run, awaitCall_run, Hcreate. cbv iota beta.
    rewrite bind_run. unfold act at 1. cbv iota beta.
    rewrite bind_run. unfold sendReply. rewrite Hflag.
    rewrite bind_run, awaitCall_run, Hreply. cbv iota beta.
    unfold ret at 1. cbn [after]. rewrite bind_run. unfold act at 1.
    cbv iota beta.
    destruct (BulkData.verifyEmail data); unfold act, ret; cbn [after];
      destruct (next (fst (arrive (fst (arrive m))))) as [[v m'] h'];
      cbn [after]; rewrite ?app_nil_r, <- ?app_assoc; cbn [app];
      rewrite <- ?app_assoc; reflexivity.
  - cbn. repeat split.
Qed.

Lemma C7_reply_failure_keeps_the_ticket_witness :
  exists r : TicketResult.t,
    loopBody (batch ["a@x.com"] 0 true) acme helpdeskNoReply 0 "a@x.com"
             (ret tt) (idle [])
    = after ([Call (createRequest (batch ["a@x.com"] 0 true) acme "a@x.com")]
             ++ snd (arrive (idle []))
             ++ [Logged (field (ticketAt 0) "ticketNumber") "a@x.com";
                 Call (replyRequest (batch ["a@x.com"] 0 true) acme
                                    (ticketAt 0) "a@x.com")]
             ++ snd (arrive (fst (arrive (idle []))))
             ++ [Emit (ticketResult r)]
             ++ (if BulkData.verifyEmail (batch ["a@x.com"] 0 true)
                 then [Verify (ticketAt 0)] else []))
            (ret tt (fst (arrive (fst (arrive (idle []))))))
    /\ TicketResult.email r = "a@x.com"
    /\ TicketResult.success r = false
    /\ TicketResult.ticketNumber r = Some (field (ticketAt 0) "ticketNumber")
    /\ TicketResult.details r
       = Some ("Ticket #" +:+ toStr (field (ticketAt 0) "ticketNumber")
               +:+ " created, but reply failed: "
               +:+ toStr (ParsedError.message (parseError replyRefused)))
    /\ prop (TicketResult.fullResponse r) "ticketCreate" = VObj (ticketAt 0)
    /\ prop (prop (TicketResult.fullResponse r) "sendReply") "error"
       = ParsedError.toValue (parseError replyRefused).
Proof.
  apply (C7_reply_failure_keeps_the_ticket (batch ["a@x.com"] 0 true) acme
           helpdeskNoReply 0 "a@x.com" (ret tt) (idle []) (ticketAt 0)
           replyRefused); reflexivity.
Defined.

(* ===================================================================== *)
(** ** The loop *)
(* ===================================================================== *)

Lemma startable_running (delay : Z) (r : Registry) (jobId : string) :
  cancelled r jobId = false -> isPaused r jobId = false ->
  startable delay (statusOf r jobId) = true.
Proof.
  unfold cancelled, isPaused, startable.
  destruct (statusOf r jobId) as [[]|]; auto; discriminate.
Qed.

Lemma startable_delayed (delay : Z) (r : Registry) (jobId : string) :
  cancelled r jobId = false -> 0 < delay ->
  startable delay (statusOf r jobId) = true.
Proof.
  unfold cancelled, startable. intros Hc Hd.
  destruct (statusOf r jobId) as [[]|]; auto; try discriminate.
  destruct (0 <? delay) eqn:E; [reflexivity|lia].
Qed.

(** The optional inter-item delay of an iteration. *)
Lemma delay_step (i : nat) (delay : Z) (jobId : string) (m1 : Machine) :
  exists (m2 : Machine) (h2 : list Action),
    (if (0 <? i)%nat && (0 <? delay)
     then interruptibleSleep (delay * 1000) jobId m1
     else (Some tt, m1, [])) = (Some tt, m2, h2)
    /\ tracked m1 (Some tt, m2, h2)
    /\ Forall (fun a => inert a = true) h2
    /\ (0 < delay \/ (m2 = m1 /\ h2 = [])).
Proof.
  destruct ((0 <? i)%nat && (0 <? delay)) eqn:Hcond.
  - apply andb_true_iff in Hcond as [_ Hd]. apply Z.ltb_lt in Hd.
    rewrite interruptibleSleep_run.
    destruct (delay * 1000 <=? 0) eqn:E; [lia|].
    do 2 eexists. split; [reflexivity|].
    split; [apply sleepPoll_tracked|]. split; [|now left].
    destruct (sleepPoll_spec (Z.to_nat (delay * 1000)) (delay * 1000) 0 jobId m1)
      as (k & _ & _ & _ & Hin & _); [lia|exact Hin].
  - do 2 eexists. split; [reflexivity|]. split; [apply tracked_ret|].
    split; [constructor|now right].
Qed.

Lemma goodRun_ret (delay : Z) (jobId : string) (m : Machine) :
  goodRun delay jobId m (Some tt, m, []).
Proof.
  split; [apply tracked_ret|]. repeat split; auto. discriminate.
Qed.

Lemma goodRun_blocked (delay : Z) (jobId : string) (m m1 : Machine)
    (h : list Action) :
  tracked m (None : option unit, m1, h) ->
  Forall (fun a => inert a = true) h ->
  isPaused (activeJobs m1) jobId = true ->
  goodRun delay jobId m (None, m1, h).
Proof.
  intros Htr Hin Hp. split; [exact Htr|]. simpl.
  split; [now apply inert_terminals|].
  split; [now apply inert_createsWhile|].
  split; [now apply inert_inFlight|]. auto.
Qed.

Lemma goodRun_after (delay : Z) (jobId : string) (m m1 : Machine)
    (h : list Action) (x : option unit * Machine * list Action) :
  tracked m (Some tt, m1, h) ->
  Forall (fun a => inert a = true) h ->
  goodRun delay jobId m1 x ->
  goodRun delay jobId m (after h x).
Proof.
  intros Htr Hin (Htx & Hterm & Hcw & Hfl & Hblock).
  split; [exact (tracked_after _ _ _ _ _ Htr Htx)|].
  destruct x as [[v m2] h2]. simpl in *.
  split; [now rewrite terminals_app, inert_terminals|].
  split.
  { rewrite createsWhile_app, inert_createsWhile by assumption.
    destruct Htr as [Hr _]. now rewrite <- Hr. }
  split; [now rewrite inFlight_app, inert_inFlight|]. exact Hblock.
Qed.

Lemma goodRun_recipient (delay : Z) (jobId : string) (m m1 : Machine)
    (req : Request.t) (r : TicketResult.t) (hA hB : list Action)
    (x : option unit * Machine * list Action) :
  isCreate req = true ->
  startable delay (statusOf (activeJobs m) jobId) = true ->
  tracked m (Some tt, m1, Call req :: hA ++ Emit (ticketResult r) :: hB) ->
  Forall (fun a => inert a = true) hA ->
  Forall (fun a => inert a = true) hB ->
  goodRun delay jobId m1 x ->
  goodRun delay jobId m (after (Call req :: hA ++ Emit (ticketResult r) :: hB) x).
Proof.
  intros Hreq Hstart Htr HinA HinB (Htx & Hterm & Hcw & Hfl & Hblock).
  split; [exact (tracked_after _ _ _ _ _ Htr Htx)|].
  destruct x as [[v m2] h2]. cbn [after fst snd] in *.
  assert (Heq : (Call req :: hA ++ Emit (ticketResult r) :: hB) ++ h2
                = [Call req] ++ hA ++ [Emit (ticketResult r)] ++ hB ++ h2).
  { simpl. now rewrite <- app_assoc. }
  split.
  { rewrite Heq, !terminals_app, (inert_terminals hA), (inert_terminals hB)
      by assumption.
    exact Hterm. }
  split.
  { destruct Htr as [Hr _].
    rewrite createsWhile_app, <- Hr, Hcw, andb_true_r.
    cbn [createsWhile]. rewrite Hreq, Hstart.
    change (hA ++ Emit (ticketResult r) :: hB)
      with (hA ++ [Emit (ticketResult r)] ++ hB).
    rewrite !createsWhile_app.
    rewrite (inert_createsWhile _ _ hA), (inert_createsWhile _ _ hB)
      by assumption.
    reflexivity. }
  split; [|exact Hblock].
  rewrite Heq, inFlight_app. cbn [inFlight isCreateCall]. rewrite Hreq.
  rewrite inFlight_app, inert_inFlight by assumption.
  rewrite inFlight_app. cbn [inFlight isCreateCall isResult].
  rewrite inFlight_app, inert_inFlight by assumption. exact Hfl.
Qed.

Section Loop.

Variable socketId : string.
Variable data : BulkData.t.
Variable activeProfile : Profile.t.
Variable upstream : Upstream.t.

Lemma iteration_run (i : nat) (email : string) (next : Task unit)
    (m : Machine) :
  iteration socketId data activeProfile upstream i email next m =
  let jobId := createJobId socketId (BulkData.selectedProfileName data) in
  if cancelled (activeJobs m) jobId then (Some tt, m, [])
  else
    match whilePaused jobId m with
    | (None, m1, h1) => (None, m1, h1)
    | (Some _, m1, h1) =>
        after h1
          (match (if (0 <? i)%nat && (0 <? BulkData.delay data)
                  then interruptibleSleep (BulkData.delay data * 1000) jobId m1
                  else (Some tt, m1, [])) with
           | (_, m2, h2) =>
               after h2
                 (if cancelled (activeJobs m2) jobId then (Some tt, m2, [])
                  else loopBody data activeProfile upstream i email next m2)
           end)
    end.
Proof.
  cbv zeta. unfold iteration. rewrite bind_run. unfold getJobs at 1.
  cbv iota beta. rewrite after_nil.
  destruct (cancelled (activeJobs m) _); [reflexivity|].
  rewrite bind_run.
  destruct (whilePaused _ m) as [[[[]|] m1] h1]; [|reflexivity].
  f_equal. rewrite bind_run.
  assert (Hsome : forall t : Task unit,
            (t = interruptibleSleep (BulkData.delay data * 1000)
                   (createJobId socketId (BulkData.selectedProfileName data))
             \/ t = ret tt) ->
            exists m2 h2, t m1 = (Some tt, m2, h2)).
  { intros t [->| ->].
    - rewrite interruptibleSleep_run. destruct (_ <=? 0); eauto.
    - unfold ret. eauto. }
  destruct ((0 <? i)%nat && (0 <? BulkData.delay data)).
  - destruct (Hsome _ (or_introl eq_refl)) as (m2 & h2 & ->).
    f_equal. rewrite bind_run. unfold getJobs at 1. cbv iota beta.
    rewrite after_nil. now destruct (cancelled (activeJobs m2) _).
  - unfold ret at 1. f_equal. rewrite bind_run. unfold getJobs at 1.
    cbv iota beta. rewrite after_nil. now destruct (cancelled (activeJobs m1) _).
Qed.

Lemma iteration_good (i : nat) (email : string) (next : Task unit) :
  let jobId := createJobId socketId (BulkData.selectedProfileName data) in
  (forall m, goodRun (BulkData.delay data) jobId m (next m)) ->
  forall m,
    goodRun (BulkData.delay data) jobId m
      (iteration socketId data activeProfile upstream i email next m).
Proof.
  intros jobId Hnext m. rewrite iteration_run. cbv zeta. fold jobId.
  destruct (cancelled (activeJobs m) jobId) eqn:Hc0; [apply goodRun_ret|].
  destruct (whilePaused_spec jobId m) as (Htr1 & Hin1 & _ & Hp1).
  destruct (whilePaused jobId m) as [[[[]|] m1] h1]; cbn [fst snd] in *.
  2: now apply goodRun_blocked.
  apply (goodRun_after _ _ _ m1); [exact Htr1|exact Hin1|].
  destruct (delay_step i (BulkData.delay data) jobId m1)
    as (m2 & h2 & Hrun2 & Htr2 & Hin2 & Hd).
  rewrite Hrun2.
  apply (goodRun_after _ _ _ m2); [exact Htr2|exact Hin2|].
  destruct (cancelled (activeJobs m2) jobId) eqn:Hc2; [apply goodRun_ret|].
  rewrite loopBody_run.
  destruct (String.eqb (trim email) ""); [apply Hnext|].
  destruct (processRecipient_spec data activeProfile upstream i email m2)
    as (r & hA & hB & m3 & Hrun3 & Htr3 & HinA & HinB & _ & _).
  rewrite Hrun3.
  apply (goodRun_recipient _ _ _ m3); auto.
  destruct Hd as [Hd|[-> _]].
  - now apply startable_delayed.
  - now apply startable_running.
Qed.

(** The invariant of the loop, from any index and any state. *)
Lemma forLoop_good (emails : list string) :
  forall (i : nat) (m : Machine),
    goodRun (BulkData.delay data)
      (createJobId socketId (BulkData.selectedProfileName data)) m
      (forLoop socketId data activeProfile upstream i emails m).
Proof.
  induction emails as [|email rest IH]; intros i m.
  - apply goodRun_ret.
  - simpl. apply iteration_good. intros m'. apply IH.
Qed.

(** The loop from index [i] on, when it runs to its end and no message
    cancels the job. *)
Lemma forLoop_complete (emails : list string) :
  let jobId := createJobId socketId (BulkData.selectedProfileName data) in
  forall (i : nat) (m m' : Machine) (h : list Action),
    Forall (fun sig => cancels jobId sig = false) (concat (pending m)) ->
    alive jobId (activeJobs m) ->
    forLoop socketId data activeProfile upstream i emails m = (Some tt, m', h) ->
    map TicketResult.email (results h) = nonBlank emails
    /\ length (creates h) = length (nonBlank emails)
    /\ sleepTicks h
       = (laterIndices i (length emails) * ticksPerDelay (BulkData.delay data))%nat
    /\ alive jobId (activeJobs m').
Proof.
  intros jobId.
  induction emails as [|email rest IH]; intros i m m' h Hall Ha Hrun.
  - injection Hrun as <- <-. repeat split; auto. destruct i; reflexivity.
  - cbn [forLoop] in Hrun. rewrite iteration_run in Hrun. cbv zeta in Hrun.
    fold jobId in Hrun. unfold alive in Ha. rewrite Ha in Hrun.
    destruct (whilePaused_spec jobId m) as (Htr1 & Hin1 & Hticks1 & _).
    destruct (whilePaused jobId m) as [[[[]|] m1] h1]; [|discriminate].
    cbn [fst snd] in *.
    destruct (tracked_alive jobId _ _ _ _ Htr1 Hall Ha) as [Hall1 Ha1].
    (* the delay *)
    assert (Hdelay : exists m2 h2,
              (if (0 <? i)%nat && (0 <? BulkData.delay data)
               then interruptibleSleep (BulkData.delay data * 1000) jobId m1
               else (Some tt, m1, [])) = (Some tt, m2, h2)
              /\ tracked m1 (Some tt, m2, h2)
              /\ Forall (fun a => inert a = true) h2
              /\ sleepTicks h2
                 = ((if (0 <? i)%nat then 1 else 0)
                    * ticksPerDelay (BulkData.delay data))%nat).
    { destruct (delay_step i (BulkData.delay data) jobId m1)
        as (m2 & h2 & Hrun2 & Htr2 & Hin2 & _).
      exists m2, h2. split; [exact Hrun2|]. split; [exact Htr2|].
      split; [exact Hin2|]. clear Htr2 Hin2.
      destruct ((0 <? i)%nat) eqn:Hi; cbn [andb] in Hrun2.
      - destruct (0 <? BulkData.delay data) eqn:Hd.
        + rewrite interruptibleSleep_run in Hrun2.
          destruct (BulkData.delay data * 1000 <=? 0) eqn:E; [lia|].
          injection Hrun2 as _ <-.
          rewrite sleepPoll_full; auto; lia.
        + injection Hrun2 as _ <-. unfold ticksPerDelay. rewrite Hd.
          reflexivity.
      - injection Hrun2 as _ <-. reflexivity. }
    destruct Hdelay as (m2 & h2 & Hrun2 & Htr2 & Hin2 & Hticks2).
    rewrite Hrun2 in Hrun.
    destruct (tracked_alive jobId _ _ _ _ Htr2 Hall1 Ha1) as [Hall2 Ha2].
    unfold alive in Ha2. rewrite Ha2 in Hrun. rewrite loopBody_run in Hrun.
    assert (Hlater : (laterIndices i (length (email :: rest))
                      = (if (0 <? i)%nat then 1 else 0)
                        + laterIndices (S i) (length rest))%nat).
    { destruct i; simpl; lia. }
    rewrite Hlater. cbn [nonBlank List.filter].
    destruct (String.eqb (trim email) "") eqn:Hblank; cbn [negb].
    + rewrite !after_after in Hrun.
      destruct (forLoop socketId data activeProfile upstream (S i) rest m2)
        as [[v3 m3] h3] eqn:Hnext.
      cbn [after] in Hrun. injection Hrun as -> <- <-.
      destruct (IH (S i) m2 m3 h3 Hall2 Ha2 Hnext) as (Hres & Hcre & Hti & Hal).
      rewrite results_app, creates_app, sleepTicks_app, !sleepTicks_app.
      rewrite (inert_results (h1 ++ h2)), (inert_creates (h1 ++ h2))
        by (apply Forall_app; auto).
      cbn [app]. repeat split; auto.
      rewrite Hticks1, Hticks2, Hti. lia.
    + destruct (processRecipient_spec data activeProfile upstream i email m2)
        as (r & hA & hB & m3 & Hrun3 & Htr3 & HinA & HinB & Hticks3 & Hemail).
      rewrite Hrun3 in Hrun. rewrite !after_after in Hrun.
      destruct (tracked_alive jobId _ _ _ _ Htr3 Hall2 Ha2) as [Hall3 Ha3].
      destruct (forLoop socketId data activeProfile upstream (S i) rest m3)
        as [[v4 m4] h4] eqn:Hnext.
      cbn [after] in Hrun. injection Hrun as -> <- <-.
      destruct (IH (S i) m3 m4 h4 Hall3 Ha3 Hnext) as (Hres & Hcre & Hti & Hal).
      rewrite !results_app, !creates_app, !sleepTicks_app.
      rewrite (inert_results h1), (inert_results h2), (inert_creates h1),
        (inert_creates h2) by assumption.
      rewrite results_recipient, creates_recipient by auto.
      cbn [app map length]. rewrite Hemail, Hres, Hcre.
      repeat split; auto.
      change (Call (createRequest data activeProfile email)
              :: hA ++ Emit (ticketResult r) :: hB)
        with ([Call (createRequest data activeProfile email)]
              ++ (hA ++ Emit (ticketResult r) :: hB)).
      rewrite sleepTicks_app, Hticks1, Hticks2, Hticks3, Hti.
      unfold sleepTicks at 1. simpl. lia.
Qed.

End Loop.

(* ===================================================================== *)
(** ** The handler as a whole *)
(* ===================================================================== *)

Lemma finish_run (jobId profileName : string) (m : Machine) :
  finish jobId profileName m =
  match activeJobs m !! jobId with
  | Some job =>
      (Some tt,
       {| activeJobs := removeJob jobId (activeJobs m); pending := pending m |},
       [Emit (match status job with
              | ended => bulkEnded profileName
              | _ => bulkComplete profileName
              end)])
  | None => (Some tt, m, [])
  end.
Proof.
  unfold finish. rewrite bind_run. unfold getJobs. cbv iota beta.
  rewrite after_nil. destruct (activeJobs m !! jobId) as [job|]; reflexivity.
Qed.

Lemma handled_finish (jobId profileName : string) (m : Machine) :
  handled (snd (finish jobId profileName m)) = [].
Proof.
  rewrite finish_run. now destruct (activeJobs m !! jobId).
Qed.

Lemma startBulkCreate_run (socketId : string) (profiles : list Profile.t)
    (upstream : Upstream.t) (data : BulkData.t) (m : Machine) :
  startBulkCreate socketId profiles upstream data m =
  let p := BulkData.selectedProfileName data in
  let jobId := createJobId socketId p in
  let m0 := {| activeJobs := startJob socketId p (activeJobs m);
               pending := pending m |} in
  match setup profiles data with
  | inr activeProfile =>
      match forLoop socketId data activeProfile upstream 0
                    (BulkData.emails data) m0 with
      | (Some _, m1, h1) => after h1 (finish jobId p m1)
      | (None, m1, h1) => (None, m1, h1)
      end
  | inl message =>
      after [Emit (bulkError (if truthyStr message then message
                              else "A critical server error occurred.") p)]
            (finish jobId p m0)
  end.
Proof.
  cbv zeta. unfold startBulkCreate. rewrite bind_run. unfold setJobs at 1.
  cbv iota beta. rewrite after_nil.
  destruct (setup profiles data) as [message|activeProfile].
  - rewrite bind_run. unfold act. reflexivity.
  - rewrite bind_run. reflexivity.
Qed.

(** When the statements before the loop throw, the handler emits
    [bulkError] and then, from its [finally], [bulkComplete]; it issues no
    call and removes the entry it created. *)
Lemma setup_failure_run (socketId : string) (profiles : list Profile.t)
    (upstream : Upstream.t) (data : BulkData.t) (m : Machine)
    (message : string) :
  setup profiles data = inl message ->
  startBulkCreate socketId profiles upstream data m
  = (Some tt,
     {| activeJobs :=
          delete (createJobId socketId (BulkData.selectedProfileName data))
                 (activeJobs m);
        pending := pending m |},
     [Emit (bulkError (if truthyStr message then message
                       else "A critical server error occurred.")
                      (BulkData.selectedProfileName data));
      Emit (bulkComplete (BulkData.selectedProfileName data))]).
Proof.
  intros Hsetup. rewrite startBulkCreate_run. cbv zeta. rewrite Hsetup.
  rewrite finish_run. cbn [activeJobs pending]. unfold startJob.
  rewrite lookup_insert_eq. cbn [after app status].
  unfold removeJob. now rewrite delete_insert_eq.
Qed.

(** What the handler does when the statements before the loop throw, at
    the two ways they can: the profile is not found, or it has no sender
    address while [sendDirectReply] is set. *)
Example setup_failure_sample :
  startBulkCreate "s1" [] helpdesk (batch ["a@x.com"; "b@x.com"] 0 false)
                  (idle [])
  = (Some tt, idle [],
     [Emit (bulkError "Profile not found." "acme");
      Emit (bulkComplete "acme")])
  /\ startBulkCreate "s1" [acmeNoSender] helpdesk
                     (batch ["a@x.com"; "b@x.com"] 0 true) (idle [])
     = (Some tt, idle [],
        [Emit (bulkError ("Profile " +:+ dquote +:+ "acme" +:+ dquote
                          +:+ " is missing " +:+ dquote
                          +:+ "fromEmailAddress" +:+ dquote +:+ ".")
                         "acme");
         Emit (bulkComplete "acme")]).
Proof.
  split.
  - rewrite (setup_failure_run _ _ _ _ _ "Profile not found.") by reflexivity.
    reflexivity.
  - rewrite (setup_failure_run _ _ _ _ _
               ("Profile " +:+ dquote +:+ "acme" +:+ dquote
                +:+ " is missing " +:+ dquote
                +:+ "fromEmailAddress" +:+ dquote +:+ "."))
      by reflexivity.
    reflexivity.
Qed.

(** Once the loop is entered the handler emits at most one terminal
    event, whatever messages arrive. *)
Lemma one_terminal_at_most (socketId : string) (profiles : list Profile.t)
    (upstream : Upstream.t) (data : BulkData.t) (m : Machine)
    (activeProfile : Profile.t) :
  setup profiles data = inr activeProfile ->
  (length (terminals (snd (startBulkCreate socketId profiles upstream data m)))
   <= 1)%nat.
Proof.
  intros Hsetup. rewrite startBulkCreate_run. cbv zeta. rewrite Hsetup.
  match goal with |- context [forLoop ?s ?d ?a ?u ?i ?e ?m0] =>
    pose proof (forLoop_good s d a u e i m0) as (_ & Hterm & _);
    destruct (forLoop s d a u i e m0) as [[[[]|] m1] h1]
  end; cbn [fst snd] in *.
  - rewrite finish_run. destruct (activeJobs m1 !! _) as [job|];
      cbn [after snd]; rewrite terminals_app, Hterm; simpl.
    + destruct (status job); simpl; lia.
    + lia.
  - rewrite Hterm. simpl. lia.
Qed.

Lemma startBulkCreate_starts (socketId : string) (profiles : list Profile.t)
    (upstream : Upstream.t) (data : BulkData.t) (activeProfile : Profile.t)
    (m : Machine) :
  setup profiles data = inr activeProfile ->
  createsWhile (startable (BulkData.delay data))
    (createJobId socketId (BulkData.selectedProfileName data))
    (startJob socketId (BulkData.selectedProfileName data) (activeJobs m))
    (snd (startBulkCreate socketId profiles upstream data m)) = true.
Proof.
  intros Hsetup. rewrite startBulkCreate_run. cbv zeta. rewrite Hsetup.
  match goal with |- context [forLoop ?s ?d ?a ?u ?i ?e ?m0] =>
    pose proof (forLoop_good s d a u e i m0) as (_ & _ & Hcw & _);
    destruct (forLoop s d a u i e m0) as [[[[]|] m1] h1]
  end; cbn [fst snd activeJobs] in *; [|exact Hcw].
  rewrite finish_run.
  destruct (activeJobs m1 !! _); cbn [after snd];
    rewrite createsWhile_app, Hcw; reflexivity.
Qed.

(** C1, as the handler has it: a batch that returns has removed its
    registry entry.  When the statements before the loop succeed, its
    terminal events are decided in the [finally] block: [bulkEnded] when
    the entry is there with status [ended], [bulkComplete] when it is
    there with another status, none when the entry is gone (the
    connection was closed).  When they throw, no call is issued and no
    result is emitted, and the first event is [bulkError] with the
    message of the error. *)
Theorem C1_terminal_events (socketId : string) (profiles : list Profile.t)
    (upstream : Upstream.t) (data : BulkData.t) (m m' : Machine)
    (h : list Action) :
  let p := BulkData.selectedProfileName data in
  let jobId := createJobId socketId p in
  startBulkCreate socketId profiles upstream data m = (Some tt, m', h) ->
  activeJobs m' !! jobId = None
  /\ match setup profiles data with
     | inr _ =>
         terminals h
         = match statusOf (replay h (startJob socketId p (activeJobs m))) jobId with
           | Some ended => [bulkEnded p]
           | Some _ => [bulkComplete p]
           | None => []
           end
     | inl message =>
         Forall (fun a => match a with
                          | Call _ | Emit (ticketResult _) => False
                          | _ => True
                          end) h
         /\ exists rest,
              h = Emit (bulkError (if truthyStr message then message
                                   else "A critical server error occurred.") p)
                  :: rest
     end.
Proof.
  intros p jobId Hrun.
  destruct (setup profiles data) as [message|activeProfile] eqn:Hsetup.
  - rewrite (setup_failure_run _ _ _ _ _ message Hsetup) in Hrun.
    injection Hrun as <- <-. cbn [activeJobs]. fold p. fold jobId.
    split; [apply lookup_delete_eq|].
    split; [repeat constructor|eauto].
  - rewrite startBulkCreate_run in Hrun. cbv zeta in Hrun.
    rewrite Hsetup in Hrun. fold p in Hrun. fold jobId in Hrun.
    match type of Hrun with context [forLoop ?s ?d ?a ?u ?i ?e ?m0] =>
      pose proof (forLoop_good s d a u e i m0) as Hgood;
      destruct (forLoop s d a u i e m0) as [[[[]|] m1] h1]
    end; [|discriminate].
    destruct Hgood as ([Hreplay _] & Hterm & _).
    cbn [fst snd activeJobs] in *.
    rewrite finish_run in Hrun.
    assert (Hst : forall hfin, handled hfin = [] ->
              statusOf (replay (h1 ++ hfin) (startJob socketId p (activeJobs m)))
                       jobId
              = status <$> activeJobs m1 !! jobId).
    { intros hfin Hfin. rewrite replay_app, <- Hreplay.
      rewrite (replay_deliver hfin), Hfin. reflexivity. }
    destruct (activeJobs m1 !! jobId) as [job|] eqn:Hjob; cbn [after] in Hrun;
      injection Hrun as <- <-.
    + cbn [activeJobs]. unfold removeJob. split; [apply lookup_delete_eq|].
      rewrite Hst by reflexivity. rewrite terminals_app, Hterm. cbn [fmap option_fmap option_map].
      simpl. destruct (status job); reflexivity.
    + split; [exact Hjob|]. rewrite Hst by reflexivity.
      rewrite app_nil_r. exact Hterm.
Qed.

Lemma C1_terminal_events_witness :
  activeJobs (idle []) !! createJobId "s1" "acme" = None
  /\ terminals
       (snd (startBulkCreate "s1" [acme] helpdesk
               (batch ["a@x.com"; "b@x.com"] 0 false)
               (idle [[End "s1" "acme"]])))
     = [bulkEnded "acme"].
Proof.
  exact (C1_terminal_events "s1" [acme] helpdesk
           (batch ["a@x.com"; "b@x.com"] 0 false)
           (idle [[End "s1" "acme"]]) (idle [])
           (snd (startBulkCreate "s1" [acme] helpdesk
                   (batch ["a@x.com"; "b@x.com"] 0 false)
                   (idle [[End "s1" "acme"]])))
           eq_refl).
Defined.

(** C1 as stated fails, in both directions.  When the connection is
    closed while the first recipient's call is in flight, the entry is
    gone at the end of the batch and no terminal event is emitted.  When
    the profile is not found, the terminal events are two. *)
Lemma C1_terminal_events_are_not_always_one :
  terminals (snd (startBulkCreate "s1" [acme] helpdesk
                    (batch ["a@x.com"; "b@x.com"] 0 false)
                    (idle [[Disconnect "s1"]]))) = []
  /\ map TicketResult.email
       (results (snd (startBulkCreate "s1" [acme] helpdesk
                        (batch ["a@x.com"; "b@x.com"] 0 false)
                        (idle [[Disconnect "s1"]])))) = ["a@x.com"]
  /\ terminals (snd (startBulkCreate "s1" [] helpdesk
                       (batch ["a@x.com"; "b@x.com"] 0 false) (idle [])))
     = [bulkError "Profile not found." "acme"; bulkComplete "acme"].
Proof. vm_compute. repeat split. Qed.

(* ===================================================================== *)
(** ** A batch that is never ended *)
(* ===================================================================== *)

(** C3, as the loop has it: in a batch that runs to its end while no
    message ends or removes the job, the result events are those of the
    entries that are not blank after trimming, one each and in input
    order, with one create-ticket call each; a blank entry yields no
    event and no call, but it is skipped after the inter-item delay: the
    delay is taken in full at every index after the first, blank or not.
    The batch ends with [bulkComplete]. *)
Theorem C3_one_result_per_non_blank_entry (socketId : string)
    (profiles : list Profile.t) (upstream : Upstream.t) (data : BulkData.t)
    (activeProfile : Profile.t) (m m' : Machine) (h : list Action) :
  let jobId := createJobId socketId (BulkData.selectedProfileName data) in
  setup profiles data = inr activeProfile ->
  Forall (fun sig => cancels jobId sig = false) (concat (pending m)) ->
  startBulkCreate socketId profiles upstream data m = (Some tt, m', h) ->
  map TicketResult.email (results h) = nonBlank (BulkData.emails data)
  /\ length (results h) = length (nonBlank (BulkData.emails data))
  /\ length (creates h) = length (nonBlank (BulkData.emails data))
  /\ sleepTicks h
     = (pred (length (BulkData.emails data))
        * ticksPerDelay (BulkData.delay data))%nat
  /\ terminals h = [bulkComplete (BulkData.selectedProfileName data)].
Proof.
  intros jobId Hsetup Hall Hrun.
  rewrite startBulkCreate_run in Hrun. cbv zeta in Hrun.
  rewrite Hsetup in Hrun. fold jobId in Hrun.
  set (m0 := {| activeJobs :=
                  startJob socketId (BulkData.selectedProfileName data)
                           (activeJobs m);
                pending := pending m |}) in *.
  assert (Ha0 : alive jobId (activeJobs m0)).
  { unfold alive, cancelled, statusOf, m0, startJob. cbn [activeJobs].
    fold jobId. now rewrite lookup_insert_eq. }
  pose proof (forLoop_good socketId data activeProfile upstream
                (BulkData.emails data) 0%nat m0) as Hgood.
  destruct (forLoop socketId data activeProfile upstream 0
              (BulkData.emails data) m0) as [[[[]|] m1] h1] eqn:Hloop;
    [|discriminate].
  destruct Hgood as (_ & Hterm & _). cbn [snd] in Hterm.
  destruct (forLoop_complete socketId data activeProfile upstream
              (BulkData.emails data) 0%nat m0 m1 h1 Hall Ha0 Hloop)
    as (Hres & Hcre & Hti & Ha1).
  rewrite finish_run in Hrun. unfold alive, cancelled, statusOf in Ha1.
  fold jobId in Ha1.
  destruct (activeJobs m1 !! jobId) as [job|]; [|discriminate].
  cbn [after] in Hrun. injection Hrun as _ <-.
  assert (Hfin : Emit (match status job with
                       | ended => bulkEnded (BulkData.selectedProfileName data)
                       | _ => bulkComplete (BulkData.selectedProfileName data)
                       end)
                 = Emit (bulkComplete (BulkData.selectedProfileName data))).
  { simpl in Ha1. destruct (status job); [reflexivity|reflexivity|discriminate]. }
  rewrite Hfin.
  autorewrite with history. rewrite Hterm.
  cbn [results creates List.filter isCreateCall terminals app].
  rewrite !app_nil_r. unfold sleepTicks at 2. cbn [List.filter isSleepTick length].
  rewrite Nat.add_0_r. split; [exact Hres|].
  split; [now rewrite <- Hres, length_map|]. auto.
Qed.

Lemma C3_one_result_per_non_blank_entry_witness :
  let run := startBulkCreate "s1" [acme] helpdesk
               (batch ["a@x.com"; " "; "b@x.com"] 1 false)
               (idle [[Pause "s1" "acme"]; [Resume "s1" "acme"]]) in
  map TicketResult.email (results (snd run))
  = nonBlank ["a@x.com"; " "; "b@x.com"]
  /\ length (results (snd run)) = length (nonBlank ["a@x.com"; " "; "b@x.com"])
  /\ length (creates (snd run)) = length (nonBlank ["a@x.com"; " "; "b@x.com"])
  /\ sleepTicks (snd run) = (pred 3 * ticksPerDelay 1)%nat
  /\ terminals (snd run) = [bulkComplete "acme"].
Proof.
  cbv zeta.
  apply (C3_one_result_per_non_blank_entry "s1" [acme] helpdesk
           (batch ["a@x.com"; " "; "b@x.com"] 1 false) acme
           (idle [[Pause "s1" "acme"]; [Resume "s1" "acme"]])
           (snd (fst (startBulkCreate "s1" [acme] helpdesk
                        (batch ["a@x.com"; " "; "b@x.com"] 1 false)
                        (idle [[Pause "s1" "acme"]; [Resume "s1" "acme"]]))))).
  - reflexivity.
  - vm_compute. repeat constructor.
  - vm_compute. reflexivity.
Defined.

(** C3 as stated fails: the blank entry at index 1 is skipped only after
    the inter-item delay of index 1 has been taken.  With a delay of 2
    seconds the batch [a, blank] waits 20 periods of 100 ms after the
    result for [a], and the batch [a, blank, b] waits 40 periods where
    the batch [a, b] waits 20. *)
Lemma C3_blank_entry_takes_a_delay :
  snd (startBulkCreate "s1" [acme] helpdesk (batch ["a@x.com"; " "] 2 false)
                       (idle []))
  = [Call (createRequest (batch ["a@x.com"; " "] 2 false) acme "a@x.com");
     Logged (VStr "101") "a@x.com";
     Emit (ticketResult
       {| TicketResult.email := "a@x.com";
          TicketResult.success := true;
          TicketResult.ticketNumber := Some (VStr "101");
          TicketResult.details := Some "Ticket #101 created.";
          TicketResult.error := None;
          TicketResult.fullResponse := VObj [("ticketCreate", VObj (ticketAt 0))];
          TicketResult.profileName := "acme" |})]
    ++ repeat (Wait sleepTimer) 20
    ++ [Emit (bulkComplete "acme")]
  /\ sleepTicks (snd (startBulkCreate "s1" [acme] helpdesk
                        (batch ["a@x.com"; " "; "b@x.com"] 2 false) (idle [])))
     = 40%nat
  /\ sleepTicks (snd (startBulkCreate "s1" [acme] helpdesk
                        (batch ["a@x.com"; "b@x.com"] 2 false) (idle [])))
     = 20%nat
  /\ map TicketResult.email
       (results (snd (startBulkCreate "s1" [acme] helpdesk
                        (batch ["a@x.com"; " "; "b@x.com"] 2 false) (idle []))))
     = ["a@x.com"; "b@x.com"].
Proof. vm_compute. repeat split. Qed.

(* ===================================================================== *)
(** ** Ending a job *)
(* ===================================================================== *)




(* ===================================================================== *)
(** ** Pausing a job *)
(* ===================================================================== *)

(** C5, as the loop has it: a pause in effect at the entry of an
    iteration suspends the worker.  While the poll finds the job paused
    nothing happens but the 500 ms wait, after which the worker is at the
    entry of the same iteration again, the whole inter-item delay still
    ahead of it; with no message left to arrive it waits for ever.  A
    recipient starts only while the job is running, or paused when an
    inter-item delay is configured (a pause that arrives during the delay
    is first seen at the entry of the next iteration); without a delay no
    recipient starts while the job is paused. *)
Theorem C5_pause_is_seen_at_loop_entry (socketId : string)
    (profiles : list Profile.t) (upstream : Upstream.t) (data : BulkData.t)
    (activeProfile : Profile.t) :
  let jobId := createJobId socketId (BulkData.selectedProfileName data) in
  (forall (i : nat) (email : string) (next : Task unit) (jobs : Registry)
          (sigs : list Signal) (rest : list (list Signal)),
      isPaused jobs jobId = true ->
      cancelled (deliver sigs jobs) jobId = false ->
      iteration socketId data activeProfile upstream i email next
        {| activeJobs := jobs; pending := sigs :: rest |}
      = after (Wait pauseTimer :: map Handled sigs)
          (iteration socketId data activeProfile upstream i email next
             {| activeJobs := deliver sigs jobs; pending := rest |}))
  /\ (forall (i : nat) (email : string) (next : Task unit) (jobs : Registry),
        isPaused jobs jobId = true ->
        iteration socketId data activeProfile upstream i email next
          {| activeJobs := jobs; pending := [] |}
        = (None, {| activeJobs := jobs; pending := [] |}, [Wait pauseTimer]))
  /\ (forall m : Machine,
        setup profiles data = inr activeProfile ->
        createsWhile (startable (BulkData.delay data)) jobId
          (startJob socketId (BulkData.selectedProfileName data) (activeJobs m))
          (snd (startBulkCreate socketId profiles upstream data m)) = true)
  /\ (BulkData.delay data <= 0 ->
      forall m : Machine,
        setup profiles data = inr activeProfile ->
        createsWhile notPaused jobId
          (startJob socketId (BulkData.selectedProfileName data) (activeJobs m))
          (snd (startBulkCreate socketId profiles upstream data m)) = true).
Proof.
  intros jobId. split; [|split; [|split]].
  - intros i email next jobs sigs rest Hp Hc.
    rewrite !iteration_run. cbv zeta. fold jobId. cbn [activeJobs].
    rewrite (paused_not_cancelled _ _ Hp), Hc.
    unfold whilePaused. cbn [pending activeJobs pausePoll]. rewrite Hp.
    destruct (pausePoll jobId rest (deliver sigs jobs)) as [[[[]|] m1] h1].
    + rewrite after_after. reflexivity.
    + reflexivity.
  - intros i email next jobs Hp. rewrite iteration_run. cbv zeta. fold jobId.
    cbn [activeJobs]. rewrite (paused_not_cancelled _ _ Hp).
    unfold whilePaused. cbn [pending activeJobs pausePoll]. now rewrite Hp.
  - intros m Hsetup. now apply (startBulkCreate_starts _ _ _ _ activeProfile).
  - intros Hd m Hsetup.
    apply (createsWhile_weaken (startable (BulkData.delay data))).
    + intros [[]|]; simpl; try discriminate; auto.
      destruct (0 <? BulkData.delay data) eqn:E; [lia|discriminate].
    + now apply (startBulkCreate_starts _ _ _ _ activeProfile).
Qed.

Lemma C5_pause_is_seen_at_loop_entry_witness :
  iteration "s1" (batch ["a@x.com"; "b@x.com"] 1 false) acme helpdesk 1
            "b@x.com" (ret tt)
            {| activeJobs := pauseJob "s1" "acme" (startJob "s1" "acme" ∅);
               pending := [[Resume "s1" "acme"]] |}
  = after (Wait pauseTimer :: map Handled [Resume "s1" "acme"])
      (iteration "s1" (batch ["a@x.com"; "b@x.com"] 1 false) acme helpdesk 1
                 "b@x.com" (ret tt)
                 {| activeJobs :=
                      deliver [Resume "s1" "acme"]
                        (pauseJob "s1" "acme" (startJob "s1" "acme" ∅));
                    pending := [] |}).
Proof.
  exact (proj1 (C5_pause_is_seen_at_loop_entry "s1" [acme] helpdesk
                  (batch ["a@x.com"; "b@x.com"] 1 false) acme)
               1%nat "b@x.com" (ret tt)
               (pauseJob "s1" "acme" (startJob "s1" "acme" ∅))
               [Resume "s1" "acme"] [] eq_refl eq_refl).
Defined.

(** C5 as stated fails: with a delay of 1 second, a pause that arrives
    during the first period of the delay before the second recipient does
    not keep that recipient from starting; its create-ticket call, the
    action at position 14 of the history, is issued while the status is
    [paused]. *)
Lemma C5_recipient_starts_while_paused :
  let run := startBulkCreate "s1" [acme] helpdesk
               (batch ["a@x.com"; "b@x.com"] 1 false)
               (idle [[]; [Pause "s1" "acme"]]) in
  nth_error (snd run) 14
  = Some (Call (createRequest (batch ["a@x.com"; "b@x.com"] 1 false) acme
                              "b@x.com"))
  /\ handled (firstn 14 (snd run)) = [Pause "s1" "acme"]
  /\ statusOf (replay (firstn 14 (snd run)) (startJob "s1" "acme" ∅))
              (createJobId "s1" "acme") = Some paused
  /\ createsWhile notPaused (createJobId "s1" "acme") (startJob "s1" "acme" ∅)
                  (snd run) = false
  /\ map TicketResult.email (results (snd run)) = ["a@x.com"; "b@x.com"].
Proof. vm_compute. repeat split. Qed.

(* ===================================================================== *)
(** ** Idempotence *)
(* ===================================================================== *)

(** C9: a second [endJob] for the same job leaves the registry as the
    first left it; [pauseJob], [resumeJob] and [endJob] for a job that is
    not in the registry leave the registry as it is (the handlers are
    total: none raises); and however many [endJob] messages arrive during
    a batch, its handler emits one terminal event at most. *)
Theorem C9_end_twice_and_absent_jobs (socketId profileName : string)
    (r : Registry) :
  endJob socketId profileName (endJob socketId profileName r)
    = endJob socketId profileName r
  /\ (r !! createJobId socketId profileName = None ->
      pauseJob socketId profileName r = r
      /\ resumeJob socketId profileName r = r
      /\ endJob socketId profileName r = r)
  /\ (forall (profiles : list Profile.t) (upstream : Upstream.t)
             (data : BulkData.t) (activeProfile : Profile.t) (m : Machine),
        setup profiles data = inr activeProfile ->
        (length (terminals
                   (snd (startBulkCreate socketId profiles upstream data m)))
         <= 1)%nat).
Proof.
  split; [apply setStatus_twice|]. split.
  - intros Hnone. unfold pauseJob, resumeJob, endJob.
    now rewrite !setStatus_absent.
  - intros profiles upstream data activeProfile m Hsetup.
    now apply (one_terminal_at_most _ _ _ _ _ activeProfile).
Qed.

Lemma C9_end_twice_and_absent_jobs_witness :
  endJob "s1" "acme" (endJob "s1" "acme" (startJob "s1" "acme" ∅))
    = endJob "s1" "acme" (startJob "s1" "acme" ∅)
  /\ (pauseJob "s2" "acme" (startJob "s1" "acme" ∅) = startJob "s1" "acme" ∅
      /\ resumeJob "s2" "acme" (startJob "s1" "acme" ∅) = startJob "s1" "acme" ∅
      /\ endJob "s2" "acme" (startJob "s1" "acme" ∅) = startJob "s1" "acme" ∅)
  /\ (length (terminals
                (snd (startBulkCreate "s1" [acme] helpdesk
                        (batch ["a@x.com"; "b@x.com"] 0 false)
                        (idle [[End "s1" "acme"; End "s1" "acme"]]))))
      <= 1)%nat.
Proof.
  split; [|split].
  - exact (proj1 (C9_end_twice_and_absent_jobs "s1" "acme"
                    (startJob "s1" "acme" ∅))).
  - exact (proj1 (proj2 (C9_end_twice_and_absent_jobs "s2" "acme"
                           (startJob "s1" "acme" ∅))) eq_refl).
  - exact (proj2 (proj2 (C9_end_twice_and_absent_jobs "s1" "acme" ∅))
                 [acme] helpdesk (batch ["a@x.com"; "b@x.com"] 0 false) acme
                 (idle [[End "s1" "acme"; End "s1" "acme"]]) eq_refl).
Defined.

(* ===================================================================== *)
(** ** Error messages *)
(* ===================================================================== *)

Lemma parseError_truthy (error : JsError.t) :
  truthy (ParsedError.message (parseError error)) = true.
Proof.
  unfold parseError.
  destruct (JsError.response error) as [response|].
  - destruct (truthy (Response.data response)
              && truthy (prop (Response.data response) "message")) eqn:E.
    + apply andb_prop in E. apply E.
    + destruct (isString (Response.data response)
                && includes "<title>" (toStr (Response.data response)));
        reflexivity.
  - destruct (JsError.request error); [reflexivity|].
    cbn [ParsedError.message truthy]. unfold truthyStr.
    destruct (String.eqb (JsError.message error) "") eqn:E; [reflexivity|].
    cbn [negb]. now rewrite E.
Qed.

(** X1: whatever the error, the message [parseError] extracts is truthy: a
    handler that reports [message] never reports an empty or missing text.
    It is a text unless the response's own [message] is truthy and not one. *)
Theorem parseError_message_is_truthy (error : JsError.t) :
  truthy (ParsedError.message (parseError error)) = true
  /\ ((forall response, JsError.response error = Some response ->
        isString (prop (Response.data response) "message") = true
        \/ truthy (prop (Response.data response) "message") = false) ->
      isString (ParsedError.message (parseError error)) = true).
Proof.
  split; [apply parseError_truthy|].
  unfold parseError.
  destruct (JsError.response error) as [response|].
  - intros H. destruct (H response eq_refl) as [Hs|Hf].
    + destruct (truthy (Response.data response)
                && truthy (prop (Response.data response) "message"));
        [exact Hs|].
      destruct (isString (Response.data response)
                && includes "<title>" (toStr (Response.data response)));
        reflexivity.
    + rewrite Hf, andb_false_r.
      destruct (isString (Response.data response)
                && includes "<title>" (toStr (Response.data response)));
        reflexivity.
  - intros _. destruct (JsError.request error); reflexivity.
Qed.

Lemma parseError_message_is_truthy_witness :
  truthy (ParsedError.message (parseError replyRefused)) = true
  /\ isString (ParsedError.message (parseError replyRefused)) = true.
Proof.
  split.
  - apply (proj1 (parseError_message_is_truthy replyRefused)).
  - apply (proj2 (parseError_message_is_truthy replyRefused)).
    intros response [= <-]. left. reflexivity.
Defined.

(** Where a pattern can start matching inside [a ++ b]: inside [a], or so
    late that [a] ends before the pattern does. *)
Lemma prefix_app_split (p a b : string) :
  String.prefix p (a +:+ b) = true ->
  String.prefix p a = true
  \/ ((String.length a < String.length p)%nat
      /\ String.prefix (dropChars (String.length a) p) b = true).
Proof.
  revert p. induction a as [|c a IH]; intros p H.
  - destruct p as [|d p]; [left; reflexivity|].
    right. split; [simpl; lia|exact H].
  - destruct p as [|d p]; [left; reflexivity|].
    change (String c a +:+ b) with (String c (a +:+ b)) in H.
    cbn [String.prefix] in H |- *.
    destruct (ascii_dec d c) as [_|_]; [|discriminate].
    destruct (IH p H) as [Hl|[Hlen Hr]]; [left; exact Hl|].
    right. split; [simpl; lia|exact Hr].
Qed.

Lemma includes_prefix (sub s : string) :
  includes sub s = false -> String.prefix sub s = false.
Proof.
  destruct s; simpl; intros H; apply orb_false_elim in H; apply H.
Qed.

Lemma includes_tail (sub : string) (c : ascii) (s : string) :
  includes sub (String c s) = false -> includes sub s = false.
Proof.
  cbn [includes]. intros H. apply orb_false_elim in H. apply H.
Qed.

(** The closing tag does not overlap itself: it starts at no position of
    a text without it that is followed by it, other than the end. *)
Lemma close_tag_not_early (c : ascii) (t post : string) :
  includes "</title>" (String c t) = false ->
  String.prefix "</title>" (String c t +:+ "</title>" +:+ post) = false.
Proof.
  intros H. apply includes_prefix in H.
  destruct (String.prefix "</title>" (String c t +:+ "</title>" +:+ post))
    eqn:E; [|reflexivity].
  apply prefix_app_split in E. destruct E as [E|[Hlen E]]; [congruence|].
  exfalso. remember (String.length (String c t)) as k eqn:Hk.
  assert (Hpos : (1 <= k)%nat) by (subst k; simpl; lia).
  clear Hk H. simpl in Hlen.
  do 8 (destruct k as [|k]; [try lia; simpl in E; discriminate|]).
  lia.
Qed.

Lemma open_tag_not_early (c : ascii) (pre rest : string) :
  includes "<title>" (String c pre) = false ->
  String.prefix "<title>" (String c pre +:+ "<title>" +:+ rest) = false.
Proof.
  intros H. apply includes_prefix in H.
  destruct (String.prefix "<title>" (String c pre +:+ "<title>" +:+ rest))
    eqn:E; [|reflexivity].
  apply prefix_app_split in E. destruct E as [E|[Hlen E]]; [congruence|].
  exfalso. remember (String.length (String c pre)) as k eqn:Hk.
  assert (Hpos : (1 <= k)%nat) by (subst k; simpl; lia).
  clear Hk H. simpl in Hlen.
  do 7 (destruct k as [|k]; [try lia; simpl in E; discriminate|]).
  lia.
Qed.

Lemma prefix_app_self (p s : string) : String.prefix p (p +:+ s) = true.
Proof.
  induction p as [|d p IH]; [now destruct s|].
  change (String d p +:+ s) with (String d (p +:+ s)).
  cbn [String.prefix]. destruct (ascii_dec d d); [exact IH|congruence].
Qed.

Lemma lazyUntilClose_here (s : string) :
  String.prefix "</title>" s = true -> lazyUntilClose s = Some "".
Proof. intros H. destruct s; cbn [lazyUntilClose]; now rewrite H. Qed.

Lemma matchTitle_here (s t : string) :
  String.prefix "<title>" s = true ->
  lazyUntilClose (dropChars 7 s) = Some t ->
  matchTitle s = Some t.
Proof. intros H1 H2. destruct s; cbn [matchTitle]; now rewrite H1, H2. Qed.

Lemma lazyUntilClose_found (t post : string) :
  includes "</title>" t = false ->
  noLineBreak t = true ->
  lazyUntilClose (t +:+ "</title>" +:+ post) = Some t.
Proof.
  induction t as [|c t IH]; intros Hno Hline.
  - change ("" +:+ "</title>" +:+ post) with ("</title>" +:+ post).
    apply lazyUntilClose_here, prefix_app_self.
  - pose proof (close_tag_not_early c t post Hno) as Hp.
    change (String c t +:+ "</title>" +:+ post)
      with (String c (t +:+ "</title>" +:+ post)) in *.
    cbn [lazyUntilClose]. rewrite Hp.
    cbn [noLineBreak] in Hline. apply andb_prop in Hline.
    destruct Hline as [Hc Hline]. apply negb_true_iff in Hc. rewrite Hc.
    rewrite IH; [reflexivity| |exact Hline].
    eapply includes_tail, Hno.
Qed.

Lemma matchTitle_found (pre t post : string) :
  includes "<title>" pre = false ->
  includes "</title>" t = false ->
  noLineBreak t = true ->
  matchTitle (pre +:+ "<title>" +:+ t +:+ "</title>" +:+ post) = Some t.
Proof.
  intros Hpre Ht Hline. induction pre as [|c pre IH].
  - change ("" +:+ "<title>" +:+ t +:+ "</title>" +:+ post)
      with ("<title>" +:+ t +:+ "</title>" +:+ post).
    apply matchTitle_here; [apply prefix_app_self|].
    change (dropChars 7 ("<title>" +:+ t +:+ "</title>" +:+ post))
      with (t +:+ "</title>" +:+ post).
    now apply lazyUntilClose_found.
  - pose proof (open_tag_not_early c pre (t +:+ "</title>" +:+ post) Hpre)
      as Hp.
    change (String c pre +:+ "<title>" +:+ t +:+ "</title>" +:+ post)
      with (String c (pre +:+ "<title>" +:+ t +:+ "</title>" +:+ post)) in *.
    cbn [matchTitle]. rewrite Hp. apply IH. eapply includes_tail, Hpre.
Qed.

Lemma includes_found (sub pre s : string) :
  includes sub (pre +:+ sub +:+ s) = true.
Proof.
  induction pre as [|c pre IH].
  - change ("" +:+ sub +:+ s) with (sub +:+ s).
    pose proof (prefix_app_self sub s) as H.
    destruct (sub +:+ s); cbn [includes]; now rewrite H.
  - change (String c pre +:+ sub +:+ s) with (String c (pre +:+ sub +:+ s)).
    cbn [includes]. rewrite IH. apply orb_true_r.
Qed.

(** X2: an HTML error page: when the body of the error response is a text
    with a [<title>] element, the message is the text of the first such
    element.  The element's text holds no line break and no closing tag, and
    no [<title>] precedes it. *)
Theorem parseError_reads_the_page_title (pre t post : string)
    (status : Z) (statusText message stack : string) (request : bool) :
  includes "<title>" pre = false ->
  includes "</title>" t = false ->
  noLineBreak t = true ->
  let page := pre +:+ "<title>" +:+ t +:+ "</title>" +:+ post in
  parseError {| JsError.response :=
                  Some {| Response.data := VStr page;
                          Response.status := status;
                          Response.statusText := statusText |};
                JsError.request := request;
                JsError.message := message;
                JsError.stack := stack |}
  = {| ParsedError.message := VStr ("Zoho Server Error: " +:+ t);
       ParsedError.fullResponse := VStr page |}.
Proof.
  intros Hpre Ht Hline page. unfold parseError.
  cbn [JsError.response Response.data prop isString toStr].
  replace (truthy (VStr page) && truthy VUndefined) with false
    by (cbn [truthy]; now rewrite andb_false_r).
  cbn [andb]. unfold page at 1. rewrite includes_found.
  unfold page at 1. rewrite matchTitle_found by assumption. reflexivity.
Qed.

Lemma parseError_reads_the_page_title_witness :
  parseError {| JsError.response :=
                  Some {| Response.data :=
                            VStr ("<html><head>" +:+ "<title>"
                                  +:+ "502 Bad Gateway" +:+ "</title>"
                                  +:+ "</head></html>");
                          Response.status := 502;
                          Response.statusText := "Bad Gateway" |};
                JsError.request := true;
                JsError.message := "Request failed with status code 502";
                JsError.stack := "AxiosError" |}
  = {| ParsedError.message := VStr ("Zoho Server Error: " +:+ "502 Bad Gateway");
       ParsedError.fullResponse :=
         VStr ("<html><head>" +:+ "<title>" +:+ "502 Bad Gateway"
               +:+ "</title>" +:+ "</head></html>") |}.
Proof.
  apply (parseError_reads_the_page_title "<html><head>" "502 Bad Gateway"
           "</head></html>" 502 "Bad Gateway"
           "Request failed with status code 502" "AxiosError" true);
    reflexivity.
Defined.

(* ===================================================================== *)
(** ** Blank entries *)
(* ===================================================================== *)

Lemma trimStart_allBlank (s : string) : allBlank (trimStart s) = allBlank s.
Proof.
  induction s as [|c s IH]; [reflexivity|].
  cbn [trimStart allBlank]. destruct (isWhiteSpace c) eqn:E.
  - exact IH.
  - cbn [allBlank]. now rewrite E.
Qed.

Lemma trimEnd_empty (s : string) :
  String.eqb (trimEnd s) "" = allBlank s.
Proof.
  induction s as [|c s IH]; [reflexivity|].
  cbn [trimEnd allBlank]. destruct (trimEnd s) as [|d t].
  - rewrite <- IH. cbn. destruct (isWhiteSpace c); reflexivity.
  - rewrite <- IH. cbn. now rewrite andb_false_r.
Qed.

Lemma trim_empty (s : string) : String.eqb (trim s) "" = allBlank s.
Proof. unfold trim. now rewrite trimEnd_empty, trimStart_allBlank. Qed.

(** X3: the loop skips an entry whose every code unit is one of 9 to 13, 32
    and 160, the white space that [trim] strips among code units below 256
    (the empty entry included), and it processes an entry that holds any
    other code unit below 256.  An entry with a code unit from 256 on,
    where [trim] strips further white space, is not a string of this
    development. *)
Theorem blank_entries_are_the_white_space_ones (data : BulkData.t)
    (activeProfile : Profile.t) (upstream : Upstream.t) (i : nat)
    (email : string) (next : Task unit) :
  loopBody data activeProfile upstream i email next
  = if allBlank email then next
    else (processRecipient data activeProfile upstream i email ;; next).
Proof. unfold loopBody. now rewrite trim_empty. Qed.

(* ===================================================================== *)
(** ** Jobs of one connection *)
(* ===================================================================== *)

Lemma append_inj_l (a b c : string) : a +:+ b = a +:+ c -> b = c.
Proof.
  induction a as [|x a IH]; intros H; [exact H|].
  change (String x a +:+ b) with (String x (a +:+ b)) in H.
  change (String x a +:+ c) with (String x (a +:+ c)) in H.
  injection H as H. now apply IH.
Qed.

Lemma createJobId_inj (socketId p p' : string) :
  createJobId socketId p = createJobId socketId p' -> p = p'.
Proof.
  unfold createJobId. intros H. apply append_inj_l in H.
  now apply (append_inj_l "_") in H.
Qed.

(** X4: two profiles of one connection never share a registry entry:
    starting, pausing, resuming, ending or finishing the job of one profile
    leaves the entry of the other as it was. *)
Theorem jobs_of_two_profiles_are_independent (socketId p p' : string)
    (r : Registry) :
  p <> p' ->
  let j := createJobId socketId p' in
  startJob socketId p r !! j = r !! j
  /\ pauseJob socketId p r !! j = r !! j
  /\ resumeJob socketId p r !! j = r !! j
  /\ endJob socketId p r !! j = r !! j
  /\ removeJob (createJobId socketId p) r !! j = r !! j.
Proof.
  intros Hne j.
  assert (Hj : createJobId socketId p <> j).
  { intros H. apply Hne. now apply createJobId_inj in H. }
  unfold pauseJob, resumeJob, endJob, startJob, removeJob. cbv zeta.
  rewrite !setStatus_other by exact Hj.
  rewrite lookup_insert_ne by exact Hj.
  rewrite lookup_delete_ne by exact Hj. auto.
Qed.

Lemma jobs_of_two_profiles_are_independent_witness :
  let r := endJob "s1" "beta" (startJob "s1" "beta" ∅) in
  let j := createJobId "s1" "beta" in
  startJob "s1" "acme" r !! j = r !! j
  /\ pauseJob "s1" "acme" r !! j = r !! j
  /\ resumeJob "s1" "acme" r !! j = r !! j
  /\ endJob "s1" "acme" r !! j = r !! j
  /\ removeJob (createJobId "s1" "acme") r !! j = r !! j.
Proof.
  cbv zeta.
  apply (jobs_of_two_profiles_are_independent "s1" "acme" "beta").
  discriminate.
Defined.

Lemma prefix_createJobId (socketId profileName : string) :
  String.prefix socketId (createJobId socketId profileName) = true.
Proof. apply prefix_app_self. Qed.

(** X5: closing a connection deletes every job the connection started,
    whatever its status, and no job whose identifier does not start with the
    socket's id; a pause, resume or end that still arrives for the closed
    connection changes nothing. *)
Theorem disconnect_removes_the_jobs_of_the_connection (socketId : string)
    (r : Registry) :
  (forall profileName,
     disconnect socketId r !! createJobId socketId profileName = None)
  /\ (forall j, String.prefix socketId j = false ->
                disconnect socketId r !! j = r !! j)
  /\ (forall profileName,
        pauseJob socketId profileName (disconnect socketId r)
        = disconnect socketId r
        /\ resumeJob socketId profileName (disconnect socketId r)
           = disconnect socketId r
        /\ endJob socketId profileName (disconnect socketId r)
           = disconnect socketId r).
Proof.
  assert (Hgone : forall profileName,
            disconnect socketId r !! createJobId socketId profileName = None).
  { intros p. now rewrite disconnect_lookup, prefix_createJobId. }
  split; [exact Hgone|]. split.
  - intros j Hj. now rewrite disconnect_lookup, Hj.
  - intros p. unfold pauseJob, resumeJob, endJob. cbv zeta.
    rewrite !setStatus_absent by apply Hgone. auto.
Qed.

(* ===================================================================== *)
(** ** More about a batch *)
(* ===================================================================== *)

(** X6: a batch with no recipient: the handler suspends nowhere, issues no
    call, emits [bulkComplete] and nothing else, and leaves the registry
    without the entry; no message has been consumed. *)
Theorem empty_batch_completes_at_once (socketId : string)
    (profiles : list Profile.t) (upstream : Upstream.t) (data : BulkData.t)
    (activeProfile : Profile.t) (m : Machine) :
  setup profiles data = inr activeProfile ->
  BulkData.emails data = [] ->
  startBulkCreate socketId profiles upstream data m
  = (Some tt,
     {| activeJobs :=
          delete (createJobId socketId (BulkData.selectedProfileName data))
                 (activeJobs m);
        pending := pending m |},
     [Emit (bulkComplete (BulkData.selectedProfileName data))]).
Proof.
  intros Hsetup Hemails. rewrite startBulkCreate_run. cbv zeta.
  rewrite Hsetup, Hemails. cbn [forLoop]. unfold ret at 1. cbv iota beta.
  rewrite after_nil, finish_run. cbn [activeJobs pending].
  unfold startJob, removeJob. cbv zeta. rewrite lookup_insert_eq.
  cbn [status]. now rewrite delete_insert_eq.
Qed.

Lemma empty_batch_completes_at_once_witness :
  startBulkCreate "s1" [acme] helpdesk (batch [] 5 true)
    (idle [[End "s1" "acme"]])
  = (Some tt,
     {| activeJobs :=
          delete (createJobId "s1" "acme") (activeJobs (idle [[End "s1" "acme"]]));
        pending := [[End "s1" "acme"]] |},
     [Emit (bulkComplete "acme")]).
Proof.
  apply (empty_batch_completes_at_once "s1" [acme] helpdesk (batch [] 5 true)
           acme (idle [[End "s1" "acme"]])); reflexivity.
Defined.

Lemma arrive_quiet (m : Machine) :
  Forall (fun a => quiet a = true) (snd (arrive m)).
Proof.
  unfold arrive. destruct (pending m) as [|sigs rest]; [constructor|].
  cbn [snd]. induction sigs; constructor; auto.
Qed.

Lemma pausePoll_quiet (jobId : string) (sched : list (list Signal)) :
  forall jobs : Registry,
    Forall (fun a => quiet a = true) (snd (pausePoll jobId sched jobs)).
Proof.
  induction sched as [|sigs rest IH]; intros jobs; cbn [pausePoll];
    destruct (isPaused jobs jobId); cbn [snd]; try (repeat constructor).
  specialize (IH (deliver sigs jobs)).
  destruct (pausePoll jobId rest (deliver sigs jobs)) as [[v m'] h].
  cbn [snd] in *. constructor; [reflexivity|]. apply Forall_app. split; [|exact IH].
  clear. induction sigs; constructor; auto.
Qed.

Lemma sleepPoll_quiet (ms elapsed : Z) (jobId : string) (m : Machine) :
  Forall (fun a => quiet a = true) (snd (sleepPoll ms elapsed jobId m)).
Proof.
  assert (H : forall n ms elapsed m, ms - elapsed <= 100 * Z.of_nat n ->
            Forall (fun a => quiet a = true)
                   (snd (sleepPoll ms elapsed jobId m))).
  { clear. induction n as [|n IH]; intros ms elapsed m Hn;
      rewrite sleepPoll_step; cbv zeta;
      destruct (cancelled (activeJobs (fst (arrive m))) jobId);
      [| destruct (elapsed + 100 <? ms) eqn:E; [lia|] |
       | destruct (elapsed + 100 <? ms) eqn:E ];
      cbn [fst snd]; (constructor; [reflexivity|]);
      try apply arrive_quiet.
    apply Forall_app. split; [apply arrive_quiet|]. apply IH. lia. }
  apply (H (Z.to_nat (ms - elapsed))). lia.
Qed.

(** What every stretch of the loop inherits from its pieces: a property
    of histories that holds of the empty history, of a suspension, and of
    one processed recipient, and that concatenation keeps. *)
Lemma forLoop_history (socketId : string) (data : BulkData.t)
    (activeProfile : Profile.t) (upstream : Upstream.t)
    (P : list Action -> Prop) :
  P [] ->
  (forall h1 h2, P h1 -> P h2 -> P (h1 ++ h2)) ->
  (forall h, Forall (fun a => quiet a = true) h -> P h) ->
  (forall i email m,
     P (snd (processRecipient data activeProfile upstream i email m))) ->
  forall (emails : list string) (i : nat) (m : Machine),
    P (snd (forLoop socketId data activeProfile upstream i emails m)).
Proof.
  intros Hnil Happ Hquiet Hrec.
  induction emails as [|email rest IH]; intros i m; [exact Hnil|].
  cbn [forLoop]. rewrite iteration_run. cbv zeta.
  set (jobId := createJobId socketId (BulkData.selectedProfileName data)).
  destruct (cancelled (activeJobs m) jobId); [exact Hnil|].
  assert (H1 : P (snd (whilePaused jobId m))).
  { apply Hquiet. unfold whilePaused. apply pausePoll_quiet. }
  destruct (whilePaused jobId m) as [[[[]|] m1] h1]; cbn [snd] in *;
    [|exact H1].
  assert (H2 : forall t : option unit * Machine * list Action,
             P (snd t) -> P (snd (after h1 t))).
  { intros [[v m'] h'] H. cbn [after snd] in *. now apply Happ. }
  apply H2.
  assert (H3 : exists m2 h2,
             (if (0 <? i)%nat && (0 <? BulkData.delay data)
              then interruptibleSleep (BulkData.delay data * 1000) jobId m1
              else (Some tt, m1, [])) = (Some tt, m2, h2)
             /\ Forall (fun a => quiet a = true) h2).
  { destruct ((0 <? i)%nat && (0 <? BulkData.delay data)).
    - rewrite interruptibleSleep_run.
      destruct (BulkData.delay data * 1000 <=? 0);
        do 2 eexists; (split; [reflexivity|]); [constructor|].
      apply sleepPoll_quiet.
    - do 2 eexists. split; [reflexivity|constructor]. }
  destruct H3 as (m2 & h2 & -> & Hq2).
  assert (H4 : forall t : option unit * Machine * list Action,
             P (snd t) -> P (snd (after h2 t))).
  { intros [[v m'] h'] H. cbn [after snd] in *. apply Happ; auto. }
  apply H4.
  destruct (cancelled (activeJobs m2) jobId); [exact Hnil|].
  rewrite loopBody_run.
  destruct (String.eqb (trim email) ""); [apply IH|].
  specialize (Hrec i email m2).
  destruct (processRecipient data activeProfile upstream i email m2)
    as [[[[]|] m3] h3]; cbn [snd] in *; [|exact Hrec].
  specialize (IH (S i) m3).
  destruct (forLoop socketId data activeProfile upstream (S i) rest m3)
    as [[v4 m4] h4]. cbn [after snd] in *. now apply Happ.
Qed.

(** The same for the handler as a whole, whose history ends with the events
    of the [catch] and the [finally]. *)
Lemma startBulkCreate_history (socketId : string) (profiles : list Profile.t)
    (upstream : Upstream.t) (data : BulkData.t) (P : list Action -> Prop) :
  P [] ->
  (forall h1 h2, P h1 -> P h2 -> P (h1 ++ h2)) ->
  (forall h, Forall (fun a => quiet a = true) h -> P h) ->
  (forall activeProfile i email m,
     P (snd (processRecipient data activeProfile upstream i email m))) ->
  (forall ev, terminals [Emit ev] <> [] -> P [Emit ev]) ->
  forall m : Machine, P (snd (startBulkCreate socketId profiles upstream data m)).
Proof.
  intros Hnil Happ Hquiet Hrec Hterm m.
  rewrite startBulkCreate_run. cbv zeta.
  assert (Hfin : forall m1, P (snd (finish
             (createJobId socketId (BulkData.selectedProfileName data))
             (BulkData.selectedProfileName data) m1))).
  { intros m1. rewrite finish_run.
    destruct (activeJobs m1 !! _) as [job|]; cbn [snd]; [|exact Hnil].
    apply Hterm. destruct (status job); discriminate. }
  assert (Hafter : forall h (t : option unit * Machine * list Action),
             P h -> P (snd t) -> P (snd (after h t))).
  { intros h [[v m'] h'] H1 H2. cbn [after snd] in *. now apply Happ. }
  destruct (setup profiles data) as [message|activeProfile].
  - apply Hafter; [|apply Hfin]. apply Hterm. discriminate.
  - set (m0 := {| activeJobs := _; pending := _ |}).
    pose proof (forLoop_history socketId data activeProfile upstream P
                  Hnil Happ Hquiet (Hrec activeProfile)
                  (BulkData.emails data) 0%nat m0) as Hloop.
    destruct (forLoop socketId data activeProfile upstream 0
                (BulkData.emails data) m0) as [[[[]|] m1] h1];
      cbn [snd] in Hloop; [|exact Hloop].
    apply Hafter; [exact Hloop|apply Hfin].
Qed.

Lemma logged_app (h1 h2 : list Action) :
  logged (h1 ++ h2) = logged h1 ++ logged h2.
Proof.
  induction h1 as [|a h1 IH]; [reflexivity|].
  destruct a; cbn [logged app]; try exact IH. now rewrite IH.
Qed.

Lemma verifying_app (h1 h2 : list Action) :
  verifying (h1 ++ h2) = verifying h1 ++ verifying h2.
Proof.
  induction h1 as [|a h1 IH]; [reflexivity|].
  destruct a; cbn [verifying app]; try exact IH. now rewrite IH.
Qed.

Lemma reported_app (r1 r2 : list TicketResult.t) :
  reported (r1 ++ r2) = reported r1 ++ reported r2.
Proof.
  induction r1 as [|r r1 IH]; cbn [reported app]; [reflexivity|].
  destruct (TicketResult.ticketNumber r); now rewrite IH.
Qed.

Lemma quiet_logged (h : list Action) :
  Forall (fun a => quiet a = true) h ->
  logged h = [] /\ verifying h = [] /\ results h = [].
Proof.
  induction 1 as [|a h Ha Hq IH]; [auto|].
  destruct a; try discriminate; exact IH.
Qed.

Lemma arrive_logged (m : Machine) :
  logged (snd (arrive m)) = [] /\ verifying (snd (arrive m)) = []
  /\ results (snd (arrive m)) = [].
Proof. apply quiet_logged, arrive_quiet. Qed.

(** The bookkeeping of one recipient. *)
Lemma processRecipient_books (data : BulkData.t) (activeProfile : Profile.t)
    (upstream : Upstream.t) (i : nat) (email : string) (m : Machine) :
  let h := snd (processRecipient data activeProfile upstream i email m) in
  logged h = reported (results h)
  /\ map (fun ticket => field ticket "ticketNumber") (verifying h)
     = if BulkData.verifyEmail data then map fst (logged h) else [].
Proof.
  cbv zeta.
  remember (processRecipient data activeProfile upstream i email m) as run
    eqn:Hrun.
  unfold processRecipient in Hrun. rewrite bind_run, awaitCall_run in Hrun.
  destruct (arrive_logged m) as (Hl0 & Hv0 & Hr0).
  destruct (Upstream.create upstream i) as [newTicket|error].
  - rewrite bind_run in Hrun. unfold act at 1 in Hrun. cbv iota beta in Hrun.
    rewrite bind_run in Hrun.
    assert (Hreply : exists out m1 h1,
              sendReply data activeProfile upstream i newTicket email
                        (fst (arrive m)) = (Some out, m1, h1)
              /\ logged h1 = [] /\ verifying h1 = [] /\ results h1 = []).
    { unfold sendReply. destruct (BulkData.sendDirectReply data).
      - rewrite bind_run, awaitCall_run.
        destruct (arrive_logged (fst (arrive m))) as (Hl1 & Hv1 & Hr1).
        destruct (Upstream.reply upstream i); cbn [after ret];
          do 3 eexists; (split; [reflexivity|]);
          rewrite app_nil_r; cbn [logged verifying results]; auto.
      - do 3 eexists. split; [reflexivity|]. auto. }
    destruct Hreply as ([[overallSuccess successMessage] replyPart]
                        & m1 & h1 & Hreply & Hl1 & Hv1 & Hr1).
    rewrite Hreply in Hrun. cbv iota beta in Hrun.
    rewrite bind_run in Hrun. unfold act at 1 in Hrun. cbv iota beta in Hrun.
    destruct (BulkData.verifyEmail data); cbn [after snd act ret] in Hrun;
      subst run; cbn [snd];
      repeat (rewrite ?logged_app, ?verifying_app, ?results_app;
              cbn [logged verifying results]);
      rewrite ?Hl0, ?Hv0, ?Hr0, ?Hl1, ?Hv1, ?Hr1;
      cbn [logged verifying results app reported map fst
           TicketResult.ticketNumber TicketResult.email]; auto.
  - unfold act in Hrun. cbn [after snd] in Hrun. subst run. cbn [snd].
    repeat (rewrite ?logged_app, ?verifying_app, ?results_app;
            cbn [logged verifying results]).
    rewrite ?Hl0, ?Hv0, ?Hr0.
    cbn [logged verifying results app reported map fst
         TicketResult.ticketNumber TicketResult.email].
    split; [reflexivity|]. now destruct (BulkData.verifyEmail data).
Qed.

(** X7: whatever messages arrive and however the batch ends, the ticket log
    receives one entry for each result that reports a created ticket, with
    that ticket's number and address and in the same order, and nothing
    else; a verification is launched for each of these tickets when
    [verifyEmail] is set, and for none when it is not. *)
Theorem every_created_ticket_is_logged (socketId : string)
    (profiles : list Profile.t) (upstream : Upstream.t) (data : BulkData.t)
    (m : Machine) :
  let h := snd (startBulkCreate socketId profiles upstream data m) in
  logged h = reported (results h)
  /\ map (fun ticket => field ticket "ticketNumber") (verifying h)
     = if BulkData.verifyEmail data then map fst (logged h) else [].
Proof.
  cbv zeta.
  apply (startBulkCreate_history socketId profiles upstream data
           (fun h => logged h = reported (results h)
                     /\ map (fun ticket => field ticket "ticketNumber")
                            (verifying h)
                        = if BulkData.verifyEmail data
                          then map fst (logged h) else [])).
  - split; [reflexivity|]. now destruct (BulkData.verifyEmail data).
  - intros h1 h2 [Hl1 Hv1] [Hl2 Hv2].
    rewrite logged_app, verifying_app, results_app, reported_app, !map_app.
    rewrite Hl1, Hl2, Hv1, Hv2. split; [reflexivity|].
    destruct (BulkData.verifyEmail data); [|reflexivity].
    now rewrite <- Hl1, <- Hl2.
  - intros h Hq. destruct (quiet_logged h Hq) as (-> & -> & ->).
    split; [reflexivity|]. now destruct (BulkData.verifyEmail data).
  - intros activeProfile i email m'. apply processRecipient_books.
  - intros ev Hev.
    destruct ev; try (now elim Hev);
      cbn [logged verifying results reported map];
      (split; [reflexivity|]; now destruct (BulkData.verifyEmail data)).
Qed.

(** The result of one processed recipient: one event, for the recipient's
    address and the selected profile. *)
Lemma processRecipient_result (data : BulkData.t) (activeProfile : Profile.t)
    (upstream : Upstream.t) (i : nat) (email : string) (m : Machine) :
  exists (r : TicketResult.t) (m' : Machine) (h : list Action),
    processRecipient data activeProfile upstream i email m = (Some tt, m', h)
    /\ results h = [r]
    /\ TicketResult.email r = email
    /\ TicketResult.profileName r = BulkData.selectedProfileName data.
Proof.
  remember (processRecipient data activeProfile upstream i email m) as run
    eqn:Hrun.
  unfold processRecipient in Hrun. rewrite bind_run, awaitCall_run in Hrun.
  destruct (arrive_logged m) as (_ & _ & Hr0).
  destruct (Upstream.create upstream i) as [newTicket|error].
  - rewrite bind_run in Hrun. unfold act at 1 in Hrun. cbv iota beta in Hrun.
    rewrite bind_run in Hrun.
    destruct (sendReply_run data activeProfile upstream i newTicket email
                (fst (arrive m))) as (out & m1 & h1 & Hreply & _ & Hin & _).
    apply inert_results in Hin.
    destruct out as [[overallSuccess successMessage] replyPart].
    rewrite Hreply in Hrun. cbv iota beta in Hrun.
    rewrite bind_run in Hrun. unfold act at 1 in Hrun. cbv iota beta in Hrun.
    destruct (BulkData.verifyEmail data); cbn [after snd act ret] in Hrun;
      subst run; do 3 eexists; (split; [reflexivity|]);
      repeat (rewrite ?results_app; cbn [results]);
      rewrite ?Hr0, ?Hin; cbn [app]; (split; [reflexivity|]); split; reflexivity.
  - unfold act in Hrun. cbn [after snd] in Hrun. subst run.
    do 3 eexists. split; [reflexivity|].
    repeat (rewrite ?results_app; cbn [results]). rewrite ?Hr0. cbn [app].
    split; [reflexivity|]. split; reflexivity.
Qed.

Lemma forLoop_results_prefix (socketId : string) (data : BulkData.t)
    (activeProfile : Profile.t) (upstream : Upstream.t)
    (emails : list string) :
  forall (i : nat) (m : Machine),
    map TicketResult.email
        (results (snd (forLoop socketId data activeProfile upstream i emails m)))
    `prefix_of` nonBlank emails.
Proof.
  induction emails as [|email rest IH]; intros i m.
  - apply prefix_nil.
  - cbn [forLoop]. rewrite iteration_run. cbv zeta.
    set (jobId := createJobId socketId (BulkData.selectedProfileName data)).
    destruct (cancelled (activeJobs m) jobId); [apply prefix_nil|].
    destruct (whilePaused_spec jobId m) as (_ & Hin1 & _).
    apply inert_results in Hin1.
    destruct (whilePaused jobId m) as [[[[]|] m1] h1]; cbn [snd] in *.
    2: { rewrite Hin1. apply prefix_nil. }
    destruct (delay_step i (BulkData.delay data) jobId m1)
      as (m2 & h2 & -> & _ & Hin2 & _).
    apply inert_results in Hin2.
    assert (Hskip : forall t : option unit * Machine * list Action,
               results (snd (after h1 (after h2 t))) = results (snd t)).
    { intros [[v m'] h']. cbn [after snd].
      now rewrite !results_app, Hin1, Hin2. }
    rewrite Hskip.
    destruct (cancelled (activeJobs m2) jobId); [apply prefix_nil|].
    rewrite loopBody_run. cbn [nonBlank List.filter].
    destruct (String.eqb (trim email) ""); cbn [negb]; [apply IH|].
    destruct (processRecipient_result data activeProfile upstream i email m2)
      as (r & m3 & h3 & -> & Hres & Hemail & _).
    specialize (IH (S i) m3).
    destruct (forLoop socketId data activeProfile upstream (S i) rest m3)
      as [[v4 m4] h4]. cbn [after snd] in *.
    rewrite results_app, Hres. cbn [app map]. rewrite Hemail.
    now apply prefix_cons.
Qed.

Lemma results_Forall_app (P : TicketResult.t -> Prop) (h1 h2 : list Action) :
  Forall P (results h1) -> Forall P (results h2) ->
  Forall P (results (h1 ++ h2)).
Proof. intros H1 H2. rewrite results_app. now apply Forall_app. Qed.

Lemma startBulkCreate_profileName (socketId : string)
    (profiles : list Profile.t) (upstream : Upstream.t) (data : BulkData.t)
    (m : Machine) :
  Forall (fun r => TicketResult.profileName r
                   = BulkData.selectedProfileName data)
         (results (snd (startBulkCreate socketId profiles upstream data m))).
Proof.
  apply (startBulkCreate_history socketId profiles upstream data
           (fun h => Forall (fun r => TicketResult.profileName r
                               = BulkData.selectedProfileName data)
                            (results h))).
  - constructor.
  - intros h1 h2. apply results_Forall_app.
  - intros h Hq. destruct (quiet_logged h Hq) as (_ & _ & ->). constructor.
  - intros activeProfile i email m'.
    destruct (processRecipient_result data activeProfile upstream i email m')
      as (r & m3 & h3 & -> & Hres & _ & Hname).
    cbn [snd]. rewrite Hres. now repeat constructor.
  - intros ev Hev. destruct ev; try (now elim Hev); constructor.
Qed.

(** X8: whatever messages arrive and however the batch ends: the result
    events are for the first so many of the entries that are not blank, one
    each and in input order, so no entry is reported twice, out of turn, or
    after an entry that was passed over; every create-ticket call has its
    result event; and every result names the selected profile. *)
Theorem results_follow_the_input (socketId : string)
    (profiles : list Profile.t) (upstream : Upstream.t) (data : BulkData.t)
    (m : Machine) :
  let h := snd (startBulkCreate socketId profiles upstream data m) in
  map TicketResult.email (results h) `prefix_of` nonBlank (BulkData.emails data)
  /\ length (creates h) = length (results h)
  /\ Forall (fun r => TicketResult.profileName r
                      = BulkData.selectedProfileName data) (results h).
Proof.
  cbv zeta. split; [|split].
  - rewrite startBulkCreate_run. cbv zeta.
    assert (Hfin : forall m1, results (snd (finish
               (createJobId socketId (BulkData.selectedProfileName data))
               (BulkData.selectedProfileName data) m1)) = []).
    { intros m1. rewrite finish_run.
      destruct (activeJobs m1 !! _) as [job|]; [|reflexivity].
      now destruct (status job). }
    destruct (setup profiles data) as [message|activeProfile].
    + specialize (Hfin {| activeJobs :=
                            startJob socketId (BulkData.selectedProfileName data)
                                     (activeJobs m);
                          pending := pending m |}).
      destruct (finish _ _ _) as [[v m'] h']. cbn [after snd app results] in *.
      rewrite Hfin. apply prefix_nil.
    + set (m0 := {| activeJobs := _; pending := _ |}).
      pose proof (forLoop_results_prefix socketId data activeProfile upstream
                    (BulkData.emails data) 0%nat m0) as Hloop.
      destruct (forLoop socketId data activeProfile upstream 0
                  (BulkData.emails data) m0) as [[[[]|] m1] h1];
        cbn [snd] in Hloop; [|exact Hloop].
      specialize (Hfin m1). destruct (finish _ _ m1) as [[v m'] h'].
      cbn [after snd] in *. now rewrite results_app, Hfin, app_nil_r.
  - apply (startBulkCreate_history socketId profiles upstream data
             (fun h => inFlight false h = Some false
                       /\ length (creates h) = length (results h))).
    + split; reflexivity.
    + intros h1 h2 [Hf1 Hc1] [Hf2 Hc2]. split.
      * rewrite inFlight_app, Hf1. exact Hf2.
      * rewrite creates_app, results_app, !length_app. lia.
    + intros h Hq.
      assert (Hin : Forall (fun a => inert a = true) h).
      { eapply Forall_impl; [exact Hq|]. intros a Ha.
        destruct a; try discriminate; reflexivity. }
      split; [now apply inert_inFlight|].
      now rewrite inert_creates, inert_results.
    + intros activeProfile i email m'.
      destruct (processRecipient_spec data activeProfile upstream i email m')
        as (r & hA & hB & m3 & -> & _ & HinA & HinB & _).
      cbn [snd].
      rewrite results_recipient, creates_recipient by auto. split; [|reflexivity].
      cbn [inFlight isCreateCall createRequest isCreate Request.method
           Request.relativeUrl]. 
      change (String.eqb "post" "post" && String.eqb "/api/v1/tickets"
                "/api/v1/tickets") with true. cbv iota.
      rewrite inFlight_app, inert_inFlight by assumption.
      cbn [inFlight isCreateCall isResult]. now apply inert_inFlight.
    + intros ev Hev.
      destruct ev; try (now elim Hev); split; reflexivity.
  - apply startBulkCreate_profileName.
Qed.

(* ===================================================================== *)
(** ** Calls to the helpdesk *)
(* ===================================================================== *)

(** X9: a call of [getValidAccessToken] that rejects leaves the token cache
    exactly as it was.  Either the refresh request was posted once, and then
    the token endpoint rejected and the same error is thrown on, or it
    answered with a truthy [error] property and an [Error] with that text is
    thrown; or nothing was posted, and then the profile is named like a
    member of [Object.prototype], the cache has no entry for it and the
    error is the [TypeError] of the opening test. *)
Theorem failed_refresh_keeps_the_cache (now : Z) (stack : string)
    (post : TokenRequest.t -> Outcome TokenData.t)
    (profile : Profile.t) (tokenCache : gmap string CacheEntry.t) :
  let name := Profile.profileName profile in
  let res := getValidAccessToken now stack post profile tokenCache in
  forall error,
    TokenResult.result res = Rejected error ->
    TokenResult.tokenCache res = tokenCache
    /\ ((TokenResult.posted res = [refreshParams profile]
         /\ member tokenCache name <> Inherited
         /\ (post (refreshParams profile) = Rejected error
             \/ exists data,
                  post (refreshParams profile) = Resolved data
                  /\ truthy (TokenData.error data) = true
                  /\ JsError.message error = toStr (TokenData.error data)
                  /\ JsError.response error = None))
        \/ (TokenResult.posted res = []
            /\ tokenCache !! name = None
            /\ inherited name = true
            /\ error = undefinedRead "access_token" stack)).
Proof.
  cbv zeta. intros error.
  destruct (getValidAccessToken_cases now stack post profile tokenCache)
    as [(entry & He & Ht & Hlt & Hres)
       |[(Hnone & Hinh & Hres)|(Hnot & Hown & Hres)]]; rewrite Hres.
  - discriminate.
  - cbn. intros [= <-]. split; [reflexivity|]. right. auto.
  - assert (Hmember : member tokenCache (Profile.profileName profile)
                      <> Inherited).
    { intros Hm. apply member_Inherited in Hm as [Hn Hi].
      rewrite (Hown Hn) in Hi. discriminate. }
    unfold refresh.
    destruct (post (refreshParams profile)) as [data|e] eqn:Hpost.
    + destruct (truthy (TokenData.error data)) eqn:Herr; [|discriminate].
      cbn. intros [= <-]. split; [reflexivity|]. left.
      split; [reflexivity|]. split; [exact Hmember|].
      right. exists data. auto.
    + cbn. intros [= <-]. split; [reflexivity|]. left. auto.
Qed.

Lemma failed_refresh_keeps_the_cache_witness :
  TokenResult.tokenCache
    (getValidAccessToken 1000 "" refusingEndpoint acme ∅) = ∅
  /\ ((TokenResult.posted (getValidAccessToken 1000 "" refusingEndpoint acme ∅)
       = [refreshParams acme]
       /\ member (∅ : gmap string CacheEntry.t) "acme" <> Inherited
       /\ (refusingEndpoint (refreshParams acme) = Rejected invalidClient
           \/ exists data,
                refusingEndpoint (refreshParams acme) = Resolved data
                /\ truthy (TokenData.error data) = true
                /\ JsError.message invalidClient = toStr (TokenData.error data)
                /\ JsError.response invalidClient = None))
      \/ (TokenResult.posted
            (getValidAccessToken 1000 "" refusingEndpoint acme ∅) = []
          /\ (∅ : gmap string CacheEntry.t) !! "acme" = None
          /\ inherited "acme" = true
          /\ invalidClient = undefinedRead "access_token" "")).
Proof.
  apply (failed_refresh_keeps_the_cache 1000 "" refusingEndpoint acme ∅
           invalidClient).
  reflexivity.
Defined.

Lemma makeApiCall_token_run (now : Z) (stack : string)
    (post : TokenRequest.t -> Outcome TokenData.t)
    (axios : HttpRequest.t -> Outcome Response.t)
    (req : Request.t) (profile : Profile.t)
    (tokenCache : gmap string CacheEntry.t) :
  ApiResult.tokenCache (makeApiCall now stack post axios req profile tokenCache)
  = TokenResult.tokenCache
      (getValidAccessToken now stack post profile tokenCache)
  /\ ApiResult.posted (makeApiCall now stack post axios req profile tokenCache)
     = TokenResult.posted
         (getValidAccessToken now stack post profile tokenCache).
Proof.
  unfold makeApiCall.
  destruct (TokenResult.result _) as [data|e]; [|split; reflexivity].
  destruct (negb (truthy (TokenData.access_token data))); split; reflexivity.
Qed.

(** X10: [makeApiCall] sends at most one request to the helpdesk, and only
    with a token: the request goes to [https://desk.zoho.com] followed by
    the relative URL, with the profile's organisation and the header
    [Zoho-oauthtoken] followed by a truthy access token, and the call
    settles as that request does.  When it sends nothing, because the token
    could not be had or the token response carries no access token, the call
    rejects. *)
Theorem makeApiCall_sends_only_with_a_token (now : Z) (stack : string)
    (post : TokenRequest.t -> Outcome TokenData.t)
    (axios : HttpRequest.t -> Outcome Response.t)
    (req : Request.t) (profile : Profile.t)
    (tokenCache : gmap string CacheEntry.t) :
  let res := makeApiCall now stack post axios req profile tokenCache in
  (ApiResult.sent res = []
   /\ exists error, ApiResult.result res = Rejected error)
  \/ (exists accessToken : Value,
        truthy accessToken = true
        /\ ApiResult.sent res
           = [{| HttpRequest.method := Request.method req;
                 HttpRequest.url :=
                   "https://desk.zoho.com" +:+ Request.relativeUrl req;
                 HttpRequest.data := Request.data req;
                 HttpRequest.authorization :=
                   "Zoho-oauthtoken " +:+ toStr accessToken;
                 HttpRequest.orgId := Profile.orgId profile |}]
        /\ Forall (fun config => ApiResult.result res = axios config)
                  (ApiResult.sent res)).
Proof.
  cbv zeta. unfold makeApiCall.
  destruct (TokenResult.result _) as [data|e].
  - destruct (truthy (TokenData.access_token data)) eqn:Ht; cbn [negb].
    + right. exists (TokenData.access_token data). cbn.
      split; [exact Ht|]. split; [reflexivity|]. now repeat constructor.
    + left. cbn. eauto.
  - left. cbn. eauto.
Qed.

Lemma makeApiCall_with_token (now : Z) (stack : string)
    (post : TokenRequest.t -> Outcome TokenData.t)
    (axios : HttpRequest.t -> Outcome Response.t)
    (req : Request.t) (profile : Profile.t)
    (tokenCache cache' : gmap string CacheEntry.t) (data : TokenData.t)
    (posted : list TokenRequest.t) :
  getValidAccessToken now stack post profile tokenCache
  = {| TokenResult.result := Resolved data;
       TokenResult.tokenCache := cache';
       TokenResult.posted := posted |} ->
  truthy (TokenData.access_token data) = true ->
  let config :=
    {| HttpRequest.method := Request.method req;
       HttpRequest.url := "https://desk.zoho.com" +:+ Request.relativeUrl req;
       HttpRequest.data := Request.data req;
       HttpRequest.authorization :=
         "Zoho-oauthtoken " +:+ toStr (TokenData.access_token data);
       HttpRequest.orgId := Profile.orgId profile |} in
  makeApiCall now stack post axios req profile tokenCache
  = {| ApiResult.result := axios config;
       ApiResult.tokenCache := cache';
       ApiResult.posted := posted;
       ApiResult.sent := [config] |}.
Proof.
  intros Htoken Htok. unfold makeApiCall. rewrite Htoken.
  cbn [TokenResult.result TokenResult.tokenCache TokenResult.posted].
  now rewrite Htok.
Qed.

Lemma getValidAccessToken_refresh (now : Z) (stack : string)
    (post : TokenRequest.t -> Outcome TokenData.t)
    (profile : Profile.t) (tokenCache : gmap string CacheEntry.t) :
  let name := Profile.profileName profile in
  member tokenCache name <> Inherited ->
  (forall entry,
     tokenCache !! name = Some entry ->
     truthy (TokenData.access_token (CacheEntry.data entry))
     && (now <? CacheEntry.expiresAt entry) = false) ->
  getValidAccessToken now stack post profile tokenCache
  = refresh now stack post profile tokenCache.
Proof.
  cbv zeta. intros Hmember Hstale. unfold getValidAccessToken.
  destruct (member tokenCache (Profile.profileName profile)) as [entry| |]
    eqn:Hm; [|now contradiction Hmember|reflexivity].
  apply member_Own in Hm. now rewrite (Hstale entry Hm).
Qed.

Lemma refresh_granted (now : Z) (stack : string)
    (post : TokenRequest.t -> Outcome TokenData.t)
    (profile : Profile.t) (tokenCache : gmap string CacheEntry.t)
    (data : TokenData.t) :
  let name := Profile.profileName profile in
  member tokenCache name <> Inherited ->
  (forall entry,
     tokenCache !! name = Some entry ->
     truthy (TokenData.access_token (CacheEntry.data entry))
     && (now <? CacheEntry.expiresAt entry) = false) ->
  post (refreshParams profile) = Resolved data ->
  truthy (TokenData.error data) = false ->
  getValidAccessToken now stack post profile tokenCache
  = {| TokenResult.result := Resolved data;
       TokenResult.tokenCache :=
         <[Profile.profileName profile :=
             {| CacheEntry.data := data;
                CacheEntry.expiresAt :=
                  now + (TokenData.expires_in data - 60) * 1000 |}]>
           tokenCache;
       TokenResult.posted := [refreshParams profile] |}.
Proof.
  cbv zeta. intros Hmember Hstale Hpost Herr.
  rewrite getValidAccessToken_refresh by assumption.
  now apply refresh_stores.
Qed.

(** X11: two calls in a row: when the first call has to refresh the token
    (the cache has no entry for the profile that is still good, and the
    profile is not named like a member of [Object.prototype] without an
    entry) and the refresh grants one, a second call for the same profile
    made before [now + (expires_in - 60) * 1000] posts nothing to the token
    endpoint and sends its request under the same [Authorization] header. *)
Theorem second_call_reuses_the_token (now later : Z) (stack stack' : string)
    (post post' : TokenRequest.t -> Outcome TokenData.t)
    (axios axios' : HttpRequest.t -> Outcome Response.t)
    (req req' : Request.t) (profile : Profile.t)
    (tokenCache : gmap string CacheEntry.t) (data : TokenData.t) :
  member tokenCache (Profile.profileName profile) <> Inherited ->
  (forall entry,
     tokenCache !! Profile.profileName profile = Some entry ->
     truthy (TokenData.access_token (CacheEntry.data entry))
     && (now <? CacheEntry.expiresAt entry) = false) ->
  post (refreshParams profile) = Resolved data ->
  truthy (TokenData.error data) = false ->
  truthy (TokenData.access_token data) = true ->
  later < now + (TokenData.expires_in data - 60) * 1000 ->
  let first := makeApiCall now stack post axios req profile tokenCache in
  let second := makeApiCall later stack' post' axios' req' profile
                            (ApiResult.tokenCache first) in
  ApiResult.posted first = [refreshParams profile]
  /\ ApiResult.posted second = []
  /\ map HttpRequest.authorization (ApiResult.sent first)
     = ["Zoho-oauthtoken " +:+ toStr (TokenData.access_token data)]
  /\ map HttpRequest.authorization (ApiResult.sent second)
     = ["Zoho-oauthtoken " +:+ toStr (TokenData.access_token data)]
  /\ ApiResult.tokenCache second = ApiResult.tokenCache first.
Proof.
  intros Hmember Hstale Hpost Herr Htok Hlater first second.
  pose proof (refresh_granted now stack post profile tokenCache data
                Hmember Hstale Hpost Herr) as Hfirst.
  pose proof (makeApiCall_with_token now stack post axios req profile
                tokenCache _ data _ Hfirst Htok) as Hrun1.
  cbv zeta in Hrun1. fold first in Hrun1.
  assert (Hsecond : getValidAccessToken later stack' post' profile
                      (ApiResult.tokenCache first)
            = {| TokenResult.result := Resolved data;
                 TokenResult.tokenCache := ApiResult.tokenCache first;
                 TokenResult.posted := [] |}).
  { rewrite Hrun1. cbn [ApiResult.tokenCache].
    unfold getValidAccessToken. rewrite member_insert.
    cbn [CacheEntry.data CacheEntry.expiresAt]. rewrite Htok.
    destruct (later <? now + (TokenData.expires_in data - 60) * 1000) eqn:E;
      [reflexivity|lia]. }
  pose proof (makeApiCall_with_token later stack' post' axios' req' profile
                _ _ data _ Hsecond Htok) as Hrun2.
  cbv zeta in Hrun2. fold second in Hrun2.
  rewrite Hrun2. cbn [ApiResult.posted ApiResult.sent ApiResult.tokenCache map
                      HttpRequest.authorization].
  rewrite Hrun1. cbn. auto.
Qed.

Lemma second_call_reuses_the_token_witness :
  let first := makeApiCall 1000 "" tokenEndpoint desk
                 {| Request.method := "post";
                    Request.relativeUrl := "/api/v1/tickets";
                    Request.data := VNull |} acme ∅ in
  let second := makeApiCall 3500000 "" emptyGrant desk
                  {| Request.method := "get";
                     Request.relativeUrl := "/api/v1/emailFailureAlerts";
                     Request.data := VNull |} acme
                  (ApiResult.tokenCache first) in
  ApiResult.posted first = [refreshParams acme]
  /\ ApiResult.posted second = []
  /\ map HttpRequest.authorization (ApiResult.sent first)
     = ["Zoho-oauthtoken " +:+ toStr (TokenData.access_token grantedToken)]
  /\ map HttpRequest.authorization (ApiResult.sent second)
     = ["Zoho-oauthtoken " +:+ toStr (TokenData.access_token grantedToken)]
  /\ ApiResult.tokenCache second = ApiResult.tokenCache first.
Proof.
  apply (second_call_reuses_the_token 1000 3500000 "" "" tokenEndpoint
           emptyGrant desk desk _ _ acme ∅ grantedToken);
    try reflexivity.
  - discriminate.
  - intros entry Hentry. discriminate Hentry.
Defined.

(** X12: a token response with neither an [error] nor an [access_token],
    got by a call that has to refresh: the call rejects with its own error
    and sends nothing, the response is stored in the cache all the same, and
    the cache never serves it: the next call, at whatever time, posts a
    refresh again. *)
Theorem grant_without_token_is_never_served (now later : Z)
    (stack stack' : string)
    (post post' : TokenRequest.t -> Outcome TokenData.t)
    (axios axios' : HttpRequest.t -> Outcome Response.t)
    (req req' : Request.t) (profile : Profile.t)
    (tokenCache : gmap string CacheEntry.t) (data : TokenData.t) :
  member tokenCache (Profile.profileName profile) <> Inherited ->
  (forall entry,
     tokenCache !! Profile.profileName profile = Some entry ->
     truthy (TokenData.access_token (CacheEntry.data entry))
     && (now <? CacheEntry.expiresAt entry) = false) ->
  post (refreshParams profile) = Resolved data ->
  truthy (TokenData.error data) = false ->
  truthy (TokenData.access_token data) = false ->
  let first := makeApiCall now stack post axios req profile tokenCache in
  let second := makeApiCall later stack' post' axios' req' profile
                            (ApiResult.tokenCache first) in
  ApiResult.sent first = []
  /\ ApiResult.result first
     = Rejected {| JsError.response := None;
                   JsError.request := false;
                   JsError.message := "Failed to retrieve a valid access token.";
                   JsError.stack := stack |}
  /\ ApiResult.tokenCache first !! Profile.profileName profile
     = Some {| CacheEntry.data := data;
               CacheEntry.expiresAt :=
                 now + (TokenData.expires_in data - 60) * 1000 |}
  /\ ApiResult.posted second = [refreshParams profile].
Proof.
  intros Hmember Hstale Hpost Herr Htok first second.
  pose proof (refresh_granted now stack post profile tokenCache data
                Hmember Hstale Hpost Herr) as Hfirst.
  assert (Hrun1 : first
            = {| ApiResult.result :=
                   Rejected {| JsError.response := None;
                               JsError.request := false;
                               JsError.message :=
                                 "Failed to retrieve a valid access token.";
                               JsError.stack := stack |};
                 ApiResult.tokenCache :=
                   <[Profile.profileName profile :=
                       {| CacheEntry.data := data;
                          CacheEntry.expiresAt :=
                            now + (TokenData.expires_in data - 60) * 1000 |}]>
                     tokenCache;
                 ApiResult.posted := [refreshParams profile];
                 ApiResult.sent := [] |}).
  { unfold first, makeApiCall. rewrite Hfirst. cbn [TokenResult.result].
    rewrite Htok. cbn [negb]. reflexivity. }
  split; [now rewrite Hrun1|]. split; [now rewrite Hrun1|].
  split.
  { rewrite Hrun1. cbn [ApiResult.tokenCache]. apply lookup_insert_eq. }
  unfold second.
  rewrite (proj2 (makeApiCall_token_run later stack' post' axios' req' profile _)).
  rewrite Hrun1. cbn [ApiResult.tokenCache].
  unfold getValidAccessToken. rewrite member_insert.
  cbn [CacheEntry.data CacheEntry.expiresAt]. rewrite Htok. cbn [andb].
  apply refresh_posted.
Qed.

Lemma grant_without_token_is_never_served_witness :
  let first := makeApiCall 1000 "at makeApiCall" emptyGrant desk
                 {| Request.method := "post";
                    Request.relativeUrl := "/api/v1/tickets";
                    Request.data := VNull |} acme ∅ in
  let second := makeApiCall 1001 "" tokenEndpoint desk
                  {| Request.method := "post";
                     Request.relativeUrl := "/api/v1/tickets";
                     Request.data := VNull |} acme
                  (ApiResult.tokenCache first) in
  ApiResult.sent first = []
  /\ ApiResult.result first
     = Rejected {| JsError.response := None;
                   JsError.request := false;
                   JsError.message := "Failed to retrieve a valid access token.";
                   JsError.stack := "at makeApiCall" |}
  /\ ApiResult.tokenCache first !! Profile.profileName acme
     = Some {| CacheEntry.data :=
                 {| TokenData.access_token := VUndefined;
                    TokenData.expires_in := 3600;
                    TokenData.error := VUndefined |};
               CacheEntry.expiresAt := 1000 + (3600 - 60) * 1000 |}
  /\ ApiResult.posted second = [refreshParams acme].
Proof.
  apply (grant_without_token_is_never_served 1000 1001 "at makeApiCall" ""
           emptyGrant tokenEndpoint desk desk _ _ acme ∅
           {| TokenData.access_token := VUndefined;
              TokenData.expires_in := 3600;
              TokenData.error := VUndefined |});
    try reflexivity.
  - discriminate.
  - intros entry Hentry. discriminate Hentry.
Defined.

(* ===================================================================== *)
(** ** The connection check *)
(* ===================================================================== *)

(** X13: [checkApiStatus] reports a valid connection exactly when the
    profile exists and [getValidAccessToken] resolves for it, without asking
    the helpdesk anything; it does so even for a token response that holds
    no access token, with which [makeApiCall] sends nothing and rejects.
    For a profile that does not exist it posts nothing, leaves the cache as
    it is and reports the engine's [TypeError]. *)
Theorem connection_check_trusts_the_token_call (now : Z)
    (stack typeErrorMessage typeErrorStack : string)
    (post : TokenRequest.t -> Outcome TokenData.t)
    (axios : HttpRequest.t -> Outcome Response.t) (req : Request.t)
    (profiles : list Profile.t) (selectedProfileName : string)
    (tokenCache : gmap string CacheEntry.t) :
  let res := checkApiStatus now stack typeErrorMessage typeErrorStack post
                            profiles selectedProfileName tokenCache in
  let status := fst (fst res) in
  match findProfile profiles selectedProfileName with
  | None =>
      status
      = {| ApiStatus.success := false;
           ApiStatus.message :=
             "Connection failed: "
             +:+ (if truthyStr typeErrorMessage then typeErrorMessage
                  else "An unknown error occurred.");
           ApiStatus.fullResponse := inr (VStr typeErrorStack) |}
      /\ snd (fst res) = tokenCache
      /\ snd res = []
  | Some activeProfile =>
      let token :=
        getValidAccessToken now stack post activeProfile tokenCache in
      let call :=
        makeApiCall now stack post axios req activeProfile tokenCache in
      snd (fst res) = TokenResult.tokenCache token
      /\ snd res = TokenResult.posted token
      /\ match TokenResult.result token with
         | Resolved tokenResponse =>
             status
             = {| ApiStatus.success := true;
                  ApiStatus.message :=
                    "Token is valid. Connection to Zoho API is successful.";
                  ApiStatus.fullResponse := inl tokenResponse |}
             /\ (truthy (TokenData.access_token tokenResponse) = false ->
                 ApiResult.sent call = []
                 /\ exists error, ApiResult.result call = Rejected error)
         | Rejected error =>
             ApiStatus.success status = false
             /\ ApiStatus.message status
                = "Connection failed: "
                  +:+ toStr (ParsedError.message (parseError error))
             /\ ApiResult.result call = Rejected error
         end
  end.
Proof.
  cbv zeta. unfold checkApiStatus.
  destruct (findProfile profiles selectedProfileName) as [activeProfile|].
  - cbn [fst snd]. split; [reflexivity|]. split; [reflexivity|].
    unfold makeApiCall.
    destruct (TokenResult.result _) as [tokenResponse|error].
    + split; [reflexivity|]. intros Ht. rewrite Ht. cbn [negb].
      cbn [ApiResult.sent ApiResult.result]. eauto.
    + cbn. auto.
  - cbn [fst snd]. repeat split.
Qed.

Lemma connection_check_trusts_the_token_call_witness :
  let res := checkApiStatus 1000 "" "" "" emptyGrant [acme] "acme" ∅ in
  let call := makeApiCall 1000 "" emptyGrant desk
                {| Request.method := "get";
                   Request.relativeUrl := "/api/v1/tickets";
                   Request.data := VNull |} acme ∅ in
  ApiStatus.success (fst (fst res)) = true
  /\ ApiResult.sent call = []
  /\ exists error, ApiResult.result call = Rejected error.
Proof.
  cbv zeta.
  pose proof (connection_check_trusts_the_token_call 1000 "" "" "" emptyGrant
                desk {| Request.method := "get";
                        Request.relativeUrl := "/api/v1/tickets";
                        Request.data := VNull |} [acme] "acme" ∅) as H.
  cbv zeta in H.
  change (findProfile [acme] "acme") with (Some acme) in H.
  cbv iota beta in H. destruct H as (_ & _ & H).
  change (TokenResult.result (getValidAccessToken 1000 "" emptyGrant acme ∅))
    with (Resolved {| TokenData.access_token := VUndefined;
                      TokenData.expires_in := 3600;
                      TokenData.error := VUndefined |}) in H.
  cbv iota beta in H. destruct H as [Hstatus Hcall].
  split; [now rewrite Hstatus|]. apply Hcall. reflexivity.
Defined.

(* ===================================================================== *)
(** ** The OAuth flow *)
(* ===================================================================== *)

Lemma serve_complete (req : OAuthRequest)
    (authStates : gmap string AuthData.t) :
  map_Forall (fun _ authData => complete authData = true) authStates ->
  map_Forall (fun _ authData => complete authData = true)
             (serve req authStates).
Proof.
  intros Hall. destruct req as [port state body|port stack post query|state];
    cbn [serve].
  - unfold zohoAuth.
    destruct (truthy (field body "clientId")) eqn:H1;
      destruct (truthy (field body "clientSecret")) eqn:H2;
      destruct (truthy (field body "socketId")) eqn:H3;
      cbn [negb orb snd]; try exact Hall.
    apply map_Forall_insert_2; [|exact Hall].
    unfold complete. cbn [AuthData.clientId AuthData.clientSecret
                          AuthData.socketId].
    now rewrite H1, H2, H3.
  - unfold zohoCallback.
    destruct (authDataOf authStates (toStr (field query "state")));
      [|exact Hall].
    destruct (post _) as [data|error];
      [destruct (negb (truthy (field data "refresh_token")))|];
      cbn [Callback.authStates]; now apply map_Forall_delete.
  - unfold expireState. now apply map_Forall_delete.
Qed.

(** X14: the states of the OAuth flow hold complete requests only.
    [/api/zoho/auth] refuses, with 400 and without storing anything, a
    body in which the client id, the client secret or the socket id is
    missing or falsy; so after any sequence of auth requests, callbacks and
    state timers, starting with no state, every stored state has a truthy
    client id, client secret and socket id: a callback that finds a stored
    state always has a socket to answer and credentials to post. *)
Theorem oauth_states_hold_complete_requests (requests : list OAuthRequest)
    (port state : string) (body : Obj) (authStates : gmap string AuthData.t) :
  map_Forall (fun _ authData => complete authData = true)
             (fold_left (fun states req => serve req states) requests ∅)
  /\ (truthy (field body "clientId") && truthy (field body "clientSecret")
      && truthy (field body "socketId") = false ->
      zohoAuth port state body authStates
      = (Html 400 "Client ID, Client Secret, and Socket ID are required.",
         authStates)).
Proof.
  split.
  - assert (H : forall states,
              map_Forall (fun _ authData => complete authData = true) states ->
              map_Forall (fun _ authData => complete authData = true)
                (fold_left (fun states req => serve req states) requests
                           states)).
    { induction requests as [|req requests IH]; intros states Hs; [exact Hs|].
      cbn [fold_left]. apply IH. now apply serve_complete. }
    apply H. apply map_Forall_empty.
  - unfold zohoAuth.
    destruct (truthy (field body "clientId"));
      destruct (truthy (field body "clientSecret"));
      destruct (truthy (field body "socketId")); cbn [negb orb andb];
      try reflexivity; discriminate.
Qed.

Lemma oauth_states_hold_complete_requests_witness :
  map_Forall (fun _ authData => complete authData = true)
    (fold_left (fun states req => serve req states)
               [AuthRequest "3000" "5f2a" authBody;
                AuthRequest "3000" "77c1" [("clientId", VStr "1000.client")];
                StateTimeout "5f2a"] ∅)
  /\ zohoAuth "3000" "77c1" [("clientId", VStr "1000.client")] ∅
     = (Html 400 "Client ID, Client Secret, and Socket ID are required.", ∅).
Proof.
  split.
  - apply (proj1 (oauth_states_hold_complete_requests
                    [AuthRequest "3000" "5f2a" authBody;
                     AuthRequest "3000" "77c1" [("clientId", VStr "1000.client")];
                     StateTimeout "5f2a"] "" "" [] ∅)).
  - apply (proj2 (oauth_states_hold_complete_requests []
                    "3000" "77c1" [("clientId", VStr "1000.client")] ∅)).
    reflexivity.
Defined.

(** X15: from the auth request to the callback: when [/api/zoho/auth] has
    accepted a body under [state], the callback that brings this state back
    posts one authorization-code grant, with the client id and secret of
    that body and the redirect address the auth URL named, and sends exactly
    one event, to the socket the body named: the refresh token with the
    answer 200 when the accounts server returned one, else an error with the
    answer 500.  Either way the state is used up. *)
Theorem callback_answers_the_socket_that_asked (port stack state : string)
    (post : CodeGrant.t -> Outcome Obj) (body query : Obj)
    (authStates : gmap string AuthData.t) :
  truthy (field body "clientId") = true ->
  truthy (field body "clientSecret") = true ->
  truthy (field body "socketId") = true ->
  toStr (field query "state") = state ->
  let stored := snd (zohoAuth port state body authStates) in
  let res := zohoCallback port stack post query stored in
  let params :=
    {| CodeGrant.code := toStr (field query "code");
       CodeGrant.client_id := toStr (field body "clientId");
       CodeGrant.client_secret := toStr (field body "clientSecret");
       CodeGrant.redirect_uri := REDIRECT_URI port;
       CodeGrant.grant_type := "authorization_code" |} in
  Callback.posted res = [params]
  /\ Callback.authStates res = delete state authStates
  /\ match post params with
     | Resolved data =>
         if truthy (field data "refresh_token") then
           Callback.emitted res
           = [(field body "socketId", "zoho-refresh-token",
               VObj [("refreshToken", field data "refresh_token")])]
           /\ exists html, Callback.reply res = Html 200 html
         else
           Callback.emitted res
           = [(field body "socketId", "zoho-refresh-token-error",
               VObj [("error",
                      VStr "Refresh token not found in Zoho's response.")])]
           /\ exists html, Callback.reply res = Html 500 html
     | Rejected error =>
         Callback.emitted res
         = [(field body "socketId", "zoho-refresh-token-error",
             VObj [("error", ParsedError.message (parseError error))])]
         /\ exists html, Callback.reply res = Html 500 html
     end.
Proof.
  intros H1 H2 H3 Hstate. cbv zeta. unfold zohoAuth.
  rewrite H1, H2, H3. cbn [negb orb snd].
  unfold zohoCallback, authDataOf. rewrite Hstate, member_insert.
  cbn [AuthData.clientId AuthData.clientSecret AuthData.socketId].
  rewrite delete_insert_eq.
  destruct (post _) as [data|error].
  - destruct (truthy (field data "refresh_token")); cbn; eauto.
  - cbn. eauto.
Qed.

Lemma callback_answers_the_socket_that_asked_witness :
  let stored := snd (zohoAuth "3000" "5f2a" authBody ∅) in
  let res := zohoCallback "3000" "" accounts
               [("code", VStr "1000.code"); ("state", VStr "5f2a")] stored in
  let params :=
    {| CodeGrant.code := "1000.code";
       CodeGrant.client_id := "1000.client";
       CodeGrant.client_secret := "secret";
       CodeGrant.redirect_uri := REDIRECT_URI "3000";
       CodeGrant.grant_type := "authorization_code" |} in
  Callback.posted res = [params]
  /\ Callback.authStates res = delete "5f2a" ∅
  /\ Callback.emitted res
     = [(VStr "s1", "zoho-refresh-token",
         VObj [("refreshToken", VStr "1000.refresh")])]
     /\ exists html, Callback.reply res = Html 200 html.
Proof.
  apply (callback_answers_the_socket_that_asked "3000" "" "5f2a" accounts
           authBody [("code", VStr "1000.code"); ("state", VStr "5f2a")] ∅);
    reflexivity.
Defined.

Lemma authDataOf_None (authStates : gmap string AuthData.t) (state : string) :
  authStates !! state = None -> inherited state = false ->
  authDataOf authStates state = None.
Proof. intros Hn Hi. unfold authDataOf, member. now rewrite Hn, Hi. Qed.

(** X16: a state that is not the name of a member of [Object.prototype], as
    the 32 hexadecimal digits of the server's own states are not, is good
    for one callback only: whatever a callback did, a second callback that
    brings the same state is refused with 400, posts nothing and sends
    nothing; and so is any callback whose state the five-minute timer has
    deleted.  A state that names such a member and was never stored is not
    refused at all: [authStates[state]] finds the inherited member, so
    every callback that brings it posts a grant with the client id and
    secret [undefined], sends its one event to the room [undefined],
    answers 200 or 500, and leaves the states as they are. *)
Theorem state_is_good_for_one_callback (port stack port' stack' : string)
    (post post' : CodeGrant.t -> Outcome Obj) (query query' : Obj)
    (authStates : gmap string AuthData.t) :
  let refused (states : gmap string AuthData.t) :=
    {| Callback.reply :=
         Html 400 "<h1>Error</h1><p>Invalid or expired session state. Please try generating the token again.</p>";
       Callback.authStates := states;
       Callback.posted := [];
       Callback.emitted := [] |} in
  let state := toStr (field query "state") in
  let first := zohoCallback port stack post query authStates in
  (inherited state = false ->
   (toStr (field query' "state") = state ->
    zohoCallback port' stack' post' query' (Callback.authStates first)
    = refused (Callback.authStates first))
   /\ zohoCallback port stack post query (expireState state authStates)
      = refused (expireState state authStates))
  /\ (inherited state = true ->
      authStates !! state = None ->
      Callback.authStates first = authStates
      /\ Callback.posted first
         = [{| CodeGrant.code := toStr (field query "code");
               CodeGrant.client_id := "undefined";
               CodeGrant.client_secret := "undefined";
               CodeGrant.redirect_uri := REDIRECT_URI port;
               CodeGrant.grant_type := "authorization_code" |}]
      /\ (exists (event : string) (payload : Value),
            Callback.emitted first = [(VUndefined, event, payload)])
      /\ exists (code : Z) (html : string),
           Callback.reply first = Html code html
           /\ (code = 200 \/ code = 500)).
Proof.
  cbv zeta. split.
  - intros Hplain. split.
    + intros Hsame.
      assert (Hgone : Callback.authStates
                        (zohoCallback port stack post query authStates)
                      !! toStr (field query "state") = None).
      { unfold zohoCallback.
        destruct (authDataOf authStates (toStr (field query "state"))) eqn:E.
        - destruct (post _) as [data|error];
            [destruct (negb (truthy (field data "refresh_token")))|];
            cbn [Callback.authStates]; apply lookup_delete_eq.
        - cbn [Callback.authStates]. unfold authDataOf, member in E.
          destruct (authStates !! toStr (field query "state")); [discriminate|].
          reflexivity. }
      unfold zohoCallback at 1. rewrite Hsame.
      now rewrite (authDataOf_None _ _ Hgone Hplain).
    + unfold zohoCallback at 1, expireState.
      rewrite authDataOf_None; [reflexivity| |exact Hplain].
      apply lookup_delete_eq.
  - intros Hinh Hnone. unfold zohoCallback, authDataOf, member.
    rewrite Hnone, Hinh.
    cbn [AuthData.clientId AuthData.clientSecret AuthData.socketId toStr].
    rewrite (delete_id _ _ Hnone).
    destruct (post _) as [data|error];
      [destruct (negb (truthy (field data "refresh_token")))|];
      cbn [Callback.authStates Callback.posted Callback.emitted Callback.reply];
      (split; [reflexivity|]); (split; [reflexivity|]); (split; [eauto|]);
      eauto.
Qed.

Lemma state_is_good_for_one_callback_witness :
  let query := [("code", VStr "1000.code"); ("state", VStr "5f2a")] in
  let first := zohoCallback "3000" "" accounts query
                 (snd (zohoAuth "3000" "5f2a" authBody ∅)) in
  let forged := [("code", VStr "1000.code"); ("state", VStr "constructor")] in
  zohoCallback "3000" "" accounts query (Callback.authStates first)
  = {| Callback.reply :=
         Html 400 "<h1>Error</h1><p>Invalid or expired session state. Please try generating the token again.</p>";
       Callback.authStates := Callback.authStates first;
       Callback.posted := [];
       Callback.emitted := [] |}
  /\ Callback.posted (zohoCallback "3000" "" accounts forged ∅)
     = [{| CodeGrant.code := "1000.code";
           CodeGrant.client_id := "undefined";
           CodeGrant.client_secret := "undefined";
           CodeGrant.redirect_uri := REDIRECT_URI "3000";
           CodeGrant.grant_type := "authorization_code" |}].
Proof.
  cbv zeta. split.
  - apply (proj1 (state_is_good_for_one_callback "3000" "" "3000" "" accounts
                    accounts
                    [("code", VStr "1000.code"); ("state", VStr "5f2a")]
                    [("code", VStr "1000.code"); ("state", VStr "5f2a")]
                    (snd (zohoAuth "3000" "5f2a" authBody ∅))));
      reflexivity.
  - apply (proj2 (state_is_good_for_one_callback "3000" "" "3000" "" accounts
                    accounts
                    [("code", VStr "1000.code"); ("state", VStr "constructor")]
                    [] ∅));
      reflexivity.
Defined.

(* ===================================================================== *)
(** ** A single ticket *)
(* ===================================================================== *)

(** X17: unlike the batch worker, the two single-ticket handlers report a
    ticket whose direct reply failed as a success: the answer is 200 with
    [success: true], and the parsed reply error sits under
    [fullResponse.sendReply]. *)
Theorem single_ticket_succeeds_though_the_reply_fails
    (profiles : list Profile.t) (activeProfile : Profile.t)
    (newTicket : Obj) (replyError : JsError.t) (body : TicketBody.t) :
  truthyStr (TicketBody.email body) = true ->
  truthyStr (TicketBody.selectedProfileName body) = true ->
  findProfile profiles (TicketBody.selectedProfileName body)
  = Some activeProfile ->
  TicketBody.sendDirectReply body = true ->
  let payload :=
    VObj [("success", VBool true);
          ("fullResponse",
           VObj [("ticketCreate", VObj newTicket);
                 ("sendReply",
                  ParsedError.toValue (parseError replyError))])] in
  snd (ticketsSingle profiles (Resolved newTicket) (Rejected replyError) body)
  = Json 200 payload
  /\ In (Sent "testTicketResult" payload)
        (sendTestTicket profiles (Resolved newTicket) (Rejected replyError)
                        body)
  /\ logWrites (fst (ticketsSingle profiles (Resolved newTicket)
                                   (Rejected replyError) body))
     = [(field newTicket "ticketNumber", TicketBody.email body)].
Proof.
  intros He Hn Hp Hr. cbv zeta. unfold ticketsSingle, sendTestTicket.
  rewrite He, Hn, Hp, Hr. cbn [negb orb fst snd logWrites].
  split; [reflexivity|]. split; [|reflexivity].
  apply in_or_app. left. cbn [In]. auto.
Qed.

Lemma single_ticket_succeeds_though_the_reply_fails_witness :
  let payload :=
    VObj [("success", VBool true);
          ("fullResponse",
           VObj [("ticketCreate", VObj (ticketAt 0));
                 ("sendReply",
                  ParsedError.toValue (parseError replyRefused))])] in
  snd (ticketsSingle [acme] (Resolved (ticketAt 0)) (Rejected replyRefused)
                     (testTicket true false))
  = Json 200 payload
  /\ In (Sent "testTicketResult" payload)
        (sendTestTicket [acme] (Resolved (ticketAt 0)) (Rejected replyRefused)
                        (testTicket true false))
  /\ logWrites (fst (ticketsSingle [acme] (Resolved (ticketAt 0))
                                   (Rejected replyRefused)
                                   (testTicket true false)))
     = [(field (ticketAt 0) "ticketNumber",
         TicketBody.email (testTicket true false))].
Proof.
  apply (single_ticket_succeeds_though_the_reply_fails [acme] acme
           (ticketAt 0) replyRefused (testTicket true false));
    reflexivity.
Defined.

(** X18: the HTTP endpoint and the socket handler do the same: the same
    helpdesk calls and log entry in the same order, and the event
    [testTicketResult] carries the body the endpoint answers with, which
    says [success: true] exactly when the answer is 200.  The socket handler
    then launches a verification when [verifyEmail] is set and the ticket
    was created, and never otherwise. *)
Theorem test_ticket_does_what_the_endpoint_does (profiles : list Profile.t)
    (create : Outcome Obj) (reply : Outcome Value) (body : TicketBody.t) :
  let single := ticketsSingle profiles create reply body in
  exists (code : Z) (payload : Value) (launch : list Effect),
    snd single = Json code payload
    /\ field (match payload with VObj o => o | _ => [] end) "success"
       = VBool (code =? 200)
    /\ sendTestTicket profiles create reply body
       = fst single ++ [Sent "testTicketResult" payload] ++ launch
    /\ ((launch = [] /\ (TicketBody.verifyEmail body = false \/ code <> 200))
        \/ (exists newTicket activeProfile,
              launch = [Launched newTicket activeProfile
                                 "testTicketVerificationResult"]
              /\ create = Resolved newTicket
              /\ findProfile profiles (TicketBody.selectedProfileName body)
                 = Some activeProfile
              /\ TicketBody.verifyEmail body = true
              /\ code = 200)).
Proof.
  cbv zeta. unfold ticketsSingle, sendTestTicket.
  destruct (negb (truthyStr (TicketBody.email body))
            || negb (truthyStr (TicketBody.selectedProfileName body))).
  { eexists 400, _, []. cbn. repeat split. left. split; [reflexivity|].
    right. discriminate. }
  destruct (findProfile profiles (TicketBody.selectedProfileName body))
    as [activeProfile|].
  2: { eexists 404, _, []. cbn. repeat split. left. split; [reflexivity|].
       right. discriminate. }
  destruct create as [newTicket|error].
  2: { eexists 500, _, []. cbn. repeat split. left. split; [reflexivity|].
       right. discriminate. }
  destruct (TicketBody.sendDirectReply body);
    destruct (TicketBody.verifyEmail body);
    eexists 200, _, _; cbn [fst snd field String.eqb Ascii.eqb Bool.eqb];
    (split; [reflexivity|]); (split; [reflexivity|]);
    (split; [reflexivity|]);
    first [ left; split; [reflexivity|left; reflexivity]
          | right; exists newTicket, activeProfile; repeat split ].
Qed.

(** X19: nothing goes to the helpdesk for a request without an address or a
    profile name, or for a profile that does not exist; otherwise the
    create-ticket call is the first call, at most one more follows, and the
    ticket log receives one entry exactly when the ticket was created, with
    its number and the address. *)
Theorem single_ticket_logs_what_it_created (profiles : list Profile.t)
    (create : Outcome Obj) (reply : Outcome Value) (body : TicketBody.t) :
  let effects := fst (ticketsSingle profiles create reply body) in
  let accepted :=
    truthyStr (TicketBody.email body)
    && truthyStr (TicketBody.selectedProfileName body)
    && bool_decide (is_Some (findProfile profiles
                               (TicketBody.selectedProfileName body))) in
  (accepted = false -> effects = [])
  /\ (accepted = true ->
      (exists req rest,
         requested effects = req :: rest
         /\ isCreate req = true
         /\ (length rest <= 1)%nat)
      /\ logWrites effects
         = match create with
           | Resolved newTicket =>
               [(field newTicket "ticketNumber", TicketBody.email body)]
           | Rejected _ => []
           end).
Proof.
  cbv zeta. unfold ticketsSingle.
  destruct (truthyStr (TicketBody.email body));
    destruct (truthyStr (TicketBody.selectedProfileName body));
    cbn [negb orb andb fst]; try (split; [reflexivity|discriminate]).
  destruct (findProfile profiles (TicketBody.selectedProfileName body))
    as [activeProfile|]; cbn [fst].
  2: { rewrite bool_decide_eq_false_2 by (intros [x Hx]; discriminate).
       split; [reflexivity|discriminate]. }
  rewrite bool_decide_eq_true_2 by eauto.
  split; [discriminate|]. intros _.
  destruct create as [newTicket|error].
  - destruct (TicketBody.sendDirectReply body); cbn [fst requested logWrites];
      (split; [|reflexivity]); do 2 eexists;
      (split; [reflexivity|]); split; try reflexivity; simpl; lia.
  - cbn [fst requested logWrites]. split; [|reflexivity].
    do 2 eexists. split; [reflexivity|]. split; [reflexivity|simpl; lia].
Qed.

Lemma single_ticket_logs_what_it_created_witness :
  let effects := fst (ticketsSingle [acme] (Resolved (ticketAt 0))
                                    (Resolved VNull) (testTicket true false)) in
  (exists req rest,
     requested effects = req :: rest
     /\ isCreate req = true
     /\ (length rest <= 1)%nat)
  /\ logWrites effects = [(field (ticketAt 0) "ticketNumber", "a@x.com")].
Proof.
  cbv zeta.
  apply (proj2 (single_ticket_logs_what_it_created [acme]
                  (Resolved (ticketAt 0)) (Resolved VNull)
                  (testTicket true false))).
  reflexivity.
Defined.

(* ===================================================================== *)
(** ** Verification on request *)
(* ===================================================================== *)

(** X20: verification on request.  [/api/tickets/verify] answers 400 for
    a request without a ticket or a profile name and 404 for an unknown
    profile, asking the helpdesk nothing.  Otherwise it answers 200 with
    what [getVerificationStatus] resolves with, which reports success
    exactly when the two history calls succeed and return at least one
    event between them; the failure-alert feed is asked exactly when they
    succeed and return none, and the failure then reported names the reason
    of the first alert whose ticket number, as text, is that of the
    ticket. *)
Theorem verification_on_request (profiles : list Profile.t)
    (histories : Outcome (Feed.t * Feed.t)) (alerts : Outcome Alerts.t)
    (ticket : Value) (profileName : string) :
  let res := ticketsVerify profiles histories alerts ticket profileName in
  let delivered :=
    match histories with
    | Resolved feeds => Some (0 <? historyEvents feeds)%nat
    | Rejected _ => None
    end in
  if negb (truthy ticket && truthyStr profileName) then
    res = ([], Json 400 (VObj [("success", VBool false);
                               ("error",
                                VStr "Missing ticket details or profile.")]))
  else
    match findProfile profiles profileName with
    | None =>
        res = ([], Json 404 (VObj [("success", VBool false);
                                   ("error", VStr "Profile not found.")]))
    | Some activeProfile =>
        exists result : Verification.t,
          getVerificationStatus ticket activeProfile histories alerts
          = (fst res, result)
          /\ snd res = Json 200 (Verification.toValue result)
          /\ Verification.success result
             = match delivered with Some true => true | _ => false end
          /\ fst res
             = [historyRequest (asObj ticket) "WorkflowHistory";
                historyRequest (asObj ticket) "NotificationRuleHistory"]
               ++ match delivered with
                  | Some false => [alertsRequest activeProfile]
                  | _ => []
                  end
          /\ (delivered = Some true ->
              Verification.details result
              = "Email verification: Sent successfully.")
          /\ (delivered = Some false ->
              forall failureResponse,
                alerts = Resolved failureResponse ->
                Verification.details result
                = match findFailure failureResponse (asObj ticket) with
                  | Some f => "Email verification: Failed. Reason: "
                              +:+ toStr (field f "reason")
                  | None => "Email verification: Not Found."
                  end)
    end.
Proof.
  cbv zeta. unfold ticketsVerify.
  destruct (truthy ticket); destruct (truthyStr profileName);
    cbn [negb orb andb]; try reflexivity.
  destruct (findProfile profiles profileName) as [activeProfile|];
    [|reflexivity].
  unfold getVerificationStatus, historyEvents.
  destruct histories as [[w n]|error]; cbn [fst snd].
  - destruct (0 <? length _)%nat eqn:E.
    + eexists. cbn [fst snd Verification.success Verification.details].
      repeat split; try reflexivity; discriminate.
    + destruct alerts as [failureResponse|error]; eexists;
        cbn [fst snd Verification.success Verification.details];
        (split; [reflexivity|]); (split; [reflexivity|]);
        (split; [reflexivity|]); (split; [reflexivity|]);
        (split; [discriminate|]); intros _ f; [intros [= <-]|discriminate].
      reflexivity.
  - eexists. cbn [fst snd Verification.success Verification.details].
    repeat split; try reflexivity; discriminate.
Qed.

Lemma verification_on_request_witness :
  let histories :=
    Resolved ({| Feed.data := Some [VObj [("eventName", VStr "Workflow")]] |},
              {| Feed.data := None |}) in
  let alerts := Resolved {| Alerts.data := None |} in
  let res := ticketsVerify [acme] histories alerts (VObj (ticketAt 0)) "acme" in
  exists result : Verification.t,
    getVerificationStatus (VObj (ticketAt 0)) acme histories alerts
    = (fst res, result)
    /\ Verification.details result = "Email verification: Sent successfully.".
Proof.
  cbv zeta.
  pose proof (verification_on_request [acme]
                (Resolved ({| Feed.data := Some [VObj [("eventName", VStr "Workflow")]] |},
                           {| Feed.data := None |}))
                (Resolved {| Alerts.data := None |})
                (VObj (ticketAt 0)) "acme") as H.
  cbv zeta in H.
  change (findProfile [acme] "acme") with (Some acme) in H.
  cbv iota beta in H.
  destruct H as (result & Hrun & _ & _ & _ & Hsent & _).
  exists result. split; [exact Hrun|]. apply Hsent. reflexivity.
Defined.

(** X21: the verification launched after a ticket and the verification on
    request agree: for the same ticket, profile and helpdesk answers,
    [verifyTicketEmail] waits ten seconds, issues the calls
    [getVerificationStatus] issues, in the same order, and emits one event,
    for the ticket's number and the profile's name, with the same success
    flag; its details are [Ticket #N created.] followed by the details on
    request, up to the error text that only the latter gives. *)
Theorem background_verification_agrees_with_the_request (ticket : Obj)
    (profile : Profile.t) (resultEventName : string)
    (histories : Outcome (Feed.t * Feed.t)) (alerts : Outcome Alerts.t) :
  let h := verifyTicketEmail ticket profile resultEventName histories alerts in
  let run := getVerificationStatus (VObj ticket) profile histories alerts in
  exists (u : Update.t) (stem : string),
    h = Wait verifyTimer :: map Call (fst run)
        ++ [Emit (verification resultEventName u)]
    /\ Update.success u = Verification.success (snd run)
    /\ Update.ticketNumber u = field ticket "ticketNumber"
    /\ Update.profileName u = Profile.profileName profile
    /\ Update.details u
       = ("Ticket #" +:+ toStr (field ticket "ticketNumber") +:+ " created. ")
         +:+ stem
    /\ (Verification.details (snd run) = stem
        \/ exists message,
             stem = "Email verification: Failed to check status."
             /\ Verification.details (snd run)
                = stem +:+ " Error: " +:+ message).
Proof.
  cbv zeta. unfold verifyTicketEmail, getVerificationStatus. cbn [asObj].
  destruct histories as [[w n]|error].
  - destruct (0 <? length _)%nat.
    + do 2 eexists. cbn [fst snd map app]. split; [reflexivity|].
      cbn. repeat split. left. reflexivity.
    + destruct alerts as [failureResponse|error].
      * do 2 eexists. cbn [fst snd map app]. split; [reflexivity|].
        cbn [Update.success Update.ticketNumber Update.profileName
             Update.details Verification.success Verification.details].
        repeat split. left. reflexivity.
      * do 2 eexists. cbn [fst snd map app]. split; [reflexivity|].
        cbn [Update.success Update.ticketNumber Update.profileName
             Update.details Verification.success Verification.details].
        repeat split. right. eexists. split; reflexivity.
  - do 2 eexists. cbn [fst snd map app]. split; [reflexivity|].
    cbn [Update.success Update.ticketNumber Update.profileName
         Update.details Verification.success Verification.details].
    repeat split. right. eexists. split; reflexivity.
Qed.

(* ===================================================================== *)
(** ** The profile endpoints *)
(* ===================================================================== *)

Lemma strictEq_sym (a b : Value) : strictEq a b = strictEq b a.
Proof.
  destruct a, b; cbn [strictEq]; try reflexivity.
  - now destruct b, b0.
  - apply Z.eqb_sym.
  - apply String.eqb_sym.
Qed.

Lemma strictEq_VStr (a : Value) (s : string) :
  strictEq a (VStr s) = true -> a = VStr s.
Proof.
  destruct a; cbn [strictEq]; try discriminate.
  intros H. apply String.eqb_eq in H. now subst.
Qed.

Lemma findIndex_Some {A} (f : A -> bool) (l : list A) (i : nat) :
  findIndex f l = Some i ->
  exists x, l !! i = Some x /\ f x = true
            /\ forall j y, (j < i)%nat -> l !! j = Some y -> f y = false.
Proof.
  revert i. induction l as [|x l IH]; intros i H; [discriminate|].
  cbn [findIndex] in H. destruct (f x) eqn:Hx.
  - injection H as <-. exists x. repeat split; auto. intros j y Hj. lia.
  - destruct (findIndex f l) as [k|]; [|discriminate].
    injection H as <-. destruct (IH k eq_refl) as (y & Hy & Hfy & Hbefore).
    exists y. repeat split; auto.
    intros j z Hj Hz. destruct j as [|j]; [cbn in Hz; congruence|].
    apply (Hbefore j); [lia|exact Hz].
Qed.

Lemma findIndex_None {A} (f : A -> bool) (l : list A) :
  findIndex f l = None -> existsb f l = false.
Proof.
  induction l as [|x l IH]; [reflexivity|]. cbn [findIndex existsb].
  destruct (f x); [discriminate|].
  destruct (findIndex f l); [discriminate|]. intros _. now apply IH.
Qed.

Lemma existsb_false_lookup {A} (f : A -> bool) (l : list A) (i : nat) (x : A) :
  existsb f l = false -> l !! i = Some x -> f x = false.
Proof.
  revert i. induction l as [|y l IH]; intros i H Hi; [discriminate|].
  cbn [existsb] in H. apply orb_false_elim in H as [Hy Hl].
  destruct i as [|i]; [cbn in Hi; congruence|]. now apply (IH i).
Qed.

Lemma get_union (a b : ProfileObj) (k : string) :
  get (a ∪ b) k = match a !! k with
                  | Some v => v
                  | None => get b k
                  end.
Proof.
  unfold get. rewrite lookup_union.
  destruct (a !! k), (b !! k); reflexivity.
Qed.

Lemma readProfiles_write (profiles : list ProfileObj) (disk : Disk) :
  readProfiles (writeProfiles profiles disk)
  = if writable disk then profiles else readProfiles disk.
Proof. unfold writeProfiles. now destruct (writable disk). Qed.

Lemma distinctNames_app (profiles : list ProfileObj) (p : ProfileObj) :
  distinctNames profiles ->
  existsb (fun q => strictEq (get q "profileName") (get p "profileName"))
          profiles = false ->
  distinctNames (profiles ++ [p]).
Proof.
  intros Hd Hnew i j a b Ha Hb Hne.
  apply lookup_app_Some in Ha, Hb.
  destruct Ha as [Ha|[Hi Ha]], Hb as [Hb|[Hj Hb]].
  - now apply (Hd i j).
  - apply list_lookup_singleton_Some in Hb as [_ <-].
    now apply (existsb_false_lookup _ _ _ _ Hnew Ha).
  - apply list_lookup_singleton_Some in Ha as [_ <-].
    rewrite strictEq_sym. now apply (existsb_false_lookup _ _ _ _ Hnew Hb).
  - apply list_lookup_singleton_Some in Ha as [Hi' _].
    apply list_lookup_singleton_Some in Hb as [Hj' _]. lia.
Qed.

Lemma distinctNames_insert (profiles : list ProfileObj) (i : nat)
    (old merged : ProfileObj) :
  distinctNames profiles ->
  profiles !! i = Some old ->
  (get merged "profileName" = get old "profileName"
   \/ existsb (fun q => strictEq (get q "profileName")
                                 (get merged "profileName")) profiles = false) ->
  distinctNames (<[i := merged]> profiles).
Proof.
  intros Hd Hold Hname a b p q Ha Hb Hne.
  assert (Hother : forall j r, j <> i -> profiles !! j = Some r ->
            strictEq (get merged "profileName") (get r "profileName") = false).
  { intros j r Hj Hr. destruct Hname as [->|Hex].
    - apply (Hd i j); auto.
    - rewrite strictEq_sym. now apply (existsb_false_lookup _ _ _ _ Hex Hr). }
  destruct (decide (a = i)) as [->|Hai], (decide (b = i)) as [->|Hbi].
  - congruence.
  - rewrite list_lookup_insert_ne in Hb by auto.
    rewrite list_lookup_insert_eq in Ha by (now apply lookup_lt_Some in Hold).
    injection Ha as <-. now apply (Hother b).
  - rewrite list_lookup_insert_ne in Ha by auto.
    rewrite list_lookup_insert_eq in Hb by (now apply lookup_lt_Some in Hold).
    injection Hb as <-. rewrite strictEq_sym. now apply (Hother a).
  - rewrite list_lookup_insert_ne in Ha, Hb by auto. now apply (Hd a b).
Qed.

(** X22: the two endpoints that change [profiles.json] keep the names of its
    profiles distinct: when no two stored profiles have the same name, none
    have after a POST or a PUT, whatever the request and whether or not it
    is accepted. *)
Theorem profile_names_stay_distinct (disk : Disk) (newProfile : ProfileObj)
    (profileNameToUpdate : string) (updatedProfileData : ProfileObj) :
  distinctNames (readProfiles disk) ->
  distinctNames (readProfiles (snd (postProfile newProfile disk)))
  /\ distinctNames
       (readProfiles (snd (putProfile profileNameToUpdate updatedProfileData
                                      disk))).
Proof.
  intros Hd. split.
  - unfold postProfile.
    destruct (negb (truthy (get newProfile "profileName"))); [exact Hd|].
    destruct (existsb _ (readProfiles disk)) eqn:Hex; [exact Hd|].
    cbn [snd]. rewrite readProfiles_write.
    destruct (writable disk); [|exact Hd]. now apply distinctNames_app.
  - unfold putProfile.
    destruct (findIndex _ (readProfiles disk)) as [i|] eqn:Hi; [|exact Hd].
    apply findIndex_Some in Hi as (old & Hold & Hname & _).
    apply strictEq_VStr in Hname.
    destruct (negb (strictEq (get updatedProfileData "profileName")
                             (VStr profileNameToUpdate))
              && existsb _ (readProfiles disk)) eqn:Hc; [exact Hd|].
    cbn [snd]. rewrite readProfiles_write.
    destruct (writable disk); [|exact Hd]. rewrite Hold.
    apply (distinctNames_insert _ _ old); auto.
    rewrite get_union.
    destruct (updatedProfileData !! "profileName") as [v|] eqn:Hv;
      [|now left].
    assert (Hget : get updatedProfileData "profileName" = v)
      by (unfold get; now rewrite Hv).
    rewrite Hget in Hc. apply andb_false_iff in Hc as [Hc|Hc].
    + apply negb_false_iff, strictEq_VStr in Hc. left. congruence.
    + right. exact Hc.
Qed.

Lemma profile_names_stay_distinct_witness :
  let initech : ProfileObj := {[ "profileName" := VStr "initech" ]} in
  let renamed : ProfileObj := {[ "profileName" := VStr "zenith" ]} in
  (distinctNames (readProfiles (snd (postProfile initech twoProfiles)))
   /\ distinctNames
        (readProfiles (snd (putProfile "acme" renamed twoProfiles))))
  /\ readProfiles (snd (postProfile initech twoProfiles))
     = [acmeObj; globexObj; initech]
  /\ map (fun p => get p "profileName")
         (readProfiles (snd (putProfile "acme" renamed twoProfiles)))
     = [VStr "zenith"; VStr "globex"]
  /\ postProfile globexObj twoProfiles
     = (ProfilesError 400 "A profile with this name already exists.",
        twoProfiles)
  /\ putProfile "acme" globexObj twoProfiles
     = (ProfilesError 400 "A profile with the new name already exists.",
        twoProfiles).
Proof.
  cbv zeta. split.
  - apply (profile_names_stay_distinct twoProfiles
             {[ "profileName" := VStr "initech" ]} "acme"
             {[ "profileName" := VStr "zenith" ]}).
    intros i j p q Hp Hq Hij.
    destruct i as [|[|i]], j as [|[|j]]; try discriminate;
      try (now contradiction Hij);
      injection Hp as <-; injection Hq as <-; reflexivity.
  - repeat split; vm_compute; reflexivity.
Defined.

(** X23: a PUT finds the first profile whose name is the one in the URL and
    merges the body into it: the merged profile has every property of the
    body, with the body's value, and every other property of the old
    profile; the other profiles and the length of the list are as before.
    The list is stored when the write succeeds; when it fails the answer is
    the same and the file is as before.  When no profile has the name, the
    answer is 404 and nothing is written. *)
Theorem put_merges_into_the_named_profile (profileNameToUpdate : string)
    (updatedProfileData : ProfileObj) (disk : Disk) :
  let res := putProfile profileNameToUpdate updatedProfileData disk in
  let named (p : ProfileObj) :=
    strictEq (get p "profileName") (VStr profileNameToUpdate) in
  (existsb named (readProfiles disk) = false ->
   res = (ProfilesError 404 "Profile not found.", disk))
  /\ forall profiles,
       fst res = ProfilesOk profiles ->
       exists (i : nat) (old merged : ProfileObj),
         readProfiles disk !! i = Some old
         /\ named old = true
         /\ (forall j p, (j < i)%nat -> readProfiles disk !! j = Some p ->
                         named p = false)
         /\ profiles = <[i := merged]> (readProfiles disk)
         /\ (forall k, merged !! k
                       = match updatedProfileData !! k with
                         | Some v => Some v
                         | None => old !! k
                         end)
         /\ (forall j, j <> i -> profiles !! j = readProfiles disk !! j)
         /\ length profiles = length (readProfiles disk)
         /\ readProfiles (snd res)
            = if writable disk then profiles else readProfiles disk.
Proof.
  cbv zeta. unfold putProfile.
  destruct (findIndex _ (readProfiles disk)) as [i|] eqn:Hi.
  - split.
    { intros Hnone. apply findIndex_Some in Hi as (old & Hold & Hname & _).
      pose proof (existsb_false_lookup _ _ _ _ Hnone Hold) as Hf.
      cbv beta in Hf. congruence. }
    apply findIndex_Some in Hi as (old & Hold & Hname & Hbefore).
    destruct (negb _ && existsb _ (readProfiles disk)); [discriminate|].
    cbn [fst snd]. intros profiles [= <-]. rewrite Hold.
    exists i, old, (updatedProfileData ∪ old).
    split; [exact Hold|]. split; [exact Hname|]. split; [exact Hbefore|].
    split; [reflexivity|]. split.
    { intros k. rewrite lookup_union.
      destruct (updatedProfileData !! k), (old !! k); reflexivity. }
    split; [intros j Hj; now apply list_lookup_insert_ne|].
    split; [apply length_insert|apply readProfiles_write].
  - split; [reflexivity|]. discriminate.
Qed.

Lemma put_merges_into_the_named_profile_witness :
  let disk := snd (postProfile acmeObj emptyDisk) in
  let updatedProfileData : ProfileObj := {[ "orgId" := VStr "60002" ]} in
  let res := putProfile "acme" updatedProfileData disk in
  exists (i : nat) (old merged : ProfileObj),
    readProfiles disk !! i = Some old
    /\ merged !! "orgId" = Some (VStr "60002")
    /\ merged !! "profileName" = old !! "profileName"
    /\ readProfiles (snd res) = [merged].
Proof.
  cbv zeta.
  destruct (proj2 (put_merges_into_the_named_profile "acme"
                     {[ "orgId" := VStr "60002" ]}
                     (snd (postProfile acmeObj emptyDisk)))
                  [ {[ "orgId" := VStr "60002" ]} ∪ acmeObj ])
    as (i & old & merged & Hold & _ & _ & Hnew & Hmerged & _ & _ & Hdisk).
  - vm_compute. reflexivity.
  - exists i, old, merged. split; [exact Hold|].
    split; [now rewrite Hmerged|].
    split; [now rewrite Hmerged|].
    rewrite Hdisk. cbn [writable postProfile]. 
    destruct i as [|i]; [|now destruct i].
    cbn in Hold. injection Hold as <-. rewrite Hnew. reflexivity.
Defined.

(** X24: a POST that is accepted answers with the stored profiles followed
    by the new one, and stores that list when the write succeeds: then a GET
    returns it, and a second POST under the same name is refused with 400
    and changes nothing.  When the write fails the answer is the same, but
    the file is as before. *)
Theorem post_adds_the_profile_at_the_end (name : string)
    (newProfile : ProfileObj) (disk : Disk) :
  get newProfile "profileName" = VStr name ->
  name <> "" ->
  existsb (fun p => strictEq (get p "profileName") (VStr name))
          (readProfiles disk) = false ->
  let res := postProfile newProfile disk in
  fst res = ProfilesOk (getProfiles disk ++ [newProfile])
  /\ (writable disk = true ->
      getProfiles (snd res) = getProfiles disk ++ [newProfile]
      /\ forall again,
           get again "profileName" = VStr name ->
           postProfile again (snd res)
           = (ProfilesError 400 "A profile with this name already exists.",
              snd res))
  /\ (writable disk = false -> snd res = disk).
Proof.
  intros Hname Hne Hfree. cbv zeta. unfold postProfile, getProfiles.
  rewrite Hname. cbn [truthy].
  destruct (String.eqb name "") eqn:E; [apply String.eqb_eq in E; congruence|].
  cbn [negb]. rewrite Hfree. cbn [fst snd]. split; [reflexivity|].
  split.
  - intros Hw. rewrite readProfiles_write, Hw. split; [reflexivity|].
    intros again Hagain. rewrite Hagain. cbn [truthy]. rewrite E.
    cbn [negb]. rewrite existsb_app. cbn [existsb]. rewrite Hname.
    cbn [strictEq]. rewrite String.eqb_refl, orb_true_r. reflexivity.
  - intros Hw. unfold writeProfiles. now rewrite Hw.
Qed.

Lemma post_adds_the_profile_at_the_end_witness :
  let res := postProfile acmeObj emptyDisk in
  fst res = ProfilesOk (getProfiles emptyDisk ++ [acmeObj])
  /\ (writable emptyDisk = true ->
      getProfiles (snd res) = getProfiles emptyDisk ++ [acmeObj]
      /\ forall again,
           get again "profileName" = VStr "acme" ->
           postProfile again (snd res)
           = (ProfilesError 400 "A profile with this name already exists.",
              snd res))
  /\ (writable emptyDisk = false -> snd res = emptyDisk).
Proof.
  apply (post_adds_the_profile_at_the_end "acme" acmeObj emptyDisk).
  - reflexivity.
  - discriminate.
  - reflexivity.
Defined.

(* ===================================================================== *)
(** ** The ticket log *)
(* ===================================================================== *)

Lemma readTicketLog_write (newEntry : LogEntry.t) (disk : Disk) :
  readTicketLog (writeToTicketLog newEntry disk)
  = if writable disk then readTicketLog disk ++ [newEntry]
    else readTicketLog disk.
Proof. unfold writeToTicketLog. now destruct (writable disk). Qed.

Lemma writable_write (newEntry : LogEntry.t) (disk : Disk) :
  writable (writeToTicketLog newEntry disk) = writable disk.
Proof. unfold writeToTicketLog. now destruct (writable disk) eqn:E. Qed.

Lemma writeToTicketLog_fold (entries : list LogEntry.t) (disk : Disk) :
  let after := fold_left (fun d e => writeToTicketLog e d) entries disk in
  readTicketLog after
  = (if writable disk then readTicketLog disk ++ entries
     else readTicketLog disk)
  /\ profilesJson after = profilesJson disk
  /\ writable after = writable disk
  /\ (writable disk = false -> after = disk).
Proof.
  cbv zeta. revert disk.
  induction entries as [|e entries IH]; intros disk; cbn [fold_left].
  - rewrite app_nil_r.
    split; [now destruct (writable disk)|]. repeat split; reflexivity.
  - destruct (IH (writeToTicketLog e disk)) as (Hread & Hprof & Hw & Hro).
    rewrite writable_write in Hread, Hw, Hro.
    rewrite readTicketLog_write in Hread.
    rewrite Hread, Hprof, Hw.
    split; [destruct (writable disk); [now rewrite <- app_assoc|reflexivity]|].
    split; [unfold writeToTicketLog; now destruct (writable disk)|].
    split; [reflexivity|].
    intros Hro'. rewrite (Hro Hro'). unfold writeToTicketLog. now rewrite Hro'.
Qed.

(** X25: the ticket log between two clearings, for a [ticket-log.json] that
    is missing, cannot be parsed, or holds an array of entries as the
    server writes it.  On a disk that accepts writes, the log read after any
    number of [writeToTicketLog] calls is the log read before followed by
    the new entries in order (a log file that is missing or cannot be
    parsed counts as empty, so the first write replaces it);
    [clearTicketLogs] then reports success and the log reads as empty, and
    entries written afterwards are all there is.  On a disk that refuses
    writes the calls leave both files as they are and [clearTicketLogs]
    reports the failure.  [profiles.json] is never touched. *)
Theorem ticket_log_appends_until_cleared (entries later : list LogEntry.t)
    (disk : Disk) :
  let written := fold_left (fun d e => writeToTicketLog e d) entries disk in
  let res := clearTicketLogs written in
  let after := fold_left (fun d e => writeToTicketLog e d) later (snd res) in
  profilesJson after = profilesJson disk
  /\ if writable disk then
       readTicketLog written = readTicketLog disk ++ entries
       /\ fst res
          = [Sent "clearTicketLogsResult" (VObj [("success", VBool true)])]
       /\ readTicketLog (snd res) = []
       /\ readTicketLog after = later
     else
       written = disk
       /\ fst res
          = [Sent "clearTicketLogsResult"
                  (VObj [("success", VBool false);
                         ("error",
                          VStr "Failed to clear log file on server.")])]
       /\ after = disk.
Proof.
  cbv zeta.
  destruct (writeToTicketLog_fold entries disk) as (Hread & Hprof & Hw & Hro).
  set (written := fold_left _ entries disk) in *.
  unfold clearTicketLogs. rewrite Hw.
  destruct (writable disk) eqn:Hd; cbn [fst snd].
  - set (cleared := {| profilesJson := _; ticketLogJson := _; writable := _ |}).
    destruct (writeToTicketLog_fold later cleared) as (Hread' & Hprof' & _).
    split; [now rewrite Hprof'|]. split; [exact Hread|].
    split; [reflexivity|]. split; [reflexivity|]. exact Hread'.
  - rewrite (Hro eq_refl).
    destruct (writeToTicketLog_fold later disk) as (_ & _ & _ & Hro').
    rewrite (Hro' Hd). auto.
Qed.

(* ===================================================================== *)
(** ** Failure alerts with their addresses *)
(* ===================================================================== *)

Lemma field_setField_eq (o : Obj) (k : string) (v : Value) :
  field (setField o k v) k = v.
Proof.
  induction o as [|[k' x] o IH]; cbn [setField field].
  - now rewrite String.eqb_refl.
  - destruct (String.eqb k' k) eqn:E; cbn [field].
    + now rewrite String.eqb_refl.
    + now rewrite E.
Qed.

Lemma field_setField_ne (o : Obj) (k k0 : string) (v : Value) :
  k0 <> k -> field (setField o k v) k0 = field o k0.
Proof.
  intros Hne. apply String.eqb_neq in Hne.
  induction o as [|[k' x] o IH]; cbn [setField field].
  - rewrite String.eqb_sym. now rewrite Hne.
  - destruct (String.eqb k' k) eqn:E; cbn [field].
    + apply String.eqb_eq in E. subst k'. rewrite String.eqb_sym.
      now rewrite Hne.
    + now rewrite IH.
Qed.

(** X26: [getEmailFailures] answers with the alerts of the feed, as many and
    in the same order, each with its own properties and an [email] property:
    the address of the first entry of the ticket log whose ticket number, as
    text, is that of the alert, or [Unknown] when the log has none.  When
    the profile does not exist nothing is asked of the helpdesk, and an
    error is sent; when the call fails, its parsed message is sent. *)
Theorem alerts_get_the_logged_address (stack : string)
    (profiles : list Profile.t) (response : Outcome Alerts.t)
    (selectedProfileName : string) (disk : Disk) :
  let effects := getEmailFailures stack profiles response selectedProfileName
                                  disk in
  match findProfile profiles selectedProfileName, response with
  | None, _ =>
      effects
      = [Sent "emailFailuresResult"
              (VObj [("success", VBool false);
                     ("error",
                      VStr "Profile not found for fetching email failures.")])]
  | Some activeProfile, Rejected error =>
      requested effects
      = [{| Request.method := "get";
            Request.relativeUrl :=
              "/api/v1/emailFailureAlerts?department="
              +:+ Profile.defaultDepartmentId activeProfile +:+ "&limit=50";
            Request.data := VNull |}]
      /\ In (Sent "emailFailuresResult"
                  (VObj [("success", VBool false);
                         ("error", ParsedError.message (parseError error))]))
            effects
  | Some activeProfile, Resolved body =>
      exists out : list Obj,
        effects
        = [Requested {| Request.method := "get";
                        Request.relativeUrl :=
                          "/api/v1/emailFailureAlerts?department="
                          +:+ Profile.defaultDepartmentId activeProfile
                          +:+ "&limit=50";
                        Request.data := VNull |};
           Sent "emailFailuresResult"
                (VObj [("success", VBool true);
                       ("data", VArr (map VObj out))])]
        /\ length out = length (orEmpty (Alerts.data body))
        /\ forall (i : nat) (failure : Obj),
             orEmpty (Alerts.data body) !! i = Some failure ->
             exists withAddress : Obj,
               out !! i = Some withAddress
               /\ (forall k, k <> "email" ->
                             field withAddress k = field failure k)
               /\ field withAddress "email"
                  = VStr (match findLogEntry (readTicketLog disk) failure with
                          | Some logEntry => LogEntry.email logEntry
                          | None => "Unknown"
                          end)
  end.
Proof.
  cbv zeta. unfold getEmailFailures.
  destruct (findProfile profiles selectedProfileName) as [activeProfile|].
  - destruct response as [body|error].
    + eexists. split; [reflexivity|]. split; [apply length_map|].
      intros i failure Hi. exists (withEmail (readTicketLog disk) failure).
      split; [now rewrite list_lookup_fmap, Hi|]. unfold withEmail. split.
      * intros k Hk. now apply field_setField_ne.
      * rewrite field_setField_eq.
        now destruct (findLogEntry (readTicketLog disk) failure).
    + cbn [requested]. split; [reflexivity|]. cbn [In]. auto.
  - destruct response; reflexivity.
Qed.

Lemma find_app {A} (f : A -> bool) (l1 l2 : list A) :
  List.find f (l1 ++ l2)
  = match List.find f l1 with
    | Some x => Some x
    | None => List.find f l2
    end.
Proof.
  induction l1 as [|x l1 IH]; [reflexivity|]. cbn [List.find app].
  now destruct (f x).
Qed.

(** X27: from the log to the alert: once a ticket has been written to the
    log, an alert for its number is reported with an address, the one just
    written when the log had no earlier entry for that number, and otherwise
    the address of the earliest such entry: an entry is never replaced, so
    the first ticket logged under a number keeps it. *)
Theorem first_logged_address_wins (newEntry : LogEntry.t) (failure : Obj)
    (disk : Disk) :
  writable disk = true ->
  toStr (field failure "ticketNumber")
  = toStr (LogEntry.ticketNumber newEntry) ->
  field (withEmail (readTicketLog (writeToTicketLog newEntry disk)) failure)
        "email"
  = VStr (match findLogEntry (readTicketLog disk) failure with
          | Some earlier => LogEntry.email earlier
          | None => LogEntry.email newEntry
          end).
Proof.
  intros Hw Hnumber. unfold withEmail. rewrite field_setField_eq.
  rewrite readTicketLog_write, Hw. unfold findLogEntry.
  rewrite find_app.
  destruct (List.find _ (readTicketLog disk)); [reflexivity|].
  cbn [List.find]. rewrite Hnumber, String.eqb_refl. reflexivity.
Qed.

Lemma first_logged_address_wins_witness :
  field (withEmail
           (readTicketLog
              (writeToTicketLog {| LogEntry.ticketNumber := VStr "101";
                                   LogEntry.email := "b@x.com" |}
                 (writeToTicketLog {| LogEntry.ticketNumber := VNum 101;
                                      LogEntry.email := "a@x.com" |}
                                   emptyDisk)))
           mailboxFull)
        "email"
  = VStr (match findLogEntry
                  (readTicketLog
                     (writeToTicketLog {| LogEntry.ticketNumber := VNum 101;
                                          LogEntry.email := "a@x.com" |}
                                       emptyDisk))
                  mailboxFull with
          | Some earlier => LogEntry.email earlier
          | None => "b@x.com"
          end).
Proof.
  apply (first_logged_address_wins
           {| LogEntry.ticketNumber := VStr "101"; LogEntry.email := "b@x.com" |}
           mailboxFull
           (writeToTicketLog {| LogEntry.ticketNumber := VNum 101;
                                LogEntry.email := "a@x.com" |} emptyDisk));
    reflexivity.
Defined.

(* ===================================================================== *)
(** ** The dashboard *)
(* ===================================================================== *)

Lemma trimEnd_allBlank (s : string) : allBlank (trimEnd s) = allBlank s.
Proof.
  induction s as [|c s IH]; [reflexivity|].
  pose proof (trimEnd_empty s) as He.
  cbn [trimEnd allBlank]. destruct (trimEnd s) as [|d t].
  - rewrite <- He. cbn. destruct (isWhiteSpace c) eqn:E; cbn [allBlank];
      [reflexivity|]. now rewrite E.
  - cbn [allBlank] in *. now rewrite IH.
Qed.

Lemma trimEnd_idem (s : string) : trimEnd (trimEnd s) = trimEnd s.
Proof.
  induction s as [|c s IH]; [reflexivity|].
  cbn [trimEnd]. destruct (trimEnd s) as [|d t] eqn:E.
  - destruct (isWhiteSpace c) eqn:Hc; [reflexivity|].
    cbn [trimEnd]. now rewrite Hc.
  - cbn [trimEnd] in *. now rewrite IH.
Qed.

Lemma trimStart_head (s : string) :
  match trimStart s with
  | EmptyString => True
  | String c _ => isWhiteSpace c = false
  end.
Proof.
  induction s as [|c s IH]; [exact I|].
  cbn [trimStart]. destruct (isWhiteSpace c) eqn:E; [exact IH|exact E].
Qed.

Lemma trimEnd_head (c : ascii) (s : string) :
  isWhiteSpace c = false ->
  exists t, trimEnd (String c s) = String c t.
Proof.
  intros Hc. cbn [trimEnd]. destruct (trimEnd s); [rewrite Hc|]; eauto.
Qed.

(** Trimming is idempotent. *)
Lemma trim_idem (s : string) : trim (trim s) = trim s.
Proof.
  unfold trim. pose proof (trimStart_head s) as Hh.
  destruct (trimStart s) as [|c r]; [reflexivity|].
  destruct (trimEnd_head c r Hh) as (t & Ht). rewrite Ht.
  cbn [trimStart]. rewrite Hh, <- Ht. apply trimEnd_idem.
Qed.

Lemma trim_allBlank (s : string) : allBlank (trim s) = allBlank s.
Proof. unfold trim. now rewrite trimEnd_allBlank, trimStart_allBlank. Qed.

Lemma length_filter_map {A B} (f : A -> B) (p : B -> bool) (l : list A) :
  length (List.filter p (map f l))
  = length (List.filter (fun x => p (f x)) l).
Proof.
  induction l as [|x l IH]; [reflexivity|]. cbn [map List.filter].
  destruct (p (f x)); cbn [length]; now rewrite IH.
Qed.

Lemma submittedEmails_trimmed (text : string) :
  Forall (fun email => trim email = email /\ email <> ""
                       /\ allBlank email = false)
         (submittedEmails text).
Proof.
  unfold submittedEmails. apply List.Forall_forall. intros email Hin.
  apply filter_In in Hin as [Hin Hne]. apply in_map_iff in Hin as (x & <- & _).
  apply negb_true_iff in Hne. split; [apply trim_idem|]. split.
  - now apply String.eqb_neq.
  - rewrite trim_allBlank, <- trim_empty. exact Hne.
Qed.

Lemma nonBlank_id (emails : list string) :
  Forall (fun email => allBlank email = false) emails ->
  nonBlank emails = emails.
Proof.
  unfold nonBlank. induction 1 as [|email emails He Hall IH]; [reflexivity|].
  cbn [List.filter]. rewrite trim_empty, He. cbn [negb]. now rewrite IH.
Qed.

(** X28: what the dashboard submits: when [handleFormSubmit] emits
    [startBulkCreate], the payload is for the active profile and carries at
    least one recipient; every recipient is trimmed and not empty, so the
    worker's test for blank entries passes none of them; and the number of
    tickets the dashboard then expects is the number of recipients sent,
    which is also the count the form displays. *)
Theorem dashboard_submits_no_blank_entry (socket : bool) (now : Z)
    (activeProfileName : string) (jobs jobs' : Jobs) (data : BulkData.t) :
  handleFormSubmit socket now activeProfileName jobs = (jobs', Some data) ->
  exists job job',
    jobs !! activeProfileName = Some job
    /\ jobs' !! activeProfileName = Some job'
    /\ BulkData.selectedProfileName data = activeProfileName
    /\ BulkData.emails data
       = submittedEmails (FormData.emails (JobState.formData job))
    /\ BulkData.emails data <> []
    /\ Forall (fun email => trim email = email /\ email <> "")
              (BulkData.emails data)
    /\ nonBlank (BulkData.emails data) = BulkData.emails data
    /\ JobState.totalTicketsToProcess job' = length (BulkData.emails data)
    /\ length (BulkData.emails data)
       = emailCount (FormData.emails (JobState.formData job))
    /\ JobState.results job' = [].
Proof.
  unfold handleFormSubmit.
  destruct (negb socket || negb (truthyStr activeProfileName));
    [discriminate|].
  destruct (jobs !! activeProfileName) as [job|] eqn:Hjob; [|discriminate].
  destruct (length (submittedEmails _) =? 0)%nat eqn:Hlen; [discriminate|].
  intros [= <- <-]. apply Nat.eqb_neq in Hlen.
  pose proof (submittedEmails_trimmed (FormData.emails (JobState.formData job)))
    as Htrim.
  eexists job, _. split; [reflexivity|]. split; [apply lookup_insert_eq|].
  cbn [BulkData.selectedProfileName BulkData.emails
       JobState.totalTicketsToProcess JobState.results].
  split; [reflexivity|]. split; [reflexivity|].
  split; [intros E; rewrite E in Hlen; now elim Hlen|].
  split; [eapply Forall_impl; [exact Htrim|]; cbv beta; tauto|].
  split.
  { apply nonBlank_id. eapply Forall_impl; [exact Htrim|]. cbv beta. tauto. }
  split; [reflexivity|]. split; [|reflexivity].
  unfold submittedEmails, emailCount.
  apply (length_filter_map trim (fun email => negb (String.eqb email ""))).
Qed.

Lemma dashboard_submits_no_blank_entry_witness :
  exists job job',
    dashboard pasted !! "acme" = Some job
    /\ fst (handleFormSubmit true 0 "acme" (dashboard pasted)) !! "acme" = Some job'
    /\ BulkData.selectedProfileName (batch ["a@x.com"; "b@x.com"] 1 false)
       = "acme"
    /\ BulkData.emails (batch ["a@x.com"; "b@x.com"] 1 false)
       = submittedEmails (FormData.emails (JobState.formData job))
    /\ BulkData.emails (batch ["a@x.com"; "b@x.com"] 1 false) <> []
    /\ Forall (fun email => trim email = email /\ email <> "")
              (BulkData.emails (batch ["a@x.com"; "b@x.com"] 1 false))
    /\ nonBlank (BulkData.emails (batch ["a@x.com"; "b@x.com"] 1 false))
       = BulkData.emails (batch ["a@x.com"; "b@x.com"] 1 false)
    /\ JobState.totalTicketsToProcess job'
       = length (BulkData.emails (batch ["a@x.com"; "b@x.com"] 1 false))
    /\ length (BulkData.emails (batch ["a@x.com"; "b@x.com"] 1 false))
       = emailCount (FormData.emails (JobState.formData job))
    /\ JobState.results job' = [].
Proof.
  apply (dashboard_submits_no_blank_entry true 0 "acme"
           (dashboard pasted)).
  vm_compute. reflexivity.
Defined.

Lemma shown_applyUpdate (updateData : Update.t) (rs : list TicketResult.t) :
  map shown (map (applyUpdate updateData) rs) = map shown rs.
Proof.
  rewrite map_map. apply map_ext. intros r. unfold applyUpdate.
  now destruct (strictEq _ _).
Qed.

Lemma arrivals_cons (input : Input) (rest : list Input) :
  arrivals (input :: rest) = arrivals [input] ++ arrivals rest.
Proof. destruct input as [[]| |]; reflexivity. Qed.

(** One input on a dashboard that has a job for the active profile. *)
Lemma step_spec (socketId name : string) (input : Input) (jobs : Jobs)
    (job : JobState.t) :
  truthyStr name = true ->
  jobs !! name = Some job ->
  concerns name input = true ->
  Forall (fun r => TicketResult.profileName r = name) (arrivals [input]) ->
  exists jobs' sigs job',
    step socketId name input jobs = Some (jobs', sigs)
    /\ jobs' !! name = Some job'
    /\ (forall other, other <> name -> jobs' !! other = jobs !! other)
    /\ Forall (fun sig => controls socketId name sig = true) sigs
    /\ length sigs = length (List.filter isClick [input])
    /\ (isClickEnd input = true -> job' = createInitialJobState)
    /\ (isClickEnd input = false ->
        JobState.formData job' = JobState.formData job
        /\ JobState.totalTicketsToProcess job'
           = JobState.totalTicketsToProcess job
        /\ map shown (JobState.results job')
           = map shown (JobState.results job ++ arrivals [input])
        /\ (isUpdate input = false ->
            JobState.results job'
            = JobState.results job ++ arrivals [input])).
Proof.
  intros Hname Hjob Hconcerns Harr.
  assert (Hown : member jobs name = Own job) by now apply member_Own.
  assert (Hctl : forall sig,
            sig = Pause socketId name \/ sig = Resume socketId name
            \/ sig = End socketId name ->
            controls socketId name sig = true).
  { intros sig [->|[->| ->]]; cbn [controls]; now rewrite !String.eqb_refl. }
  destruct input as [event| |]; cbn [step onEvent].
  - assert (Hquiet : forall job',
              exists jobs' sigs job'',
                Some (<[name := job']> jobs, @nil Signal) = Some (jobs', sigs)
                /\ jobs' !! name = Some job''
                /\ job'' = job'
                /\ (forall other, other <> name ->
                                  jobs' !! other = jobs !! other)
                /\ Forall (fun sig => controls socketId name sig = true) sigs
                /\ length sigs = 0%nat).
    { intros job'. do 3 eexists. split; [reflexivity|].
      split; [apply lookup_insert_eq|]. split; [reflexivity|].
      split; [intros other Hne; now apply lookup_insert_ne|].
      split; [constructor|reflexivity]. }
    destruct event as [r|message q|q|q|resultEventName u];
      cbn [concerns] in Hconcerns; cbn [arrivals] in Harr;
      cbn [onEvent arrivals].
    + apply Forall_inv in Harr. unfold onTicketResult. rewrite Harr, Hown.
      destruct (Hquiet {| JobState.formData := JobState.formData job;
                          JobState.results := JobState.results job ++ [r];
                          JobState.isProcessing := JobState.isProcessing job;
                          JobState.isPaused := JobState.isPaused job;
                          JobState.isComplete := JobState.isComplete job;
                          JobState.processingStartTime :=
                            JobState.processingStartTime job;
                          JobState.processingTime :=
                            JobState.processingTime job;
                          JobState.totalTicketsToProcess :=
                            JobState.totalTicketsToProcess job;
                          JobState.countdown :=
                            if (JobState.totalTicketsToProcess job
                                <=? length (JobState.results job) + 1)%nat
                            then 0 else JobState.currentDelay job;
                          JobState.currentDelay := JobState.currentDelay job;
                          JobState.filterText := JobState.filterText job |})
        as (jobs' & sigs & job' & Hrun & Hlook & -> & Hother & Hsigs & Hlen).
      exists jobs', sigs. eexists. split; [exact Hrun|]. split; [exact Hlook|].
      split; [exact Hother|]. split; [exact Hsigs|]. split; [exact Hlen|].
      split; [discriminate|]. intros _.
      cbn [JobState.formData JobState.totalTicketsToProcess JobState.results].
      auto.
    + apply String.eqb_eq in Hconcerns. subst q.
      unfold handleJobCompletion. rewrite Hown.
      destruct (Hquiet {| JobState.formData := JobState.formData job;
                          JobState.results := JobState.results job;
                          JobState.isProcessing := false;
                          JobState.isPaused := false;
                          JobState.isComplete := true;
                          JobState.processingStartTime :=
                            JobState.processingStartTime job;
                          JobState.processingTime :=
                            JobState.processingTime job;
                          JobState.totalTicketsToProcess :=
                            JobState.totalTicketsToProcess job;
                          JobState.countdown := 0;
                          JobState.currentDelay := JobState.currentDelay job;
                          JobState.filterText := JobState.filterText job |})
        as (jobs' & sigs & job' & Hrun & Hlook & -> & Hother & Hsigs & Hlen).
      exists jobs', sigs. eexists. split; [exact Hrun|]. split; [exact Hlook|].
      split; [exact Hother|]. split; [exact Hsigs|]. split; [exact Hlen|].
      split; [discriminate|]. intros _.
      cbn [JobState.formData JobState.totalTicketsToProcess JobState.results].
      rewrite app_nil_r. auto.
    + apply String.eqb_eq in Hconcerns. subst q.
      unfold handleJobCompletion. rewrite Hown.
      destruct (Hquiet {| JobState.formData := JobState.formData job;
                          JobState.results := JobState.results job;
                          JobState.isProcessing := false;
                          JobState.isPaused := false;
                          JobState.isComplete := true;
                          JobState.processingStartTime :=
                            JobState.processingStartTime job;
                          JobState.processingTime :=
                            JobState.processingTime job;
                          JobState.totalTicketsToProcess :=
                            JobState.totalTicketsToProcess job;
                          JobState.countdown := 0;
                          JobState.currentDelay := JobState.currentDelay job;
                          JobState.filterText := JobState.filterText job |})
        as (jobs' & sigs & job' & Hrun & Hlook & -> & Hother & Hsigs & Hlen).
      exists jobs', sigs. eexists. split; [exact Hrun|]. split; [exact Hlook|].
      split; [exact Hother|]. split; [exact Hsigs|]. split; [exact Hlen|].
      split; [discriminate|]. intros _.
      cbn [JobState.formData JobState.totalTicketsToProcess JobState.results].
      rewrite app_nil_r. auto.
    + apply String.eqb_eq in Hconcerns. subst q.
      unfold handleJobCompletion. rewrite Hown.
      destruct (Hquiet {| JobState.formData := JobState.formData job;
                          JobState.results := JobState.results job;
                          JobState.isProcessing := false;
                          JobState.isPaused := false;
                          JobState.isComplete := true;
                          JobState.processingStartTime :=
                            JobState.processingStartTime job;
                          JobState.processingTime :=
                            JobState.processingTime job;
                          JobState.totalTicketsToProcess :=
                            JobState.totalTicketsToProcess job;
                          JobState.countdown := 0;
                          JobState.currentDelay := JobState.currentDelay job;
                          JobState.filterText := JobState.filterText job |})
        as (jobs' & sigs & job' & Hrun & Hlook & -> & Hother & Hsigs & Hlen).
      exists jobs', sigs. eexists. split; [exact Hrun|]. split; [exact Hlook|].
      split; [exact Hother|]. split; [exact Hsigs|]. split; [exact Hlen|].
      split; [discriminate|]. intros _.
      cbn [JobState.formData JobState.totalTicketsToProcess JobState.results].
      rewrite app_nil_r. auto.
    + apply String.eqb_eq in Hconcerns.
      cbn [isUpdate isClickEnd].
      destruct (String.eqb resultEventName "ticketUpdate") eqn:Hev.
      * unfold onTicketUpdate. rewrite Hconcerns, Hown.
        destruct (Hquiet {| JobState.formData := JobState.formData job;
                            JobState.results :=
                              map (applyUpdate u) (JobState.results job);
                            JobState.isProcessing := JobState.isProcessing job;
                            JobState.isPaused := JobState.isPaused job;
                            JobState.isComplete := JobState.isComplete job;
                            JobState.processingStartTime :=
                              JobState.processingStartTime job;
                            JobState.processingTime :=
                              JobState.processingTime job;
                            JobState.totalTicketsToProcess :=
                              JobState.totalTicketsToProcess job;
                            JobState.countdown := JobState.countdown job;
                            JobState.currentDelay :=
                              JobState.currentDelay job;
                            JobState.filterText :=
                              JobState.filterText job |})
          as (jobs' & sigs & job' & Hrun & Hlook & -> & Hother & Hsigs & Hlen).
        exists jobs', sigs. eexists. split; [exact Hrun|]. split; [exact Hlook|].
        split; [exact Hother|]. split; [exact Hsigs|]. split; [exact Hlen|].
        split; [discriminate|]. intros _.
        cbn [JobState.formData JobState.totalTicketsToProcess
             JobState.results].
        rewrite app_nil_r, shown_applyUpdate.
        repeat split; auto; discriminate.
      * exists jobs, [], job. rewrite app_nil_r.
        repeat split; auto; discriminate.
  - destruct (handlePauseResume true socketId name jobs) as [js sigs] eqn:Hrun.
    unfold handlePauseResume in Hrun. rewrite Hname, Hjob in Hrun.
    cbn [negb orb] in Hrun. injection Hrun as <- <-.
    do 3 eexists. split; [reflexivity|]. split; [apply lookup_insert_eq|].
    split; [intros other Hne; now apply lookup_insert_ne|].
    split; [constructor; [|constructor]; apply Hctl;
            destruct (JobState.isPaused job); auto|].
    split; [reflexivity|]. split; [discriminate|]. intros _.
    cbn [JobState.formData JobState.totalTicketsToProcess JobState.results
         arrivals].
    rewrite app_nil_r. auto.
  - unfold handleEndJob. rewrite Hname. cbn [negb orb].
    do 3 eexists. split; [reflexivity|]. split; [apply lookup_insert_eq|].
    split; [intros other Hne; now apply lookup_insert_ne|].
    split; [constructor; [|constructor]; apply Hctl; auto|].
    split; [reflexivity|]. split; [reflexivity|]. discriminate.
Qed.

(** A sequence of inputs on a dashboard that has a job for the active
    profile. *)
Lemma operate_spec (socketId name : string) (inputs : list Input) :
  truthyStr name = true ->
  Forall (fun input => concerns name input = true) inputs ->
  Forall (fun r => TicketResult.profileName r = name) (arrivals inputs) ->
  forall (jobs : Jobs) (job : JobState.t),
    jobs !! name = Some job ->
    exists jobs' sigs job',
      operate socketId name inputs jobs = Some (jobs', sigs)
      /\ jobs' !! name = Some job'
      /\ (forall other, other <> name -> jobs' !! other = jobs !! other)
      /\ Forall (fun sig => controls socketId name sig = true) sigs
      /\ length sigs = length (List.filter isClick inputs)
      /\ (existsb isClickEnd inputs = false ->
          JobState.formData job' = JobState.formData job
          /\ JobState.totalTicketsToProcess job'
             = JobState.totalTicketsToProcess job
          /\ map shown (JobState.results job')
             = map shown (JobState.results job ++ arrivals inputs)
          /\ (existsb isUpdate inputs = false ->
              JobState.results job'
              = JobState.results job ++ arrivals inputs))
      /\ (forall before after,
            inputs = before ++ ClickEnd :: after ->
            existsb isClickEnd after = false ->
            JobState.formData job'
            = JobState.formData createInitialJobState
            /\ JobState.totalTicketsToProcess job' = 0%nat
            /\ map shown (JobState.results job')
               = map shown (arrivals after)
            /\ (existsb isUpdate after = false ->
                JobState.results job' = arrivals after)).
Proof.
  intros Hname Hconcerns. induction Hconcerns as [|input rest Hc Hrest IH];
    intros Harr jobs job Hjob.
  - exists jobs, [], job. cbn [operate arrivals]. rewrite app_nil_r.
    split; [reflexivity|]. split; [exact Hjob|]. split; [auto|].
    split; [constructor|]. split; [reflexivity|]. split; [auto|].
    intros [|? ?] after Hsplit; discriminate Hsplit.
  - rewrite arrivals_cons in Harr. apply Forall_app in Harr as [Harr1 Harr2].
    destruct (step_spec socketId name input jobs job Hname Hjob Hc Harr1)
      as (jobs1 & sigs1 & job1 & Hstep & Hjob1 & Hother1 & Hsigs1 & Hlen1
          & Hend1 & Hkeep1).
    destruct (IH Harr2 jobs1 job1 Hjob1)
      as (jobs' & sigs' & job' & Hrun & Hjob' & Hother' & Hsigs' & Hlen'
          & Hkeep' & Hend').
    exists jobs', (sigs1 ++ sigs'), job'. cbn [operate].
    rewrite Hstep, Hrun. split; [reflexivity|]. split; [exact Hjob'|].
    split; [intros other Hne; now rewrite Hother', Hother1|].
    split; [now apply Forall_app|].
    split.
    { rewrite length_app, Hlen1, Hlen'. cbn [List.filter].
      destruct (isClick input); reflexivity. }
    split.
    + cbn [existsb]. intros Hno. apply orb_false_iff in Hno as [Hno1 Hno2].
      destruct (Hkeep1 Hno1) as (Hf1 & Ht1 & Hs1 & Hr1).
      destruct (Hkeep' Hno2) as (Hf' & Ht' & Hs' & Hr').
      split; [congruence|]. split; [congruence|].
      rewrite (arrivals_cons input rest).
      split.
      * rewrite Hs', !map_app, Hs1, map_app. now rewrite <- app_assoc.
      * intros Hnu. apply orb_false_iff in Hnu as [Hnu1 Hnu2].
        rewrite (Hr' Hnu2), (Hr1 Hnu1). now rewrite <- app_assoc.
    + intros before after Hsplit Hno.
      destruct before as [|input' before'];
        cbn [app] in Hsplit; injection Hsplit as -> ->.
      * rewrite (Hend1 eq_refl) in *.
        destruct (Hkeep' Hno) as (Hf' & Ht' & Hs' & Hr').
        cbn [createInitialJobState JobState.results app] in Hs', Hr'.
        auto.
      * now apply (Hend' before' after).
Qed.

(** X29: from the worker to the dashboard.  Let every [ticketResult] event
    of a batch arrive at a dashboard that has a job for the selected
    profile, in order, mixed in any way with clicks on the pause and end
    buttons and with verification and terminal events for that profile.
    No state update throws, the jobs of the other profiles are untouched,
    and each click sends one control message for the job of this
    connection and profile.  If the end button is not clicked, the
    dashboard then lists the results it had followed by every result of
    the batch, in order and under their addresses and ticket numbers, and
    they are the very results of the batch if no verification event has
    rewritten them; the form is as it was.  A click on the end button puts a
    fresh job state in the place of the job: after the last such click the
    form is empty, no ticket is expected, and the list holds the results
    that arrived after it and nothing else. *)
Theorem dashboard_shows_every_result (socketId : string)
    (profiles : list Profile.t) (upstream : Upstream.t) (data : BulkData.t)
    (m : Machine) (inputs : list Input) (jobs : Jobs) (job : JobState.t) :
  let name := BulkData.selectedProfileName data in
  let h := snd (startBulkCreate socketId profiles upstream data m) in
  truthyStr name = true ->
  jobs !! name = Some job ->
  arrivals inputs = results h ->
  Forall (fun input => concerns name input = true) inputs ->
  exists jobs' sigs job',
    operate socketId name inputs jobs = Some (jobs', sigs)
    /\ jobs' !! name = Some job'
    /\ (forall other, other <> name -> jobs' !! other = jobs !! other)
    /\ Forall (fun sig => controls socketId name sig = true) sigs
    /\ length sigs = length (List.filter isClick inputs)
    /\ (existsb isClickEnd inputs = false ->
        JobState.formData job' = JobState.formData job
        /\ JobState.totalTicketsToProcess job'
           = JobState.totalTicketsToProcess job
        /\ map shown (JobState.results job')
           = map shown (JobState.results job ++ results h)
        /\ (existsb isUpdate inputs = false ->
            JobState.results job' = JobState.results job ++ results h))
    /\ (forall before after,
          inputs = before ++ ClickEnd :: after ->
          existsb isClickEnd after = false ->
          JobState.formData job' = JobState.formData createInitialJobState
          /\ JobState.totalTicketsToProcess job' = 0%nat
          /\ map shown (JobState.results job') = map shown (arrivals after)
          /\ (existsb isUpdate after = false ->
              JobState.results job' = arrivals after)).
Proof.
  intros name h Hname Hjob Harr Hconcerns.
  rewrite <- Harr.
  apply operate_spec; auto.
  rewrite Harr. apply startBulkCreate_profileName.
Qed.

Lemma dashboard_shows_every_result_witness :
  let jobs := fst (handleFormSubmit true 0 "acme" (dashboard pasted)) in
  let data := batch ["a@x.com"; "b@x.com"] 1 false in
  let paused :=
    snd (startBulkCreate "s1" [acme] helpdesk data
           (idle [[Pause "s1" "acme"]; [Resume "s1" "acme"]])) in
  let ended :=
    snd (startBulkCreate "s1" [acme] helpdesk data
           (idle (repeat [] 11 ++ [[End "s1" "acme"]]))) in
  (exists jobs' sigs job',
     operate "s1" "acme"
       (ClickPauseResume :: ClickPauseResume :: incoming paused
        ++ [Receive (bulkComplete "acme")]) jobs
     = Some (jobs', sigs)
     /\ jobs' !! "acme" = Some job'
     /\ length sigs = 2%nat
     /\ JobState.results job' = results paused
     /\ map TicketResult.email (results paused) = ["a@x.com"; "b@x.com"])
  /\ (exists jobs' sigs job',
        operate "s1" "acme"
          (firstn 1 (incoming ended)
           ++ ClickEnd :: skipn 1 (incoming ended)
           ++ [Receive (bulkEnded "acme")]) jobs
        = Some (jobs', sigs)
        /\ jobs' !! "acme" = Some job'
        /\ length sigs = 1%nat
        /\ JobState.formData job' = JobState.formData createInitialJobState
        /\ map TicketResult.email (JobState.results job') = ["b@x.com"]).
Proof.
  cbv zeta. split.
  - destruct (dashboard_shows_every_result "s1" [acme] helpdesk
                (batch ["a@x.com"; "b@x.com"] 1 false)
                (idle [[Pause "s1" "acme"]; [Resume "s1" "acme"]])
                (ClickPauseResume :: ClickPauseResume
                 :: incoming
                      (snd (startBulkCreate "s1" [acme] helpdesk
                              (batch ["a@x.com"; "b@x.com"] 1 false)
                              (idle [[Pause "s1" "acme"];
                                     [Resume "s1" "acme"]])))
                 ++ [Receive (bulkComplete "acme")])
                (fst (handleFormSubmit true 0 "acme" (dashboard pasted)))
                (submittedJob pasted 2))
      as (jobs' & sigs & job' & Hrun & Hjob & _ & _ & Hlen & Hkeep & _).
    + reflexivity.
    + vm_compute. reflexivity.
    + vm_compute. reflexivity.
    + vm_compute. repeat constructor.
    + exists jobs', sigs, job'. split; [exact Hrun|]. split; [exact Hjob|].
      split; [rewrite Hlen; vm_compute; reflexivity|].
      destruct Hkeep as (_ & _ & _ & Hres); [vm_compute; reflexivity|].
      split; [|vm_compute; reflexivity].
      rewrite Hres; [reflexivity|vm_compute; reflexivity].
  - destruct (dashboard_shows_every_result "s1" [acme] helpdesk
                (batch ["a@x.com"; "b@x.com"] 1 false)
                (idle (repeat [] 11 ++ [[End "s1" "acme"]]))
                (firstn 1 (incoming
                             (snd (startBulkCreate "s1" [acme] helpdesk
                                     (batch ["a@x.com"; "b@x.com"] 1 false)
                                     (idle (repeat [] 11
                                            ++ [[End "s1" "acme"]])))))
                 ++ ClickEnd
                 :: skipn 1 (incoming
                               (snd (startBulkCreate "s1" [acme] helpdesk
                                       (batch ["a@x.com"; "b@x.com"] 1 false)
                                       (idle (repeat [] 11
                                              ++ [[End "s1" "acme"]])))))
                 ++ [Receive (bulkEnded "acme")])
                (fst (handleFormSubmit true 0 "acme" (dashboard pasted)))
                (submittedJob pasted 2))
      as (jobs' & sigs & job' & Hrun & Hjob & _ & _ & Hlen & _ & Hend).
    + reflexivity.
    + vm_compute. reflexivity.
    + vm_compute. reflexivity.
    + vm_compute. repeat constructor.
    + exists jobs', sigs, job'. split; [exact Hrun|]. split; [exact Hjob|].
      split; [rewrite Hlen; vm_compute; reflexivity|].
      destruct (Hend _ _ eq_refl) as (Hform & _ & _ & Hres);
        [vm_compute; reflexivity|].
      split; [exact Hform|].
      rewrite Hres; vm_compute; reflexivity.
Defined.

Lemma handlePauseResume_inStep (socketId activeProfileName : string)
    (jobs : Jobs) (r : Registry) (job : JobState.t) :
  truthyStr activeProfileName = true ->
  jobs !! activeProfileName = Some job ->
  statusOf r (createJobId socketId activeProfileName)
  = Some (if JobState.isPaused job then paused else running) ->
  exists jobs' sig job',
    handlePauseResume true socketId activeProfileName jobs
    = (Some jobs', [sig])
    /\ sig = (if JobState.isPaused job
              then Resume socketId activeProfileName
              else Pause socketId activeProfileName)
    /\ jobs' !! activeProfileName = Some job'
    /\ JobState.isPaused job' = negb (JobState.isPaused job)
    /\ JobState.results job' = JobState.results job
    /\ statusOf (deliver [sig] r) (createJobId socketId activeProfileName)
       = Some (if JobState.isPaused job' then paused else running)
    /\ (forall other, other <> activeProfileName ->
                      jobs' !! other = jobs !! other)
    /\ (forall j, j <> createJobId socketId activeProfileName ->
                  deliver [sig] r !! j = r !! j).
Proof.
  intros Hname Hjob Hstatus. unfold handlePauseResume.
  rewrite Hname, Hjob. cbn [negb orb]. do 3 eexists.
  split; [reflexivity|]. split; [reflexivity|].
  split; [apply lookup_insert_eq|].
  cbn [JobState.isPaused JobState.results].
  split; [reflexivity|]. split; [reflexivity|].
  assert (Hpresent : is_Some (r !! createJobId socketId activeProfileName)).
  { unfold statusOf in Hstatus.
    destruct (r !! createJobId socketId activeProfileName); [eauto|discriminate]. }
  split; [|split].
  - unfold statusOf.
    destruct (JobState.isPaused job); cbn [deliver fold_left handle negb];
      unfold resumeJob, pauseJob; cbv zeta;
      now rewrite setStatus_present.
  - intros other Hne. now apply lookup_insert_ne.
  - intros j Hj.
    destruct (JobState.isPaused job); cbn [deliver fold_left handle];
      unfold resumeJob, pauseJob; cbv zeta; now apply setStatus_other.
Qed.

(** X30: the pause button and the job stay in step.  When the dashboard's
    flag and the registry's status of a job say the same (paused on both
    sides, or running and not paused), they still do after any number of
    clicks on the pause button, each click sending [pauseJob] or
    [resumeJob] as the flag was: after an even number the flag is as it
    was, after an odd number it is the opposite; the results shown, the
    jobs of the other profiles and the other entries of the registry are
    untouched. *)
Theorem pause_button_stays_in_step (n : nat) (socketId activeProfileName : string)
    (jobs : Jobs) (r : Registry) (job : JobState.t) :
  truthyStr activeProfileName = true ->
  jobs !! activeProfileName = Some job ->
  inStep socketId activeProfileName jobs r ->
  exists jobs' r' job',
    clicks n socketId activeProfileName jobs r = Some (jobs', r')
    /\ inStep socketId activeProfileName jobs' r'
    /\ jobs' !! activeProfileName = Some job'
    /\ JobState.isPaused job'
       = (if Nat.even n then JobState.isPaused job
          else negb (JobState.isPaused job))
    /\ JobState.results job' = JobState.results job
    /\ (forall other, other <> activeProfileName ->
                      jobs' !! other = jobs !! other)
    /\ (forall j, j <> createJobId socketId activeProfileName ->
                  r' !! j = r !! j).
Proof.
  intros Hname. revert jobs r job.
  induction n as [|n IH]; intros jobs r job Hjob Hstep.
  - exists jobs, r, job. cbn [clicks Nat.even]. repeat split; auto.
  - destruct Hstep as (job0 & Hjob0 & Hstatus).
    assert (job0 = job) by congruence. subst job0.
    destruct (handlePauseResume_inStep socketId activeProfileName jobs r job
                Hname Hjob Hstatus)
      as (jobs1 & sig & job1 & Hrun & _ & Hjob1 & Hpaused & Hres & Hstatus1
          & Hjobs & Hreg).
    destruct (IH jobs1 (deliver [sig] r) job1 Hjob1)
      as (jobs' & r' & job' & Hclicks & Hstep' & Hjob' & Hpaused' & Hres'
          & Hjobs' & Hreg').
    { exists job1. split; assumption. }
    exists jobs', r', job'. cbn [clicks]. rewrite Hrun.
    split; [exact Hclicks|]. split; [exact Hstep'|]. split; [exact Hjob'|].
    split.
    { rewrite Hpaused', Hpaused. rewrite Nat.even_succ, <- Nat.negb_even.
      destruct (Nat.even n); cbn [negb]; [reflexivity|].
      now rewrite negb_involutive. }
    split; [congruence|]. split.
    + intros other Hne. rewrite Hjobs' by exact Hne. now apply Hjobs.
    + intros j Hj. rewrite Hreg' by exact Hj. now apply Hreg.
Qed.

Lemma pause_button_stays_in_step_witness :
  exists jobs' r' job',
    clicks 3 "s1" "acme" (dashboard "a@x.com") (startJob "s1" "acme" ∅)
    = Some (jobs', r')
    /\ inStep "s1" "acme" jobs' r'
    /\ jobs' !! "acme" = Some job'
    /\ JobState.isPaused job'
       = (if Nat.even 3 then JobState.isPaused (idleJob "a@x.com")
          else negb (JobState.isPaused (idleJob "a@x.com")))
    /\ JobState.results job' = JobState.results (idleJob "a@x.com")
    /\ (forall other, other <> "acme" ->
                      jobs' !! other = dashboard "a@x.com" !! other)
    /\ (forall j, j <> createJobId "s1" "acme" ->
                  r' !! j = startJob "s1" "acme" ∅ !! j).
Proof.
  apply (pause_button_stays_in_step 3 "s1" "acme" (dashboard "a@x.com")
           (startJob "s1" "acme" ∅) (idleJob "a@x.com")).
  - reflexivity.
  - reflexivity.
  - exists (idleJob "a@x.com"). split; reflexivity.
Defined.
